(** * BotID: signing, verification middleware, device login, credential store

    A shallow embedding of the TypeScript sources

      - [src/verify.ts]      (hex/DER Ed25519 helpers, replay window),
      - [src/middleware.ts]  (the Express middleware [verifyBotID]),
      - [src/client.ts]      ([BotIDClient.fetch], the request signer),
      - [src/auth.ts]        (the device-authorization flow),
      - [src/store.ts]       (credential and session files under ~/.botid),
      - [src/init.ts]        (registering an agent, or loading a stored one),

    together with the properties of the design document that concern them,
    and further properties read off the sources.

    Conventions.  JavaScript strings are modelled by [string] (sequences of
    bytes, i.e. the UTF-8 form of the text); numbers by [JSNumber], exact
    decimal values with NaN and the two infinities.  Of the rounding to
    binary64 only the rounding to zero is modelled, where truthiness asks
    for it; the numbers the sources compute with are integers far below
    2^53, and statements that depend on the digits of a header value parsed
    by [Number] take it to be a whole number.  Exceptions are modelled by
    the [Result] type; the clock, the registry and the file system are
    explicit arguments. *)

From Stdlib Require Import ZArith Lia List Bool Ascii String.
From stdpp Require Import base option list strings gmap.

Local Open Scope string_scope.
Local Open Scope Z_scope.

Set Warnings "-register-all".

(* ===================================================================== *)
(** ** Exceptions *)
(* ===================================================================== *)

Module Exn.

(** The exceptions the sources can meet: the built-in error classes, plain
    [new Error(msg)], and a failing file-system or network primitive. *)
Inductive t : Type :=
| TypeError (msg : string)
| SyntaxError (msg : string)
| Error (msg : string)
| SystemError (code : string).

Inductive Result (A : Type) : Type :=
| Ok (a : A)
| Throw (e : t).
Arguments Ok {A} a.
Arguments Throw {A} e.

Definition bind {A B} (r : Result A) (k : A -> Result B) : Result B :=
  match r with
  | Ok a => k a
  | Throw e => Throw e
  end.

(** [try { body } catch { handler }] with a handler that ignores the
    exception object, the only form the sources use. *)
Definition try_catch {A} (body : Result A) (handler : Result A) : Result A :=
  match body with
  | Ok a => Ok a
  | Throw _ => handler
  end.

Definition raises {A} (r : Result A) : Prop :=
  match r with
  | Ok _ => False
  | Throw _ => True
  end.

End Exn.

Export Exn(Result, Ok, Throw).

Notation "'let*' x ':=' e 'in' k" := (Exn.bind e (fun x => k))
  (at level 10, x name, e at level 100, k at level 200).

(* ===================================================================== *)
(** ** Strings *)
(* ===================================================================== *)

Module Str.

Definition is_upper (c : ascii) : bool :=
  let n := N_of_ascii c in ((65 <=? n) && (n <=? 90))%N.

Definition is_lower (c : ascii) : bool :=
  let n := N_of_ascii c in ((97 <=? n) && (n <=? 122))%N.

Definition upper_char (c : ascii) : ascii :=
  if is_lower c then ascii_of_N (N_of_ascii c - 32) else c.

Definition lower_char (c : ascii) : ascii :=
  if is_upper c then ascii_of_N (N_of_ascii c + 32) else c.

Fixpoint map (f : ascii -> ascii) (s : string) : string :=
  match s with
  | EmptyString => EmptyString
  | String c r => String (f c) (map f r)
  end.

(** [String.prototype.toUpperCase] and [toLowerCase].  The sources apply
    them to HTTP method tokens and to header names, which are ASCII; on
    ASCII the Unicode case mapping is the one below, and bytes outside
    ASCII are left alone. *)
Definition toUpperCase : string -> string := map upper_char.
Definition toLowerCase : string -> string := map lower_char.

(** [s.split(sep)[0]] for a one-character separator: the text before the
    first occurrence of [sep], or all of [s] when there is none. *)
Fixpoint split_head (sep : ascii) (s : string) : string :=
  match s with
  | EmptyString => EmptyString
  | String c r =>
      if Ascii.eqb c sep then EmptyString else String c (split_head sep r)
  end.

Fixpoint contains (x : ascii) (s : string) : bool :=
  match s with
  | EmptyString => false
  | String c r => Ascii.eqb c x || contains x r
  end.

Fixpoint rev_onto (s acc : string) : string :=
  match s with
  | EmptyString => acc
  | String c r => rev_onto r (String c acc)
  end.

Definition rev (s : string) : string := rev_onto s EmptyString.

Fixpoint drop_while (p : ascii -> bool) (s : string) : string :=
  match s with
  | EmptyString => EmptyString
  | String c r => if p c then drop_while p r else s
  end.

Definition drop_while_end (p : ascii -> bool) (s : string) : string :=
  rev (drop_while p (rev s)).

(** Text within ASCII: every byte is below 128. *)
Fixpoint ascii_only (s : string) : bool :=
  match s with
  | EmptyString => true
  | String c r => (N_of_ascii c <? 128)%N && ascii_only r
  end.

(** A JavaScript string is falsy exactly when it is empty. *)
Definition truthy (s : string) : bool :=
  match s with
  | EmptyString => false
  | String _ _ => true
  end.

Fixpoint repeat (c : ascii) (n : nat) : string :=
  match n with
  | O => EmptyString
  | S k => String c (repeat c k)
  end.

End Str.

(* ===================================================================== *)
(** ** Numbers *)
(* ===================================================================== *)

Module Num.

(** A JavaScript number: NaN, an infinity, or the exact decimal value
    [m * 10^e]. *)
Inductive JSNumber : Type :=
| NaN
| Infinity (negative : bool)
| Finite (m : Z) (e : Z).

Definition of_Z (z : Z) : JSNumber := Finite z 0.

(** The two mantissas of [m1 * 10^e1] and [m2 * 10^e2] over the common
    exponent [Z.min e1 e2]. *)
Definition align (m1 e1 m2 e2 : Z) : Z * Z :=
  let e0 := Z.min e1 e2 in
  (m1 * 10 ^ (e1 - e0), m2 * 10 ^ (e2 - e0)).

(** [x - y] *)
Definition sub (x y : JSNumber) : JSNumber :=
  match x, y with
  | NaN, _ | _, NaN => NaN
  | Infinity a, Infinity b => if Bool.eqb a b then NaN else Infinity a
  | Infinity a, Finite _ _ => Infinity a
  | Finite _ _, Infinity b => Infinity (negb b)
  | Finite m1 e1, Finite m2 e2 =>
      let '(a, b) := align m1 e1 m2 e2 in Finite (a - b) (Z.min e1 e2)
  end.

(** [Math.abs(x)] *)
Definition abs (x : JSNumber) : JSNumber :=
  match x with
  | NaN => NaN
  | Infinity _ => Infinity false
  | Finite m e => Finite (Z.abs m) e
  end.

(** [x <= y]; every comparison with NaN is false. *)
Definition leb (x y : JSNumber) : bool :=
  match x, y with
  | NaN, _ | _, NaN => false
  | Infinity a, Infinity b => a || negb b
  | Infinity a, Finite _ _ => a
  | Finite _ _, Infinity b => negb b
  | Finite m1 e1, Finite m2 e2 =>
      let '(a, b) := align m1 e1 m2 e2 in a <=? b
  end.

(** Whether the binary64 number nearest to [m * 10^e] is zero.  That is
    so when the value is at most 2^-1075, half of the least positive
    binary64 number 2^-1074; at the half itself the tie goes to zero, the
    even neighbour.  A number read from a text is falsy exactly then. *)
Definition rounds_to_zero (m e : Z) : bool :=
  (m =? 0) || ((e <? 0) && (Z.abs m * 2 ^ 1075 <=? 10 ^ (- e))).

(** *** [Number(string)]: the StringToNumber conversion *)

(** The white space and the line terminators that [Number] trims
    (StrWhiteSpaceChar).  The ASCII ones take one byte: TAB, LF, VT, FF, CR
    and the space. *)
Definition is_ws (c : ascii) : bool :=
  let n := N_of_ascii c in
  ((n =? 9) || (n =? 10) || (n =? 11) || (n =? 12) || (n =? 13) || (n =? 32))%N.

(** U+00A0, the no-break space, takes two bytes. *)
Definition is_ws2 (a b : ascii) : bool :=
  ((N_of_ascii a =? 194) && (N_of_ascii b =? 160))%N.

(** The others take three: U+1680; U+2000 to U+200A; the line and paragraph
    separators U+2028 and U+2029; U+202F; U+205F; U+3000; and U+FEFF, the
    byte order mark. *)
Definition is_ws3 (a b c : ascii) : bool :=
  let x := N_of_ascii a in
  let y := N_of_ascii b in
  let z := N_of_ascii c in
  ((x =? 225) && (y =? 154) && (z =? 128)
   || (x =? 226) && (y =? 128)
      && ((128 <=? z) && (z <=? 138) || (z =? 168) || (z =? 169) || (z =? 175))
   || (x =? 226) && (y =? 129) && (z =? 159)
   || (x =? 227) && (y =? 128) && (z =? 128)
   || (x =? 239) && (y =? 187) && (z =? 191))%N.

(** [s] without the white space it starts with.  With [backwards] the
    bytes of [s] are taken to come last first, as in a reversed text. *)
Fixpoint drop_ws (backwards : bool) (s : string) : string :=
  match s with
  | String a r1 =>
      if is_ws a then drop_ws backwards r1
      else
        match r1 with
        | String b r2 =>
            if (if backwards then is_ws2 b a else is_ws2 a b)
            then drop_ws backwards r2
            else
              match r2 with
              | String c r3 =>
                  if (if backwards then is_ws3 c b a else is_ws3 a b c)
                  then drop_ws backwards r3
                  else s
              | EmptyString => s
              end
        | EmptyString => s
        end
  | EmptyString => s
  end.

Definition trim (s : string) : string :=
  Str.rev (drop_ws true (Str.rev (drop_ws false s))).

Definition digit_val (c : ascii) : option Z :=
  let n := Z.of_N (N_of_ascii c) in
  if (48 <=? n) && (n <=? 57) then Some (n - 48)
  else if (97 <=? n) && (n <=? 102) then Some (n - 87)
  else if (65 <=? n) && (n <=? 70) then Some (n - 55)
  else None.

Definition digit_in (base : Z) (c : ascii) : option Z :=
  match digit_val c with
  | Some d => if d <? base then Some d else None
  | None => None
  end.

(** All of [s] read as digits in [base], most significant first. *)
Fixpoint all_digits (base : Z) (s : string) (acc : Z) : option Z :=
  match s with
  | EmptyString => Some acc
  | String c r =>
      match digit_in base c with
      | Some d => all_digits base r (acc * base + d)
      | None => None
      end
  end.

(** The longest prefix of decimal digits of [s], as (value, number of
    digits, rest). *)
Fixpoint take_digits (s : string) (acc : Z) (n : Z) : Z * Z * string :=
  match s with
  | EmptyString => (acc, n, EmptyString)
  | String c r =>
      match digit_in 10 c with
      | Some d => take_digits r (acc * 10 + d) (n + 1)
      | None => (acc, n, s)
      end
  end.

Definition is_char (x c : ascii) : bool := Ascii.eqb c x.

Definition is_e (c : ascii) : bool := is_char "e" c || is_char "E" c.

(** ExponentPart_opt followed by the end of the string. *)
Definition exponent_part (s : string) : option Z :=
  match s with
  | EmptyString => Some 0
  | String c r =>
      if is_e c then
        let '(neg, r') :=
          match r with
          | String "-"%char r' => (true, r')
          | String "+"%char r' => (false, r')
          | _ => (false, r)
          end in
        match take_digits r' 0 0 with
        | (v, n, EmptyString) =>
            if 0 <? n then Some (if neg then - v else v) else None
        | _ => None
        end
      else None
  end.

(** StrUnsignedDecimalLiteral, without the [Infinity] case. *)
Definition unsigned_decimal (s : string) : option (Z * Z) :=
  let '(ip, ni, r1) := take_digits s 0 0 in
  let '(m, nf, r2) :=
    match r1 with
    | String c r => if is_char "." c then take_digits r ip 0 else (ip, 0, r1)
    | EmptyString => (ip, 0, r1)
    end in
  if 0 <? ni + nf then
    match exponent_part r2 with
    | Some x => Some (m, x - nf)
    | None => None
    end
  else None.

Definition signed_decimal (s : string) : JSNumber :=
  let '(neg, r) :=
    match s with
    | String c r =>
        if is_char "-" c then (true, r)
        else if is_char "+" c then (false, r)
        else (false, s)
    | EmptyString => (false, s)
    end in
  if String.eqb r "Infinity" then Infinity neg
  else
    match unsigned_decimal r with
    | Some (m, e) => Finite (if neg then - m else m) e
    | None => NaN
    end.

Definition non_decimal (base : Z) (digits : string) : JSNumber :=
  match digits with
  | EmptyString => NaN
  | _ =>
      match all_digits base digits 0 with
      | Some v => Finite v 0
      | None => NaN
      end
  end.

(** [Number(s)] for a string [s]: surrounding white space is dropped; the
    empty string is 0; [0x], [0o], [0b] (either case) introduce unsigned
    hexadecimal, octal and binary integers; otherwise an optionally signed
    decimal literal or [Infinity]; anything else is NaN. *)
Definition Number (s : string) : JSNumber :=
  match trim s with
  | EmptyString => Finite 0 0
  | String c0 (String c1 r) as t =>
      if is_char "0" c0 && (is_char "x" c1 || is_char "X" c1)
      then non_decimal 16 r
      else if is_char "0" c0 && (is_char "o" c1 || is_char "O" c1)
      then non_decimal 8 r
      else if is_char "0" c0 && (is_char "b" c1 || is_char "B" c1)
      then non_decimal 2 r
      else signed_decimal t
  | t => signed_decimal t
  end.

(** *** [String(number)]: Number::toString in radix 10 *)

Definition digit_char (d : Z) : ascii :=
  ascii_of_N (Z.to_N (48 + d)).

(** The decimal digits of [z >= 0] put in front of [acc]; [fuel] bounds
    their number. *)
Fixpoint dec_onto (fuel : nat) (z : Z) (acc : string) : string :=
  match fuel with
  | O => acc
  | S k =>
      if z <? 10 then String (digit_char z) acc
      else dec_onto k (z / 10) (String (digit_char (z mod 10)) acc)
  end.

(** Decimal numeral of [z >= 0]. *)
Definition dec (z : Z) : string :=
  dec_onto (S (Z.to_nat (Z.log2 z))) z EmptyString.

(** [m * 10^e] with the trailing zeros of [m > 0] moved into [e]. *)
Fixpoint strip_zeros (fuel : nat) (m e : Z) : Z * Z :=
  match fuel with
  | O => (m, e)
  | S k => if m mod 10 =? 0 then strip_zeros k (m / 10) (e + 1) else (m, e)
  end.

Fixpoint take (n : nat) (s : string) : string :=
  match n, s with
  | S k, String c r => String c (take k r)
  | _, _ => EmptyString
  end.

Fixpoint drop (n : nat) (s : string) : string :=
  match n, s with
  | S k, String _ r => drop k r
  | _, _ => s
  end.

(** The text of a positive [m * 10^e]. *)
Definition toString_pos (m e : Z) : string :=
  if (0 <=? e) && (m * 10 ^ e <? 10 ^ 21) then
    (* an integer below 10^21 is written out in full *)
    dec (m * 10 ^ e)
  else
    let '(m', e') := strip_zeros (Z.to_nat (Z.log2 m)) m e in
    let ds := dec m' in
    let k := Z.of_nat (String.length ds) in
    let n := k + e' in
    if (k <=? n) && (n <=? 21) then
      ds ++ Str.repeat "0"%char (Z.to_nat (n - k))
    else if (0 <? n) && (n <=? 21) then
      take (Z.to_nat n) ds ++ "." ++ drop (Z.to_nat n) ds
    else if (-6 <? n) && (n <=? 0) then
      "0." ++ Str.repeat "0"%char (Z.to_nat (- n)) ++ ds
    else
      let x := n - 1 in
      let sign := if 0 <=? x then "+" else "-" in
      let mant :=
        if k =? 1 then ds else take 1 ds ++ "." ++ drop 1 ds in
      mant ++ "e" ++ sign ++ dec (Z.abs x).

(** [String(x)], also the text a template literal gives for [x]. *)
Definition toString (x : JSNumber) : string :=
  match x with
  | NaN => "NaN"
  | Infinity neg => if neg then "-Infinity" else "Infinity"
  | Finite m e =>
      if m =? 0 then "0"
      else if m <? 0 then "-" ++ toString_pos (- m) e
      else toString_pos m e
  end.

(** *** Numerals *)

Definition is_digit (c : ascii) : bool :=
  let n := N_of_ascii c in ((48 <=? n) && (n <=? 57))%N.

Fixpoint digits_only (s : string) : bool :=
  match s with
  | EmptyString => true
  | String c r => is_digit c && digits_only r
  end.

(** A timestamp value is a decimal number: an optional sign, then digits
    with an optional fraction and exponent, white space around it allowed. *)
Definition decimal_number (s : string) : bool :=
  match Num.signed_decimal (Num.trim s) with
  | Finite _ _ => true
  | _ => false
  end.

End Num.

Export Num(JSNumber, NaN, Infinity, Finite, Number).

(* ===================================================================== *)
(** ** Values, JSON *)
(* ===================================================================== *)

Module JS.

(** The values that [JSON.parse] produces and that the sources then use
    without checking their shape (the [as T] casts of TypeScript are not
    checked when the program runs), with [undefined] for a missing
    property.  An object keeps its properties in insertion order. *)
Inductive JSValue : Type :=
| JUndefined
| JNull
| JBool (b : bool)
| JNum (n : JSNumber)
| JStr (s : string)
| JArr (items : list JSValue)
| JObj (props : list (string * JSValue)).

(** ToBoolean *)
Definition truthy (v : JSValue) : bool :=
  match v with
  | JUndefined | JNull => false
  | JBool b => b
  | JNum NaN => false
  | JNum (Finite m e) => negb (Num.rounds_to_zero m e)
  | JNum (Infinity _) => true
  | JStr s => Str.truthy s
  | JArr _ | JObj _ => true
  end.

Fixpoint lookup (k : string) (ps : list (string * JSValue)) : option JSValue :=
  match ps with
  | [] => None
  | (k', v) :: r => if String.eqb k' k then Some v else lookup k r
  end.

(** [o[k] = v] on the property list of an object: an existing property
    keeps its place. *)
Fixpoint set (k : string) (v : JSValue) (ps : list (string * JSValue))
  : list (string * JSValue) :=
  match ps with
  | [] => [(k, v)]
  | (k', v') :: r =>
      if String.eqb k' k then (k, v) :: r else (k', v') :: set k v r
  end.

(** [v[k]] and [v.k].  Reading a property of [undefined] or [null] throws
    a TypeError.  Own properties only: what the prototypes provide
    ([length], [toString], the indices of strings and arrays, ...) is not
    modelled, so those reads give [undefined] here.  The names the sources
    write out ([agents], [revoked], [publicKey], [accessToken], ...) are
    provided by no prototype; where the name is the caller's, the
    statements leave the inherited names out. *)
Definition get (v : JSValue) (k : string) : Result JSValue :=
  match v with
  | JUndefined | JNull =>
      Throw (Exn.TypeError "Cannot read properties of undefined or null")
  | JObj ps =>
      match lookup k ps with
      | Some x => Ok x
      | None => Ok JUndefined
      end
  | _ => Ok JUndefined
  end.

(** [Object.keys(v)]: a TypeError on [undefined] and [null]; the property
    names of an object in insertion order (JavaScript lists names that are
    array indices first; that reordering is not modelled); the indices of
    an array or a string; nothing for the other primitives. *)
Definition keys (v : JSValue) : Result (list string) :=
  match v with
  | JUndefined | JNull =>
      Throw (Exn.TypeError "Cannot convert undefined or null to object")
  | JObj ps => Ok (List.map fst ps)
  | JArr l => Ok (List.map (fun i => Num.dec (Z.of_nat i)) (seq 0 (List.length l)))
  | JStr s => Ok (List.map (fun i => Num.dec (Z.of_nat i)) (seq 0 (String.length s)))
  | _ => Ok []
  end.

(** *** Writing to objects *)

Definition has_own (k : string) (ps : list (string * JSValue)) : bool :=
  match lookup k ps with
  | Some _ => true
  | None => false
  end.

Fixpoint remove (k : string) (ps : list (string * JSValue))
  : list (string * JSValue) :=
  match ps with
  | [] => []
  | (k', v) :: r => if String.eqb k' k then remove k r else (k', v) :: remove k r
  end.

(** The array index that [k] names, when it names one: a decimal numeral
    without leading zeros, below 2^32 - 1. *)
Definition index_of (k : string) : option nat :=
  match k with
  | EmptyString => None
  | _ =>
      match Num.all_digits 10 k 0 with
      | Some i =>
          if String.eqb (Num.dec i) k && (i <? 4294967295)
          then Some (Z.to_nat i) else None
      | None => None
      end
  end.

(** [items] with [v] at index [i]; the places between the old end and [i]
    are holes, which read as [undefined]. *)
Fixpoint put_at (i : nat) (v : JSValue) (items : list JSValue) : list JSValue :=
  match i, items with
  | O, [] => [v]
  | O, _ :: r => v :: r
  | S j, [] => JUndefined :: put_at j v []
  | S j, x :: r => x :: put_at j v r
  end.

(** [v[k] = x] in strict mode, for a plain object [x]; the result is [v]
    afterwards, as [JSON.stringify] will see it.  On an object without a
    property [__proto__] of its own, assigning to [__proto__] runs the setter
    of [Object.prototype], which makes [x] the prototype and no property.  On
    an array a name that is neither an index nor [length] becomes a property
    that [JSON.stringify] does not write.  The RangeError of an invalid
    array length is given as its base class. *)
Definition assign (v : JSValue) (k : string) (x : JSValue) : Result JSValue :=
  match v with
  | JUndefined | JNull =>
      Throw (Exn.TypeError "Cannot set properties of undefined or null")
  | JObj ps =>
      if String.eqb k "__proto__" && negb (has_own k ps) then Ok v
      else Ok (JObj (set k x ps))
  | JArr items =>
      match index_of k with
      | Some i => Ok (JArr (put_at i x items))
      | None =>
          if String.eqb k "length" then Throw (Exn.Error "Invalid array length")
          else Ok v
      end
  | _ => Throw (Exn.TypeError "Cannot create property on a primitive value")
  end.

(** [delete v[k]] in strict mode; the result is [v] afterwards.  Deleting
    an element of an array leaves a hole. *)
Definition delete (v : JSValue) (k : string) : Result JSValue :=
  match v with
  | JUndefined | JNull =>
      Throw (Exn.TypeError "Cannot convert undefined or null to object")
  | JObj ps => Ok (JObj (remove k ps))
  | JArr items =>
      match index_of k with
      | Some i =>
          Ok (if (i <? List.length items)%nat
              then JArr (put_at i JUndefined items) else v)
      | None =>
          if String.eqb k "length"
          then Throw (Exn.TypeError "Cannot delete property 'length'")
          else Ok v
      end
  | JStr s =>
      match index_of k with
      | Some i =>
          if (i <? String.length s)%nat
          then Throw (Exn.TypeError "Cannot delete property of a string")
          else Ok v
      | None =>
          if String.eqb k "length"
          then Throw (Exn.TypeError "Cannot delete property 'length'")
          else Ok v
      end
  | _ => Ok v
  end.

Section WithPrototypes.

(** Whether the prototype chain of a value provides a name: [toString],
    [constructor], [__proto__], ... from [Object.prototype]; [push], [map],
    ... from [Array.prototype].  The list belongs to the platform. *)
Variable inherited : JSValue -> string -> bool.

(** [k in v], for a [v] that [JSON.parse] produced (an array without
    holes): a TypeError when [v] is not an object. *)
Definition has (v : JSValue) (k : string) : Result bool :=
  match v with
  | JObj ps => Ok (has_own k ps || inherited v k)
  | JArr items =>
      Ok (match index_of k with
          | Some i => (i <? List.length items)%nat
          | None => String.eqb k "length"
          end || inherited v k)
  | _ => Throw (Exn.TypeError "Cannot use 'in' operator to search for a key")
  end.

End WithPrototypes.

End JS.

Export JS(JSValue, JUndefined, JNull, JBool, JNum, JStr, JArr, JObj).

Module JSON.

Definition is_ws (c : ascii) : bool :=
  let n := N_of_ascii c in
  ((n =? 32) || (n =? 9) || (n =? 10) || (n =? 13))%N.

Definition skip_ws : string -> string := Str.drop_while is_ws.

(** [s] without the prefix [p], when it has it. *)
Fixpoint strip_prefix (p s : string) : option string :=
  match p, s with
  | EmptyString, _ => Some s
  | String a p', String b s' =>
      if Ascii.eqb a b then strip_prefix p' s' else None
  | _, _ => None
  end.

(** *** Numbers: [-? int frac? exp?] *)

Definition json_exponent (s : string) : option (Z * string) :=
  match s with
  | String c r =>
      if Num.is_e c then
        let '(neg, r') :=
          match r with
          | String "-"%char r' => (true, r')
          | String "+"%char r' => (false, r')
          | _ => (false, r)
          end in
        let '(v, n, rest) := Num.take_digits r' 0 0 in
        if 0 <? n then Some (if neg then - v else v, rest) else None
      else Some (0, s)
  | EmptyString => Some (0, s)
  end.

Definition parse_number (s : string) : option (JSNumber * string) :=
  let '(neg, r) :=
    match s with
    | String "-"%char r => (true, r)
    | _ => (false, s)
    end in
  let '(ip, ni, r1) := Num.take_digits r 0 0 in
  let leading_zero :=
    match r with
    | String "0"%char _ => 1 <? ni
    | _ => false
    end in
  if (ni =? 0) || leading_zero then None
  else
    let frac :=
      match r1 with
      | String "."%char r2 =>
          let '(m, nf, r3) := Num.take_digits r2 ip 0 in
          if 0 <? nf then Some (m, nf, r3) else None
      | _ => Some (ip, 0, r1)
      end in
    match frac with
    | Some (m, nf, r3) =>
        match json_exponent r3 with
        | Some (x, rest) => Some (Finite (if neg then - m else m) (x - nf), rest)
        | None => None
        end
    | None => None
    end.

(** *** Strings *)

(** UTF-8 bytes of a code point. *)
Definition utf8 (cp : Z) : string :=
  let b (z : Z) := ascii_of_N (Z.to_N z) in
  if cp <? 128 then String (b cp) EmptyString
  else if cp <? 2048 then
    String (b (192 + cp / 64)) (String (b (128 + cp mod 64)) EmptyString)
  else if cp <? 65536 then
    String (b (224 + cp / 4096))
      (String (b (128 + (cp / 64) mod 64))
         (String (b (128 + cp mod 64)) EmptyString))
  else
    String (b (240 + cp / 262144))
      (String (b (128 + (cp / 4096) mod 64))
         (String (b (128 + (cp / 64) mod 64))
            (String (b (128 + cp mod 64)) EmptyString))).

(** Four hexadecimal digits. *)
Definition hex4 (s : string) : option (Z * string) :=
  match s with
  | String a (String b (String c (String d r))) =>
      match Num.digit_in 16 a, Num.digit_in 16 b,
            Num.digit_in 16 c, Num.digit_in 16 d with
      | Some x, Some y, Some z, Some w =>
          Some (((x * 16 + y) * 16 + z) * 16 + w, r)
      | _, _, _, _ => None
      end
  | _ => None
  end.

(** The rest of [\uXXXX] after [\u]; a high surrogate followed by an
    escaped low surrogate makes one code point. *)
Definition unicode_escape (s : string) : option (string * string) :=
  match hex4 s with
  | Some (hi, r) =>
      let single := Some (utf8 hi, r) in
      if (55296 <=? hi) && (hi <=? 56319) then
        match r with
        | String "\"%char (String "u"%char r') =>
            match hex4 r' with
            | Some (lo, r'') =>
                if (56320 <=? lo) && (lo <=? 57343) then
                  Some (utf8 (65536 + (hi - 55296) * 1024 + (lo - 56320)), r'')
                else single
            | None => single
            end
        | _ => single
        end
      else single
  | None => None
  end.

(** The characters of a string literal after its opening quote, up to and
    including the closing one.  [acc] holds the text so far, reversed. *)
Fixpoint parse_chars (fuel : nat) (s : string) (acc : string)
  : option (string * string) :=
  match fuel with
  | O => None
  | S k =>
      match s with
      | EmptyString => None
      | String "034"%char r => Some (Str.rev acc, r)
      | String "\"%char EmptyString => None
      | String "\"%char (String c r) =>
          let simple (x : ascii) := parse_chars k r (String x acc) in
          if Ascii.eqb c "034"%char then simple "034"%char
          else if Ascii.eqb c "\"%char then simple "\"%char
          else if Ascii.eqb c "/"%char then simple "/"%char
          else if Ascii.eqb c "b"%char then simple "008"%char
          else if Ascii.eqb c "f"%char then simple "012"%char
          else if Ascii.eqb c "n"%char then simple "010"%char
          else if Ascii.eqb c "r"%char then simple "013"%char
          else if Ascii.eqb c "t"%char then simple "009"%char
          else if Ascii.eqb c "u"%char then
            match unicode_escape r with
            | Some (bytes, r') => parse_chars k r' (Str.rev_onto bytes acc)
            | None => None
            end
          else None
      | String c r =>
          if (N_of_ascii c <? 32)%N then None
          else parse_chars k r (String c acc)
      end
  end.

Definition parse_string (s : string) : option (string * string) :=
  parse_chars (S (String.length s)) s EmptyString.

(** *** Values *)

Fixpoint parse_value (fuel : nat) (s : string) : option (JSValue * string) :=
  match fuel with
  | O => None
  | S k =>
      match skip_ws s with
      | String "{"%char r =>
          match skip_ws r with
          | String "}"%char r' => Some (JObj [], r')
          | r1 => parse_members k r1 []
          end
      | String "["%char r =>
          match skip_ws r with
          | String "]"%char r' => Some (JArr [], r')
          | r1 => parse_elements k r1 []
          end
      | String "034"%char r =>
          match parse_string r with
          | Some (x, r') => Some (JStr x, r')
          | None => None
          end
      | String "t"%char _ as t =>
          option_map (fun r => (JBool true, r)) (strip_prefix "true" t)
      | String "f"%char _ as t =>
          option_map (fun r => (JBool false, r)) (strip_prefix "false" t)
      | String "n"%char _ as t =>
          option_map (fun r => (JNull, r)) (strip_prefix "null" t)
      | t =>
          match parse_number t with
          | Some (n, r) => Some (JNum n, r)
          | None => None
          end
      end
  end

with parse_elements (fuel : nat) (s : string) (acc : list JSValue)
  : option (JSValue * string) :=
  match fuel with
  | O => None
  | S k =>
      match parse_value k s with
      | Some (v, r) =>
          match skip_ws r with
          | String ","%char r' => parse_elements k r' (v :: acc)
          | String "]"%char r' => Some (JArr (List.rev (v :: acc)), r')
          | _ => None
          end
      | None => None
      end
  end

with parse_members (fuel : nat) (s : string) (acc : list (string * JSValue))
  : option (JSValue * string) :=
  match fuel with
  | O => None
  | S k =>
      match skip_ws s with
      | String "034"%char r =>
          match parse_string r with
          | Some (key, r1) =>
              match skip_ws r1 with
              | String ":"%char r2 =>
                  match parse_value k r2 with
                  | Some (v, r3) =>
                      let acc' := JS.set key v acc in
                      match skip_ws r3 with
                      | String ","%char r4 => parse_members k r4 acc'
                      | String "}"%char r4 => Some (JObj acc', r4)
                      | _ => None
                      end
                  | None => None
                  end
              | _ => None
              end
          | None => None
          end
      | _ => None
      end
  end.

(** [JSON.parse(text)]: one value, white space around it, nothing else;
    a SyntaxError otherwise.  Two units of fuel per character cover every
    nesting the text can have. *)
Definition parse (text : string) : Result JSValue :=
  match parse_value (2 * String.length text + 2) text with
  | Some (v, r) =>
      match skip_ws r with
      | EmptyString => Ok v
      | _ => Throw (Exn.SyntaxError "Unexpected non-whitespace character after JSON")
      end
  | None => Throw (Exn.SyntaxError "Unexpected token or end of JSON input")
  end.

(** *** [JSON.stringify(value, null, 2)] *)

Definition hex_digit (d : Z) : ascii :=
  if d <? 10 then ascii_of_N (Z.to_N (48 + d)) else ascii_of_N (Z.to_N (87 + d)).

Definition escape_char (c : ascii) : string :=
  let n := Z.of_N (N_of_ascii c) in
  if Ascii.eqb c "034"%char then String "\"%char (String "034"%char EmptyString)
  else if Ascii.eqb c "\"%char then "\\"
  else if n =? 8 then "\b"
  else if n =? 9 then "\t"
  else if n =? 10 then "\n"
  else if n =? 12 then "\f"
  else if n =? 13 then "\r"
  else if n <? 32 then
    "\u00" ++ String (hex_digit (n / 16)) (String (hex_digit (n mod 16)) EmptyString)
  else String c EmptyString.

Fixpoint escape (s : string) : string :=
  match s with
  | EmptyString => EmptyString
  | String c r => escape_char c ++ escape r
  end.

Definition quote (s : string) : string :=
  String "034"%char (escape s ++ String "034"%char EmptyString).

Fixpoint join (sep : string) (l : list string) : string :=
  match l with
  | [] => EmptyString
  | [x] => x
  | x :: r => x ++ sep ++ join sep r
  end.

Definition newline : string := String "010"%char EmptyString.

(** The text of [v] at indentation [ind], with a gap of two spaces.  In an
    array [undefined] is written [null]; in an object a property whose
    value is [undefined] is left out. *)
Fixpoint stringify_at (ind : string) (v : JSValue) : string :=
  let inner := ind ++ "  " in
  match v with
  | JUndefined | JNull => "null"
  | JBool true => "true"
  | JBool false => "false"
  | JNum (Finite m e) => Num.toString (Finite m e)
  | JNum _ => "null"
  | JStr s => quote s
  | JArr [] => "[]"
  | JArr l =>
      let items :=
        (fix go (l : list JSValue) : list string :=
           match l with
           | [] => []
           | x :: r => stringify_at inner x :: go r
           end) l in
      "[" ++ newline ++ inner ++ join ("," ++ newline ++ inner) items
          ++ newline ++ ind ++ "]"
  | JObj ps =>
      let members :=
        (fix go (ps : list (string * JSValue)) : list string :=
           match ps with
           | [] => []
           | (_, JUndefined) :: r => go r
           | (k, x) :: r => (quote k ++ ": " ++ stringify_at inner x) :: go r
           end) ps in
      match members with
      | [] => "{}"
      | _ =>
          "{" ++ newline ++ inner ++ join ("," ++ newline ++ inner) members
              ++ newline ++ ind ++ "}"
      end
  end.

(** [JSON.stringify(v, null, 2)] for a value [v] other than [undefined]. *)
Definition stringify (v : JSValue) : string := stringify_at EmptyString v.

End JSON.

(* ===================================================================== *)
(** ** Buffers and the crypto module *)
(* ===================================================================== *)

Module Buffer.

Definition t : Type := list Byte.byte.

(** [Buffer.from(text)]: the UTF-8 bytes of the text. *)
Definition from (text : string) : t := list_byte_of_string text.

Definition byte_of_nibbles (hi lo : Z) : Byte.byte :=
  byte_of_ascii (ascii_of_N (Z.to_N (hi * 16 + lo))).

(** [Buffer.from(text, "hex")]: two hexadecimal digits (either case) make
    a byte; decoding stops, without an exception, at the first pair that is
    not two digits, and a last odd character is dropped.  This is the
    decoding of a text within ASCII; of a character beyond it Node looks at
    one byte only, which is not modelled. *)
Fixpoint from_hex (text : string) : t :=
  match text with
  | String a (String b r) =>
      match Num.digit_in 16 a, Num.digit_in 16 b with
      | Some hi, Some lo => byte_of_nibbles hi lo :: from_hex r
      | _, _ => []
      end
  | _ => []
  end.

(** [buf.toString("hex")]: two lower-case digits per byte. *)
Fixpoint to_hex (buf : t) : string :=
  match buf with
  | [] => EmptyString
  | b :: r =>
      let n := Z.of_N (Byte.to_N b) in
      String (JSON.hex_digit (n / 16)) (String (JSON.hex_digit (n mod 16)) (to_hex r))
  end.

End Buffer.

(** The part of [node:crypto] that [src/verify.ts] calls, for Ed25519 keys
    ([crypto.sign] and [crypto.verify] with a [null] digest).  [Entropy] is
    the randomness one key generation consumes. *)
Class NodeCrypto : Type := {
  PublicKey : Type;
  PrivateKey : Type;
  Entropy : Type;
  (** [crypto.createPublicKey({ key, format: "der", type: "spki" })] *)
  createPublicKey : Buffer.t -> Result PublicKey;
  (** [crypto.createPrivateKey({ key, format: "der", type: "pkcs8" })] *)
  createPrivateKey : Buffer.t -> Result PrivateKey;
  (** [crypto.sign(null, data, privateKey)] *)
  crypto_sign : Buffer.t -> PrivateKey -> Result Buffer.t;
  (** [crypto.verify(null, data, publicKey, signature)] *)
  crypto_verify : Buffer.t -> PublicKey -> Buffer.t -> Result bool;
  (** [crypto.generateKeyPairSync("ed25519")] *)
  generateKeyPairSync : Entropy -> PublicKey * PrivateKey;
  (** [publicKey.export({ type: "spki", format: "der" })] *)
  export_spki : PublicKey -> Buffer.t;
  (** [privateKey.export({ type: "pkcs8", format: "der" })] *)
  export_pkcs8 : PrivateKey -> Buffer.t
}.

(** What the sources rely on from the library: a generated key survives its
    DER export and import, and a signature made with the private key of a
    generated pair verifies under its public key. *)
Record Ed25519Laws (C : NodeCrypto) : Prop := {
  import_export_private :
    forall r, createPrivateKey (export_pkcs8 (snd (generateKeyPairSync r)))
              = Ok (snd (generateKeyPairSync r));
  import_export_public :
    forall r, createPublicKey (export_spki (fst (generateKeyPairSync r)))
              = Ok (fst (generateKeyPairSync r));
  sign_then_verify :
    forall r data,
    exists sig,
      crypto_sign data (snd (generateKeyPairSync r)) = Ok sig /\
        crypto_verify data (fst (generateKeyPairSync r)) sig = Ok true
}.

(* ===================================================================== *)
(** ** src/verify.ts *)
(* ===================================================================== *)

Module Verify.

Definition HEADER_BOT_ID : string := "X-BotID".
Definition HEADER_SIGNATURE : string := "X-BotID-Signature".
Definition HEADER_TIMESTAMP : string := "X-BotID-Timestamp".

Definition DEFAULT_API_URL : string := "https://botid.net".
Definition TIMESTAMP_WINDOW_SECONDS : Z := 300.

(** [(url ?? DEFAULT_API_URL)] without its trailing slashes, as the
    [replace] with the pattern [/\/+$/] leaves it. *)
Definition normalizeUrl (url : option string) : string :=
  Str.drop_while_end (Ascii.eqb "/"%char) (default DEFAULT_API_URL url).

(** [Math.floor(Date.now() / 1000)], for a clock reading in ms. *)
Definition seconds (now_ms : Z) : Z := now_ms / 1000.

(** [isTimestampValid(timestamp)], when [Date.now()] is [now_ms]. *)
Definition isTimestampValid (now_ms : Z) (timestamp : JSNumber) : bool :=
  let now := seconds now_ms in
  Num.leb (Num.abs (Num.sub (Num.of_Z now) timestamp))
          (Num.of_Z TIMESTAMP_WINDOW_SECONDS).

Section WithCrypto.
Context `{NodeCrypto}.

Definition signMessage (message privateKeyHex : string) : Result string :=
  let* privateKey := createPrivateKey (Buffer.from_hex privateKeyHex) in
  let* signature := crypto_sign (Buffer.from message) privateKey in
  Ok (Buffer.to_hex signature).

Definition verifySignature (message signatureHex publicKeyHex : string)
  : Result bool :=
  Exn.try_catch
    (let* publicKey := createPublicKey (Buffer.from_hex publicKeyHex) in
     crypto_verify (Buffer.from message) publicKey
                   (Buffer.from_hex signatureHex))
    (Ok false).

Record Keypair : Type := { publicKey : string; privateKey : string }.

(** [generateKeypair()], [r] being the randomness drawn. *)
Definition generateKeypair (r : Entropy) : Keypair :=
  let '(pub, priv) := generateKeyPairSync r in
  {| publicKey := Buffer.to_hex (export_spki pub);
     privateKey := Buffer.to_hex (export_pkcs8 priv) |}.

(** The key or the signature could not be decoded: building the key object
    from the DER bytes, or the verification call itself, threw. *)
Definition decode_failure (message signatureHex publicKeyHex : string) : Prop :=
  Exn.raises
    (let* publicKey := createPublicKey (Buffer.from_hex publicKeyHex) in
     crypto_verify (Buffer.from message) publicKey (Buffer.from_hex signatureHex)).

End WithCrypto.

End Verify.

(* ===================================================================== *)
(** ** The network *)
(* ===================================================================== *)

Module Net.

(** What [await fetch(...)] gives: a rejected promise, or a response with
    its status and the text of its body (what [res.text()] would give: the
    bytes decoded as UTF-8, a byte order mark at their start left out). *)
Inductive FetchOutcome : Type :=
| NetworkError
| Response (status : Z) (body : string).

(** [res.ok] *)
Definition ok (status : Z) : bool := (200 <=? status) && (status <=? 299).

(** [await fetch(url)] against a server that answers by [server]. *)
Definition fetch (server : string -> FetchOutcome) (url : string)
  : Result (Z * string) :=
  match server url with
  | NetworkError => Throw (Exn.TypeError "fetch failed")
  | Response status body => Ok (status, body)
  end.

End Net.

(* ===================================================================== *)
(** ** src/middleware.ts *)
(* ===================================================================== *)

Module Middleware.
Import Verify.

Record Bot : Type := { id : string; name : string; deployer_id : string }.

(** [VerificationResult] of src/client.ts. *)
Record VerificationResult : Type := {
  verified : bool;
  bot : option Bot;
  timestamp : JSNumber;
  error : option string;
  revoked : option bool
}.

Record VerifyBotIDOptions : Type := {
  apiUrl : option string;
  requireVerified : option bool;
  (** whether the caller supplied an [onUnverified] handler *)
  onUnverified : bool
}.

(** A header of the request: [string | string[]]; a name that is not in
    the map reads as [undefined]. *)
Inductive HeaderValue : Type :=
| Single (value : string)
| Multi (values : list string).

Record ExpressRequest : Type := {
  headers : gmap string HeaderValue;
  method : option string;
  url : option string;
  originalUrl : option string;
  BotID : option VerificationResult
}.

Definition set_BotID (req : ExpressRequest) (r : VerificationResult)
  : ExpressRequest :=
  {| headers := headers req; method := method req; url := url req;
     originalUrl := originalUrl req; BotID := Some r |}.

(** How an invocation hands control on: [next()], the caller's
    [onUnverified(req, res)], or [res.status(code).json(body)].  The three
    are taken not to throw. *)
Inductive Action : Type :=
| CallNext
| CallOnUnverified
| Respond (code : Z) (body : JSValue).

Record Outcome : Type := {
  request : ExpressRequest;   (* the request object afterwards *)
  action : Action;
  lookups : list string       (* the URLs fetched from the registry *)
}.

Definition getHeader (req : ExpressRequest) (name : string) : option string :=
  match headers req !! Str.toLowerCase name with
  | Some (Multi values) => head values
  | Some (Single value) => Some value
  | None => None
  end.

(** [!h] for [h : string | undefined] *)
Definition falsy (h : option string) : bool :=
  match h with
  | Some s => negb (Str.truthy s)
  | None => true
  end.

Definition error_body (msg : string) : JSValue := JObj [("error", JStr msg)].

(** The rejection every branch shares once [requireVerified] holds. *)
Definition reject (options : VerifyBotIDOptions) (code : Z) (body : JSValue)
  : Action :=
  if onUnverified options then CallOnUnverified else Respond code body.

(** [(req.originalUrl ?? req.url ?? "/").split("?")[0]] *)
Definition reqPath (req : ExpressRequest) : string :=
  Str.split_head "?"%char
    (default (default "/" (url req)) (originalUrl req)).

(** [(req.method ?? "GET").toUpperCase()] *)
Definition reqMethod (req : ExpressRequest) : string :=
  Str.toUpperCase (default "GET" (method req)).

(** The template literal [`${timestamp}.${botId}.${reqMethod}.${reqPath}`] *)
Definition message (timestamp : JSNumber) (botId : string)
    (req : ExpressRequest) : string :=
  Num.toString timestamp ++ "." ++ botId ++ "." ++ reqMethod req
    ++ "." ++ reqPath req.

Section WithCrypto.
Context `{NodeCrypto}.

(** [verifySignature(message, signature, publicKey)] for the [publicKey]
    read from the registry's answer.  A value that is not a string makes
    [Buffer.from] throw inside the [try] of [verifySignature] (so for
    [undefined], [null], numbers, booleans and plain objects).  Arrays
    and array-like objects, which [Buffer.from] reads as bytes, are not
    modelled: the statements that depend on the key leave them out. *)
Definition verifySignature_of (message signature : string)
    (publicKey : JSValue) : Result bool :=
  match publicKey with
  | JStr publicKeyHex => verifySignature message signature publicKeyHex
  | _ => Ok false
  end.

(** The body of the [try] block, from the registry lookup on: the request
    afterwards and the way control is handed on, or an exception. *)
Definition lookup_and_verify (options : VerifyBotIDOptions)
    (server : string -> Net.FetchOutcome)
    (botId signature : string) (timestamp : JSNumber)
    (req : ExpressRequest) : Result (ExpressRequest * Action) :=
  let apiUrl := normalizeUrl (apiUrl options) in
  let requireVerified := default true (requireVerified options) in
  let* keysRes := Net.fetch server (apiUrl ++ "/api/keys/" ++ botId) in
  let '(status, text) := keysRes in
  let* is_revoked :=
    if status =? 403 then
      let* body := JSON.parse text in
      let* flag := JS.get body "revoked" in
      Ok (JS.truthy flag)
    else Ok false in
  if is_revoked then
    let req := set_BotID req
      {| verified := false; bot := None; timestamp := timestamp;
         error := Some "Bot identity has been revoked";
         revoked := Some true |} in
    if requireVerified then
      Ok (req, reject options 403
                 (JObj [("error", JStr "Bot identity has been revoked");
                        ("revoked", JBool true)]))
    else Ok (req, CallNext)
  else if negb (Net.ok status) then
    Throw (Exn.Error ("Public key lookup failed: "
                        ++ Num.toString (Num.of_Z status)))
  else
    let* body := JSON.parse text in
    let* publicKey := JS.get body "publicKey" in
    let* verified :=
      verifySignature_of (message timestamp botId req) signature publicKey in
    let result :=
      if verified then
        {| verified := true;
           bot := Some {| id := botId; name := botId; deployer_id := EmptyString |};
           timestamp := timestamp; error := None; revoked := None |}
      else
        {| verified := false; bot := None; timestamp := timestamp;
           error := None; revoked := None |} in
    let req := set_BotID req result in
    if negb verified && requireVerified then
      Ok (req, reject options 403
                 (error_body "Bot identity verification failed"))
    else Ok (req, CallNext).

(** The handler [verifyBotID(options)] returns, run on [req].  [now_ms] is
    what [Date.now()] reads before the registry is asked, [later_ms] what
    it reads after the answer (or the failure) has come. *)
Definition verifyBotID (options : VerifyBotIDOptions)
    (server : string -> Net.FetchOutcome) (now_ms later_ms : Z)
    (req : ExpressRequest) : Outcome :=
  let apiUrl := normalizeUrl (apiUrl options) in
  let requireVerified := default true (requireVerified options) in
  let botId := getHeader req HEADER_BOT_ID in
  let signature := getHeader req HEADER_SIGNATURE in
  let timestampRaw := getHeader req HEADER_TIMESTAMP in
  let unverified (t : Z) :=
    {| verified := false; bot := None; timestamp := Num.of_Z (seconds t);
       error := None; revoked := None |} in
  (* If no BotID headers present at all, treat as non-bot request *)
  if falsy botId && falsy signature && falsy timestampRaw then
    if requireVerified then
      {| request := req;
         action := reject options 403 (error_body "BotID verification required");
         lookups := [] |}
    else
      {| request := set_BotID req (unverified now_ms);
         action := CallNext; lookups := [] |}
  (* Headers present but incomplete *)
  else if falsy botId || falsy signature || falsy timestampRaw then
    if requireVerified then
      {| request := req;
         action := reject options 400 (error_body "Incomplete BotID headers");
         lookups := [] |}
    else
      {| request := set_BotID req (unverified now_ms);
         action := CallNext; lookups := [] |}
  else
    let botId := default EmptyString botId in
    let signature := default EmptyString signature in
    let timestamp := Number (default EmptyString timestampRaw) in
    (* Reject stale or future timestamps (5-minute window) *)
    if negb (isTimestampValid now_ms timestamp) then
      let req := set_BotID req
        {| verified := false; bot := None; timestamp := timestamp;
           error := Some "Timestamp outside valid window";
           revoked := None |} in
      {| request := req;
         action :=
           if requireVerified
           then reject options 403 (error_body "Timestamp outside valid window")
           else CallNext;
         lookups := [] |}
    else
      let asked := [apiUrl ++ "/api/keys/" ++ botId] in
      match lookup_and_verify options server botId signature timestamp req with
      | Ok (req, act) =>
          {| request := req; action := act; lookups := asked |}
      | Throw _ =>
          let req := set_BotID req
            {| verified := false; bot := None;
               timestamp := Num.of_Z (seconds later_ms);
               error := Some "Verification service unavailable";
               revoked := None |} in
          {| request := req;
             action :=
               if requireVerified
               then reject options 503
                      (error_body "BotID verification service unavailable")
               else CallNext;
             lookups := asked |}
      end.

End WithCrypto.

(** *** Notions for the statements *)

(** The three identity headers as the handler reads them. *)
Definition identity (req : ExpressRequest)
  : option string * option string * option string :=
  (getHeader req HEADER_BOT_ID, getHeader req HEADER_SIGNATURE,
   getHeader req HEADER_TIMESTAMP).

(** Some identity header is missing or empty. *)
Definition incomplete (req : ExpressRequest) : bool :=
  falsy (getHeader req HEADER_BOT_ID) || falsy (getHeader req HEADER_SIGNATURE)
  || falsy (getHeader req HEADER_TIMESTAMP).

(** [requireVerified ?? true] *)
Definition enforce (options : VerifyBotIDOptions) : bool :=
  default true (requireVerified options).

(** All three identity headers are there, with these non-empty values. *)
Definition presents (req : ExpressRequest) (botId signature timestampRaw : string)
  : Prop :=
  identity req = (Some botId, Some signature, Some timestampRaw)
  /\ Str.truthy botId = true /\ Str.truthy signature = true
  /\ Str.truthy timestampRaw = true.

(** The registry's answer flags the identity as revoked: status 403 and a
    JSON body whose [revoked] is truthy. *)
Definition signals_revocation (answer : Net.FetchOutcome) : bool :=
  match answer with
  | Net.Response status text =>
      (status =? 403)
      && match JSON.parse text with
         | Ok body =>
             match JS.get body "revoked" with
             | Ok flag => JS.truthy flag
             | Throw _ => false
             end
         | Throw _ => false
         end
  | Net.NetworkError => false
  end.

Definition revoked_result (timestamp : JSNumber) : VerificationResult :=
  {| verified := false; bot := None; timestamp := timestamp;
     error := Some "Bot identity has been revoked"; revoked := Some true |}.

Definition stale_result (timestamp : JSNumber) : VerificationResult :=
  {| verified := false; bot := None; timestamp := timestamp;
     error := Some "Timestamp outside valid window"; revoked := None |}.

(** The request without the header [name]. *)
Definition without_header (req : ExpressRequest) (name : string) : ExpressRequest :=
  {| headers := delete (Str.toLowerCase name) (headers req);
     method := method req; url := url req; originalUrl := originalUrl req;
     BotID := BotID req |}.

(** What an invocation shows to the outside, the header map apart. *)
Definition visible (out : Outcome)
  : Action * option VerificationResult * list string :=
  (action out, BotID (request out), lookups out).

End Middleware.

(* ===================================================================== *)
(** ** src/client.ts *)
(* ===================================================================== *)

Module Client.
Import Verify.

(** What [new URL(url)] exposes of a parsed URL: its path, and its query
    and fragment when it has them ([None] for the null of the URL
    standard). *)
Record URL : Type := {
  pathname : string;
  query : option string;
  fragment : option string
}.

(** The request target an HTTP client sends for [u]: the path, then [?]
    and the query when there is one; the fragment is never sent. *)
Definition request_target (u : URL) : string :=
  match query u with
  | Some q => pathname u ++ "?" ++ q
  | None => pathname u
  end.

(** The [Headers] class: names are kept in lower case, values without the
    white space around them. *)
Module Headers.

Abbreviation t := (gmap string string) (only parsing).

Definition is_http_ws (c : ascii) : bool :=
  let n := N_of_ascii c in
  ((n =? 9) || (n =? 10) || (n =? 13) || (n =? 32))%N.

Definition normalize (value : string) : string :=
  Str.drop_while_end is_http_ws (Str.drop_while is_http_ws value).

Definition forbidden (c : ascii) : bool :=
  let n := N_of_ascii c in ((n =? 0) || (n =? 10) || (n =? 13))%N.

Fixpoint valid_value (value : string) : bool :=
  match value with
  | EmptyString => true
  | String c r => negb (forbidden c) && valid_value r
  end.

(** A header name is a non-empty token; only the delimiters that matter
    for the names met here are excluded. *)
Fixpoint token (name : string) : bool :=
  match name with
  | EmptyString => true
  | String c r =>
      let n := N_of_ascii c in
      ((32 <? n) && (n <? 127))%N
        && negb (Num.is_char ":" c) && negb (Num.is_char "," c)
        && negb (Num.is_char ";" c) && negb (Num.is_char "=" c)
        && token r
  end.

Definition valid_name (name : string) : bool := Str.truthy name && token name.

Definition checked (name value : string) : Result (string * string) :=
  let value := normalize value in
  if valid_name name && valid_value value
  then Ok (Str.toLowerCase name, value)
  else Throw (Exn.TypeError "Invalid header name or value").

(** [headers.set(name, value)] *)
Definition set (name value : string) (h : t) : Result t :=
  let* nv := checked name value in
  Ok (<[ fst nv := snd nv ]> h).

(** [headers.append(name, value)] *)
Definition append (name value : string) (h : t) : Result t :=
  let* nv := checked name value in
  match h !! fst nv with
  | Some old => Ok (<[ fst nv := old ++ ", " ++ snd nv ]> h)
  | None => Ok (<[ fst nv := snd nv ]> h)
  end.

(** [new Headers(init)] for a list of pairs. *)
Fixpoint create (init : list (string * string)) (h : t) : Result t :=
  match init with
  | [] => Ok h
  | (name, value) :: r =>
      let* h' := append name value h in
      create r h'
  end.

End Headers.

(** The fields of [RequestInit] that the client reads. *)
Record RequestInit : Type := {
  init_method : option string;
  init_headers : list (string * string)
}.

Record BotIDClient : Type := {
  botId : string;
  privateKey : string;
  apiUrl : string
}.

Record BotIDClientOptions : Type := {
  opt_botId : string;
  opt_privateKey : string;
  opt_apiUrl : option string
}.

Definition new_BotIDClient (options : BotIDClientOptions) : BotIDClient :=
  {| botId := opt_botId options;
     privateKey := opt_privateKey options;
     apiUrl := normalizeUrl (opt_apiUrl options) |}.

(** The call [fetch(url, { ...init, headers })] that ends [BotIDClient.fetch]:
    the URL, the method as the caller gave it, and the headers. *)
Record Outbound : Type := {
  out_url : string;
  out_method : option string;
  out_headers : Headers.t
}.

(** The method the platform's [fetch] puts on the wire: the names
    DELETE, GET, HEAD, OPTIONS, POST and PUT are upper-cased, any other
    method is sent as given. *)
Definition wire_method (m : option string) : string :=
  let m := default "GET" m in
  let u := Str.toUpperCase m in
  if existsb (String.eqb u) ["DELETE"; "GET"; "HEAD"; "OPTIONS"; "POST"; "PUT"]
  then u else m.

Section WithPlatform.
Context `{NodeCrypto}.

(** [new URL(url)]; it throws a TypeError on text that is not an absolute
    URL.  Of the URL standard only this is used: the path of a parsed
    URL holds no [?], which always begins the query. *)
Variable new_URL : string -> Result URL.

Definition URL_standard : Prop :=
  forall url u, new_URL url = Ok u -> Str.contains "?" (pathname u) = false.

(** The message [BotIDClient.fetch] signs, [u] being [new URL(url)]:
    [`${timestamp}.${this.botId}.${method}.${pathname}`]. *)
Definition message (self : BotIDClient) (now_ms : Z) (init : RequestInit)
    (u : URL) : string :=
  let timestamp := seconds now_ms in
  let method := Str.toUpperCase (default "GET" (init_method init)) in
  Num.toString (Num.of_Z timestamp) ++ "." ++ botId self ++ "." ++ method
    ++ "." ++ pathname u.

(** [client.fetch(url, init)] up to the call of the platform's [fetch]. *)
Definition fetch (self : BotIDClient) (now_ms : Z) (url : string)
    (init : RequestInit) : Result Outbound :=
  let timestamp := seconds now_ms in
  let* u := new_URL url in
  let* signature := signMessage (message self now_ms init u) (privateKey self) in
  let* headers := Headers.create (init_headers init) ∅ in
  let* headers := Headers.set HEADER_BOT_ID (botId self) headers in
  let* headers := Headers.set HEADER_SIGNATURE signature headers in
  let* headers :=
    Headers.set HEADER_TIMESTAMP (Num.toString (Num.of_Z timestamp)) headers in
  Ok {| out_url := url; out_method := init_method init;
        out_headers := headers |}.

(** The request an Express server holds for [out]: header names in lower
    case, the method and the request target as sent ([originalUrl] is
    the whole target wherever the middleware is mounted). *)
Definition received (out : Outbound) (u : URL) : Middleware.ExpressRequest :=
  {| Middleware.headers := Middleware.Single <$> out_headers out;
     Middleware.method := Some (wire_method (out_method out));
     Middleware.url := Some (request_target u);
     Middleware.originalUrl := Some (request_target u);
     Middleware.BotID := None |}.

End WithPlatform.

End Client.

(* ===================================================================== *)
(** ** src/store.ts *)
(* ===================================================================== *)

Module Store.

(** *** The directory ~/.botid *)

(** A file of the directory: not there; there, a regular file, but closed
    to this process (its permissions allow neither reading nor writing);
    or there with some text.  Other things under that name (a directory, a
    dangling link) are outside the model. *)
Inductive File : Type :=
| Missing
| Unreadable
| Content (text : string).

Inductive Path : Type := CREDENTIALS_FILE | AUTH_FILE.

Record BotidDir : Type := { credentials_json : File; auth_json : File }.

(** The part of the file system the store touches: the directory with its
    two files when it exists, and whether the process may write there. *)
Record FS : Type := { botid_dir : option BotidDir; read_only : bool }.

Definition file_at (fs : FS) (p : Path) : File :=
  match botid_dir fs with
  | Some d =>
      match p with
      | CREDENTIALS_FILE => credentials_json d
      | AUTH_FILE => auth_json d
      end
  | None => Missing
  end.

Definition put_file (d : BotidDir) (p : Path) (f : File) : BotidDir :=
  match p with
  | CREDENTIALS_FILE => {| credentials_json := f; auth_json := auth_json d |}
  | AUTH_FILE => {| credentials_json := credentials_json d; auth_json := f |}
  end.

(** Code that reads and writes the file system and may throw: the state
    reached is kept when an exception leaves. *)
Definition M (A : Type) : Type := FS -> Result A * FS.

Definition ret {A} (a : A) : M A := fun fs => (Ok a, fs).

Definition bind {A B} (m : M A) (k : A -> M B) : M B :=
  fun fs =>
    match m fs with
    | (Ok a, fs') => k a fs'
    | (Throw e, fs') => (Throw e, fs')
    end.

Definition lift {A} (r : Result A) : M A := fun fs => (r, fs).

(** [try { body } catch { handler }] *)
Definition try_catch {A} (body handler : M A) : M A :=
  fun fs =>
    match body fs with
    | (Ok a, fs') => (Ok a, fs')
    | (Throw _, fs') => handler fs'
    end.

Notation "'do' x '<-' m 'in' k" := (bind m (fun x => k))
  (at level 10, x name, m at level 100, k at level 200).
Notation "'exec' m 'in' k" := (bind m (fun _ => k))
  (at level 10, m at level 100, k at level 200).

(** [fs.existsSync(BOTID_DIR)] *)
Definition existsSync_dir : M bool :=
  fun fs => (Ok (bool_decide (is_Some (botid_dir fs))), fs).

(** [fs.mkdirSync(BOTID_DIR, { mode: 0o700 })] *)
Definition mkdirSync : M unit :=
  fun fs =>
    if read_only fs then (Throw (Exn.SystemError "EACCES"), fs)
    else
      match botid_dir fs with
      | Some _ => (Throw (Exn.SystemError "EEXIST"), fs)
      | None =>
          (Ok tt,
           {| botid_dir := Some {| credentials_json := Missing; auth_json := Missing |};
              read_only := read_only fs |})
      end.

(** [fs.existsSync(path)] *)
Definition existsSync (p : Path) : M bool :=
  fun fs =>
    (Ok match file_at fs p with
        | Missing => false
        | _ => true
        end, fs).

(** [fs.readFileSync(path, "utf-8")] *)
Definition readFileSync (p : Path) : M string :=
  fun fs =>
    match file_at fs p with
    | Content text => (Ok text, fs)
    | Unreadable => (Throw (Exn.SystemError "EACCES"), fs)
    | Missing => (Throw (Exn.SystemError "ENOENT"), fs)
    end.

(** [fs.writeFileSync(path, text, { mode: 0o600 })] *)
Definition writeFileSync (p : Path) (text : string) : M unit :=
  fun fs =>
    if read_only fs then (Throw (Exn.SystemError "EACCES"), fs)
    else
      match botid_dir fs with
      | None => (Throw (Exn.SystemError "ENOENT"), fs)
      | Some d =>
          match file_at fs p with
          | Unreadable => (Throw (Exn.SystemError "EACCES"), fs)
          | _ =>
              (Ok tt,
               {| botid_dir := Some (put_file d p (Content text));
                  read_only := read_only fs |})
          end
      end.

(** [fs.unlinkSync(path)] *)
Definition unlinkSync (p : Path) : M unit :=
  fun fs =>
    if read_only fs then (Throw (Exn.SystemError "EACCES"), fs)
    else
      match botid_dir fs, file_at fs p with
      | Some d, Content _ | Some d, Unreadable =>
          (Ok tt,
           {| botid_dir := Some (put_file d p Missing);
              read_only := read_only fs |})
      | _, _ => (Throw (Exn.SystemError "ENOENT"), fs)
      end.

(** *** The store *)

Definition ensureDir : M unit :=
  do present <- existsSync_dir in
  if negb present then mkdirSync else ret tt.

(** [{ agents: {} }] *)
Definition empty_store : JSValue := JObj [("agents", JObj [])].

Definition readStore : M JSValue :=
  exec ensureDir in
  do present <- existsSync CREDENTIALS_FILE in
  if negb present then ret empty_store
  else
    try_catch
      (do raw <- readFileSync CREDENTIALS_FILE in
       lift (JSON.parse raw))
      (ret empty_store).

(** [getCredentials(name)]; [JUndefined] is the absent answer. *)
Definition getCredentials (name : string) : M JSValue :=
  do store <- readStore in
  do agents <- lift (JS.get store "agents") in
  lift (JS.get agents name).

Definition listAgents : M (list string) :=
  do store <- readStore in
  do agents <- lift (JS.get store "agents") in
  lift (JS.keys agents).

(** The object [{ accessToken, apiUrl, authenticatedAt }] *)
Definition AuthSession (accessToken apiUrl authenticatedAt : string) : JSValue :=
  JObj [("accessToken", JStr accessToken); ("apiUrl", JStr apiUrl);
        ("authenticatedAt", JStr authenticatedAt)].

Definition saveAuthSession (session : JSValue) : M unit :=
  exec ensureDir in
  writeFileSync AUTH_FILE (JSON.stringify session).

Definition getAuthSession : M JSValue :=
  exec ensureDir in
  do present <- existsSync AUTH_FILE in
  if negb present then ret JUndefined
  else
    try_catch
      (do raw <- readFileSync AUTH_FILE in
       lift (JSON.parse raw))
      (ret JUndefined).

Definition clearAuthSession : M bool :=
  do present <- existsSync AUTH_FILE in
  if present then (exec unlinkSync AUTH_FILE in ret true) else ret false.

Definition writeStore (store : JSValue) : M unit :=
  exec ensureDir in
  writeFileSync CREDENTIALS_FILE (JSON.stringify store).

Record StoredCredentials : Type := {
  botId : string;
  privateKey : string;
  name : string;
  deployer : string;
  apiUrl : string;
  createdAt : string
}.

(** The object that holds the credentials, its properties in the order of
    the interface (and of the literal in src/init.ts). *)
Definition credentials_object (creds : StoredCredentials) : JSValue :=
  JObj [("botId", JStr (botId creds)); ("privateKey", JStr (privateKey creds));
        ("name", JStr (name creds)); ("deployer", JStr (deployer creds));
        ("apiUrl", JStr (apiUrl creds)); ("createdAt", JStr (createdAt creds))].

(** [store] once the object [store.agents], which it shares, has changed
    into [agents]. *)
Definition with_agents (store agents : JSValue) : JSValue :=
  match store with
  | JObj ps => JObj (JS.set "agents" agents ps)
  | _ => store
  end.

Definition saveCredentials (creds : StoredCredentials) : M unit :=
  do store <- readStore in
  do agents <- lift (JS.get store "agents") in
  do agents' <- lift (JS.assign agents (name creds) (credentials_object creds)) in
  writeStore (with_agents store agents').

Section WithPrototypes.
Variable inherited : JSValue -> string -> bool.

Definition removeCredentials (name : string) : M bool :=
  do store <- readStore in
  do agents <- lift (JS.get store "agents") in
  do present <- lift (JS.has inherited agents name) in
  if negb present then ret false
  else
    do agents' <- lift (JS.delete agents name) in
    exec writeStore (with_agents store agents') in
    ret true.

End WithPrototypes.

(** *** Notions for the statements *)

(** A file that is there but cannot be used: reading it fails, or its text
    is not JSON. *)
Definition unusable (f : File) : Prop :=
  f = Unreadable \/ exists text, f = Content text /\ Exn.raises (JSON.parse text).

(** The process may write the file at [p]. *)
Definition writable (p : Path) (fs : FS) : Prop :=
  read_only fs = false /\ file_at fs p <> Unreadable.

(** The directory with the given two files. *)
Definition botid_with (credentials auth : File) : FS :=
  {| botid_dir := Some {| credentials_json := credentials; auth_json := auth |};
     read_only := false |}.

End Store.

(* ===================================================================== *)
(** ** Dates *)
(* ===================================================================== *)

Module Date.

(** [n] written with at least [width] digits. *)
Definition pad (width : nat) (n : Z) : string :=
  let ds := Num.dec n in
  Str.repeat "0"%char (width - String.length ds) ++ ds.

(** Year, month and day of the [days]-th day after 1970-01-01, in the
    proleptic Gregorian calendar. *)
Definition civil_from_days (days : Z) : Z * Z * Z :=
  let z := days + 719468 in
  let era := z / 146097 in
  let doe := z mod 146097 in
  let yoe := (doe - doe / 1460 + doe / 36524 - doe / 146096) / 365 in
  let doy := doe - (365 * yoe + yoe / 4 - yoe / 100) in
  let mp := (5 * doy + 2) / 153 in
  let d := doy - (153 * mp + 2) / 5 + 1 in
  let m := if mp <? 10 then mp + 3 else mp - 9 in
  let y := yoe + era * 400 + (if m <=? 2 then 1 else 0) in
  (y, m, d).

(** [new Date(ms).toISOString()], for a time value [ms] in the range of
    [Date]: [YYYY-MM-DDTHH:mm:ss.sssZ], the year with a sign and six digits
    outside 0..9999. *)
Definition toISOString (ms : Z) : string :=
  let '(y, m, d) := civil_from_days (ms / 86400000) in
  let t := ms mod 86400000 in
  let year :=
    if (0 <=? y) && (y <=? 9999) then pad 4 y
    else (if y <? 0 then "-" else "+") ++ pad 6 (Z.abs y) in
  year ++ "-" ++ pad 2 m ++ "-" ++ pad 2 d ++ "T"
    ++ pad 2 (t / 3600000) ++ ":" ++ pad 2 ((t / 60000) mod 60) ++ ":"
    ++ pad 2 ((t / 1000) mod 60) ++ "." ++ pad 3 (t mod 1000) ++ "Z".

End Date.

(* ===================================================================== *)
(** ** src/auth.ts *)
(* ===================================================================== *)

Module Auth.
Import Verify.

Record DeviceCodeResponse : Type := {
  deviceCode : string;
  userCode : string;
  verificationUrl : string;
  expiresIn : Z;
  interval : Z
}.

Inductive PollStatus : Type := pending | complete | expired | consumed | error.

Record PollResponse : Type := {
  status : PollStatus;
  accessToken : option string;
  error_message : option string   (* the field [error] *)
}.

(** The registry's answer to a POST that carries JSON of the interface [T]:
    a rejected [fetch], or a status with what [res.json()] gives.  The
    answers are taken to have the shape the interfaces declare. *)
Inductive Answer (T : Type) : Type :=
| Unreachable
| Answered (http_status : Z) (json : Result T).
Arguments Unreachable {T}.
Arguments Answered {T} http_status json.

(** [requestDeviceCode(apiUrl)], the registry answering [a]. *)
Definition requestDeviceCode (a : Answer DeviceCodeResponse)
  : Result DeviceCodeResponse :=
  match a with
  | Unreachable => Throw (Exn.TypeError "fetch failed")
  | Answered http_status json =>
      if negb (Net.ok http_status) then
        Throw (Exn.Error ("Failed to request device code ("
                            ++ Num.toString (Num.of_Z http_status) ++ ")"))
      else json
  end.

(** [pollDeviceAuth(deviceCode, apiUrl)], the registry answering [a]. *)
Definition pollDeviceAuth (a : Answer PollResponse) : Result PollResponse :=
  match a with
  | Unreachable => Throw (Exn.TypeError "fetch failed")
  | Answered http_status json =>
      if negb (Net.ok http_status) && negb (http_status =? 202) then
        Throw (Exn.Error ("Device poll failed ("
                            ++ Num.toString (Num.of_Z http_status) ++ ")"))
      else json
  end.

Inductive Platform : Type := darwin | win32 | other_platform.

(** What the caller and the host see of one run. *)
Inductive Event : Type :=
| OnPrompt (verificationUrl userCode : string)
| ExecFile (command : string) (args : list string)
| OnOpen
| Sleep (ms : Z)
| Poll (deviceCode : string).

(** The process while [deviceLogin] runs: the files, the clock in ms, and
    the events so far, latest first. *)
Record World : Type := {
  files : Store.FS;
  clock : Z;
  trace : list Event
}.

Definition emit (e : Event) (w : World) : World :=
  {| files := files w; clock := clock w; trace := e :: trace w |}.

Definition elapse (ms : Z) (w : World) : World :=
  {| files := files w; clock := clock w + ms; trace := trace w |}.

(** The registry and the host as one run meets them: the answer to the
    device-code request, whether [node:child_process] can be imported, and
    the answers to the successive polls, each with the time it took. *)
Record Environment : Type := {
  code_answer : Answer DeviceCodeResponse;
  platform : Platform;
  child_process_available : bool;
  poll_answers : list (Z * Answer PollResponse)
}.

(** How the promise of an [async] function ends; [Waiting] when the answers
    of the environment are used up before it settles. *)
Inductive Settled (A : Type) : Type :=
| Resolved (a : A)
| Rejected (e : Exn.t)
| Waiting.
Arguments Resolved {A} a.
Arguments Rejected {A} e.
Arguments Waiting {A}.

(** [encodeURIComponent] leaves letters, digits and [-_.!~*'()] alone and
    writes every other byte as [%XX]. *)
Definition unreserved (c : ascii) : bool :=
  Str.is_lower c || Str.is_upper c
  || (let n := N_of_ascii c in (48 <=? n) && (n <=? 57))%N
  || existsb (Ascii.eqb c) (list_ascii_of_string "-_.!~*'()").

Definition upper_hex_digit (d : Z) : ascii :=
  if d <? 10 then ascii_of_N (Z.to_N (48 + d)) else ascii_of_N (Z.to_N (55 + d)).

Fixpoint encodeURIComponent (s : string) : string :=
  match s with
  | EmptyString => EmptyString
  | String c r =>
      if unreserved c then String c (encodeURIComponent r)
      else
        let n := Z.of_N (N_of_ascii c) in
        String "%" (String (upper_hex_digit (n / 16))
                      (String (upper_hex_digit (n mod 16)) (encodeURIComponent r)))
  end.

(** The [while] loop of [deviceLogin]; one answer of the environment is
    used per round. *)
Fixpoint poll_loop (apiUrl : string) (codeResponse : DeviceCodeResponse)
    (startTime : Z) (answers : list (Z * Answer PollResponse)) (w : World)
  : Settled string * World :=
  let timeoutMs := expiresIn codeResponse * 1000 in
  let intervalMs := interval codeResponse * 1000 in
  if clock w - startTime <? timeoutMs then
    match answers with
    | [] => (Waiting, w)
    | (took, answer) :: later =>
        let w := elapse intervalMs (emit (Sleep intervalMs) w) in
        let w := elapse took (emit (Poll (deviceCode codeResponse)) w) in
        match pollDeviceAuth answer with
        | Throw e => (Rejected e, w)
        | Ok poll =>
            match status poll, accessToken poll with
            | complete, Some (String c t) =>
                let token := String c t in
                let session :=
                  Store.AuthSession token apiUrl (Date.toISOString (clock w)) in
                match Store.saveAuthSession session (files w) with
                | (Ok _, fs) =>
                    (Resolved token,
                     {| files := fs; clock := clock w; trace := trace w |})
                | (Throw e, fs) =>
                    (Rejected e,
                     {| files := fs; clock := clock w; trace := trace w |})
                end
            | expired, _ =>
                (Rejected (Exn.Error "Device code expired. Please try again."), w)
            | consumed, _ =>
                (Rejected (Exn.Error "Device code already used. Please try again."), w)
            | error, _ =>
                (Rejected (Exn.Error (default "Authentication failed"
                                              (error_message poll))), w)
            | _, _ => poll_loop apiUrl codeResponse startTime later w
            end
        end
    end
  else (Rejected (Exn.Error "Authentication timed out. Please try again."), w).

(** The [try] block that opens the browser; whatever it throws is dropped. *)
Definition open_browser (env : Environment) (codeResponse : DeviceCodeResponse)
    (onOpen : bool) (w : World) : World :=
  if child_process_available env then
    let url := verificationUrl codeResponse ++ "?user_code="
                 ++ encodeURIComponent (userCode codeResponse) in
    let w :=
      match platform env with
      | darwin => emit (ExecFile "open" [url]) w
      | win32 => emit (ExecFile "cmd" ["/c"; "start"; EmptyString; url]) w
      | other_platform => emit (ExecFile "xdg-open" [url]) w
      end in
    if onOpen then emit OnOpen w else w
  else w.

(** [deviceLogin({ apiUrl, onPrompt, onOpen })]; [onOpen] tells whether that
    optional callback was given. *)
Definition deviceLogin (apiUrl : option string) (onOpen : bool)
    (env : Environment) (w : World) : Settled string * World :=
  let apiUrl := normalizeUrl apiUrl in
  match requestDeviceCode (code_answer env) with
  | Throw e => (Rejected e, w)
  | Ok codeResponse =>
      let w := emit (OnPrompt (verificationUrl codeResponse)
                              (userCode codeResponse)) w in
      let w := open_browser env codeResponse onOpen w in
      let startTime := clock w in
      poll_loop apiUrl codeResponse startTime (poll_answers env) w
  end.

(** [a !== b] for a value read from the session and a string. *)
Definition differs (v : JSValue) (s : string) : bool :=
  match v with
  | JStr t => negb (String.eqb t s)
  | _ => true
  end.

(** [apiUrl && session.apiUrl !== apiUrl] *)
Definition other_registry (apiUrl : option string) (session : JSValue)
  : Result bool :=
  match apiUrl with
  | Some u =>
      if Str.truthy u then
        let* stored := JS.get session "apiUrl" in Ok (differs stored u)
      else Ok false
  | None => Ok false
  end.

Definition isLoggedIn (apiUrl : option string) : Store.M bool :=
  Store.bind Store.getAuthSession (fun session =>
  if negb (JS.truthy session) then Store.ret false
  else
    Store.bind (Store.lift (other_registry apiUrl session)) (fun other =>
    if other then Store.ret false else Store.ret true)).

(** [getAccessToken(apiUrl)]; [JUndefined] is the absent answer. *)
Definition getAccessToken (apiUrl : option string) : Store.M JSValue :=
  Store.bind Store.getAuthSession (fun session =>
  if negb (JS.truthy session) then Store.ret JUndefined
  else
    Store.bind (Store.lift (other_registry apiUrl session)) (fun other =>
    if other then Store.ret JUndefined
    else Store.lift (JS.get session "accessToken"))).

Definition logout : Store.M bool := Store.clearAuthSession.

(** *** Notions for the statements *)

(** A round after which the loop goes on: the poll came back, in
    non-negative time, as [pending] (or as [complete] without a token). *)
Definition keeps_waiting (round : Z * Answer PollResponse) : Prop :=
  0 <= fst round
  /\ exists p, pollDeviceAuth (snd round) = Ok p
       /\ (status p = pending
           \/ (status p = complete
               /\ (accessToken p = None \/ accessToken p = Some EmptyString))).

(** The time the rounds take: each sleeps the interval, then polls. *)
Definition time_taken (code : DeviceCodeResponse)
    (rounds : list (Z * Answer PollResponse)) : Z :=
  fold_right (fun round t => interval code * 1000 + fst round + t) 0 rounds.

(** A poll answered [complete] with the token [token]. *)
Definition completes_with (token : string) (round : Z * Answer PollResponse)
  : Prop :=
  exists p, pollDeviceAuth (snd round) = Ok p
    /\ status p = complete /\ accessToken p = Some token
    /\ token <> EmptyString.

(** The process after the rounds [rounds], each of which slept the
    interval and then polled. *)
Definition after_rounds (code : DeviceCodeResponse)
    (rounds : list (Z * Answer PollResponse)) (w : World) : World :=
  fold_left
    (fun w round =>
       elapse (fst round)
         (emit (Poll (deviceCode code))
            (elapse (interval code * 1000)
               (emit (Sleep (interval code * 1000)) w))))
    rounds w.

(** A poll after which the flow gives up with [e]: the poll itself failed
    with [e], or the registry reported the code as expired, as used, or an
    error (with its own text when it gave one). *)
Definition refused_with (e : Exn.t) (round : Z * Answer PollResponse) : Prop :=
  pollDeviceAuth (snd round) = Throw e
  \/ exists p, pollDeviceAuth (snd round) = Ok p
       /\ ((status p = expired
            /\ e = Exn.Error "Device code expired. Please try again.")
           \/ (status p = consumed
               /\ e = Exn.Error "Device code already used. Please try again.")
           \/ (status p = error
               /\ e = Exn.Error (default "Authentication failed"
                                         (error_message p)))).

Definition is_prompt (e : Event) : bool :=
  match e with
  | OnPrompt _ _ => true
  | _ => false
  end.

End Auth.

(* ===================================================================== *)
(** ** src/init.ts *)
(* ===================================================================== *)

Module Init.
Import Verify.

Record BotIDInitOptions : Type := {
  name : string;
  accessToken : option string;
  apiUrl : option string
}.

Record RegistrationResponse : Type := {
  botId : string;
  deployer : string;
  success : bool;
  error : option string
}.

(** The client that [init] returns: its bot id, its private key and its
    registry URL.  On the path that loads stored credentials the first two
    are what the file holds, whatever that is. *)
Record LoadedClient : Type := {
  client_botId : JSValue;
  client_privateKey : JSValue;
  client_apiUrl : string
}.

(** [new BotIDClient({ botId, privateKey, apiUrl })].  The constructor
    passes [apiUrl] to [normalizeUrl], whose [replace] exists on strings
    only. *)
Definition new_BotIDClient (botId privateKey apiUrl : JSValue)
  : Result LoadedClient :=
  match apiUrl with
  | JUndefined | JNull =>
      Ok {| client_botId := botId; client_privateKey := privateKey;
            client_apiUrl := normalizeUrl None |}
  | JStr url =>
      Ok {| client_botId := botId; client_privateKey := privateKey;
            client_apiUrl := normalizeUrl (Some url) |}
  | _ => Throw (Exn.TypeError "(url ?? DEFAULT_API_URL).replace is not a function")
  end.

(** The POST to [/api/register]: its URL, the value written after
    [Bearer] in the [Authorization] header, and the two properties of the
    body. *)
Record Registration : Type := {
  reg_url : string;
  bearer : JSValue;
  reg_name : string;
  reg_publicKey : string
}.

(** [options.accessToken ?? process.env.BOTID_TOKEN
     ?? getAuthSession()?.accessToken]; the session file is read only when
    the first two are absent. *)
Definition resolve_token (options : BotIDInitOptions) (env_token : option string)
  : Store.M JSValue :=
  match accessToken options with
  | Some token => Store.ret (JStr token)
  | None =>
      match env_token with
      | Some token => Store.ret (JStr token)
      | None =>
          Store.bind Store.getAuthSession (fun session =>
          match session with
          | JUndefined | JNull => Store.ret JUndefined
          | _ => Store.lift (JS.get session "accessToken")
          end)
      end
  end.

Definition authentication_required : string :=
  "Authentication required. Run `botid login` first, or set the BOTID_TOKEN environment variable.".

Section WithCrypto.
Context `{NodeCrypto}.

(** [init(options)]: [env_token] is [process.env.BOTID_TOKEN], [r] the
    randomness of the key generation, [answer] what the registry answers to
    the registration, [now_ms] the clock when the credentials are stored.
    The result comes with the files afterwards and the registrations sent. *)
Definition init (options : BotIDInitOptions) (env_token : option string)
    (r : Entropy) (answer : Auth.Answer RegistrationResponse) (now_ms : Z)
    (fs : Store.FS) : Result LoadedClient * Store.FS * list Registration :=
  let apiUrl := normalizeUrl (apiUrl options) in
  (* Check for existing credentials *)
  match Store.getCredentials (name options) fs with
  | (Throw e, fs) => (Throw e, fs, [])
  | (Ok existing, fs) =>
      if JS.truthy existing then
        (let* botId := JS.get existing "botId" in
         let* privateKey := JS.get existing "privateKey" in
         let* apiUrl := JS.get existing "apiUrl" in
         new_BotIDClient botId privateKey apiUrl, fs, [])
      else
        match resolve_token options env_token fs with
        | (Throw e, fs) => (Throw e, fs, [])
        | (Ok accessToken, fs) =>
            if negb (JS.truthy accessToken) then
              (Throw (Exn.Error authentication_required), fs, [])
            else
              let keys := generateKeypair r in
              let request :=
                {| reg_url := apiUrl ++ "/api/register"; bearer := accessToken;
                   reg_name := name options; reg_publicKey := publicKey keys |} in
              match answer with
              | Auth.Unreachable =>
                  (Throw (Exn.TypeError "fetch failed"), fs, [request])
              | Auth.Answered status json =>
                  if negb (Net.ok status) then
                    (Throw (Exn.Error ("BotID registration failed (HTTP "
                                         ++ Num.toString (Num.of_Z status) ++ ")")),
                     fs, [request])
                  else
                    match json with
                    | Throw e => (Throw e, fs, [request])
                    | Ok data =>
                        if negb (success data) || negb (Str.truthy (botId data))
                        then
                          (Throw (Exn.Error ("BotID registration failed: "
                                               ++ default "Unknown error" (error data))),
                           fs, [request])
                        else
                          let creds :=
                            {| Store.botId := botId data;
                               Store.privateKey := privateKey keys;
                               Store.name := name options;
                               Store.deployer := deployer data;
                               Store.apiUrl := apiUrl;
                               Store.createdAt := Date.toISOString now_ms |} in
                          match Store.saveCredentials creds fs with
                          | (Throw e, fs) => (Throw e, fs, [request])
                          | (Ok _, fs) =>
                              (new_BotIDClient (JStr (botId data))
                                 (JStr (privateKey keys)) (JStr apiUrl),
                               fs, [request])
                          end
                    end
              end
        end
  end.

End WithCrypto.

End Init.

(* ===================================================================== *)
(** ** Instances for the examples *)
(* ===================================================================== *)

Module Examples.
Import Verify Middleware Auth.

Fixpoint bytes_eqb (a b : Buffer.t) : bool :=
  match a, b with
  | [], [] => true
  | x :: a', y :: b' => Byte.eqb x y && bytes_eqb a' b'
  | _, _ => false
  end.

(** A stand-in for [node:crypto] on which the examples run.  It has the
    shape of a signature scheme and none of its strength: a key is its own
    DER form and must be 4 bytes long, the public key equals the private
    one, and a signature is the key followed by the data. *)
#[local] Instance toy_crypto : NodeCrypto := {|
  PublicKey := Buffer.t;
  PrivateKey := Buffer.t;
  Entropy := Byte.byte;
  createPublicKey k :=
    if (List.length k =? 4)%nat then Ok k else Throw (Exn.Error "DECODER routines::unsupported");
  createPrivateKey k :=
    if (List.length k =? 4)%nat then Ok k else Throw (Exn.Error "DECODER routines::unsupported");
  crypto_sign data k := Ok (k ++ data)%list;
  crypto_verify data k sig := Ok (bytes_eqb sig (k ++ data)%list);
  generateKeyPairSync r := ([r; r; r; r], [r; r; r; r]);
  export_spki k := k;
  export_pkcs8 k := k
|}.

(** A reader of URLs of the form [scheme://host/path?query#fragment], for
    the examples; no normalisation of the path. *)
Fixpoint after_authority (s : string) (slashes : nat) : string :=
  match s with
  | EmptyString => EmptyString
  | String c r =>
      if Ascii.eqb c "/"%char then
        match slashes with
        | O => s
        | S k => after_authority r k
        end
      else if Ascii.eqb c "?"%char || Ascii.eqb c "#"%char then s
      else after_authority r slashes
  end.

Fixpoint after_char (x : ascii) (s : string) : option string :=
  match s with
  | EmptyString => None
  | String c r => if Ascii.eqb c x then Some r else after_char x r
  end.

Definition simple_URL (url : string) : Result Client.URL :=
  if Str.contains ":"%char (Str.split_head "/"%char url) then
    let rest := after_authority url 2 in
    let before_fragment := Str.split_head "#"%char rest in
    let path := Str.split_head "?"%char before_fragment in
    Ok {| Client.pathname := if Str.truthy path then path else "/";
          Client.query := after_char "?"%char before_fragment;
          Client.fragment := after_char "#"%char rest |}
  else Throw (Exn.TypeError "Invalid URL").

(** The request of the test suite: lower-case header names, nothing else. *)
Definition mockReq (hs : list (string * string)) : ExpressRequest :=
  {| headers := list_to_map (List.map (fun kv => (Str.toLowerCase (fst kv), Single (snd kv))) hs);
     method := None; url := None; originalUrl := None; BotID := None |}.

Definition default_options : VerifyBotIDOptions :=
  {| apiUrl := None; requireVerified := None; onUnverified := false |}.

Definition passive_options : VerifyBotIDOptions :=
  {| apiUrl := None; requireVerified := Some false; onUnverified := false |}.

Definition unreachable_registry : string -> Net.FetchOutcome :=
  fun _ => Net.NetworkError.

(** The registry of the examples knows one bot. *)
Definition registry_answering (status : Z) (body : string)
  : string -> Net.FetchOutcome :=
  fun url =>
    if String.eqb url "https://botid.net/api/keys/bot_mw_test"
    then Net.Response status body else Net.NetworkError.

Definition example_now : Z := 1700000000123.

Definition example_request (timestampRaw : string) : ExpressRequest :=
  mockReq [("X-BotID", "bot_mw_test"); ("X-BotID-Signature", "aabb");
           ("X-BotID-Timestamp", timestampRaw)].

(** The message a client signs for GET / at second 1700000000. *)
Definition example_signature : string :=
  match signMessage (H := toy_crypto)
          "1700000000.bot_mw_test.GET./" "2a2a2a2a" with
  | Ok signature => signature
  | Throw _ => EmptyString
  end.

Definition example_code : DeviceCodeResponse :=
  {| deviceCode := "dc_abc"; userCode := "ABCD-1234";
     verificationUrl := "https://botid.net/device";
     expiresIn := 900; interval := 5 |}.

Definition example_environment : Environment :=
  {| code_answer := Answered 200 (Ok example_code);
     platform := other_platform;
     child_process_available := true;
     poll_answers :=
       [(120, Answered 202
                (Ok {| status := pending; accessToken := None;
                       error_message := None |}));
        (80, Answered 200
               (Ok {| status := complete; accessToken := Some "token_xyz";
                      error_message := None |}))] |}.

Definition pending_answer : Answer PollResponse :=
  Answered 202 (Ok {| status := pending; accessToken := None;
                      error_message := None |}).

(** The registry reports the code as expired at the second poll. *)
Definition expiring_environment : Environment :=
  {| code_answer := Answered 200 (Ok example_code);
     platform := darwin;
     child_process_available := false;
     poll_answers :=
       [(120, pending_answer);
        (80, Answered 200
               (Ok {| status := expired; accessToken := None;
                      error_message := None |}))] |}.

(** The registry never completes; its second answer takes a quarter of an
    hour. *)
Definition stalling_environment : Environment :=
  {| code_answer := Answered 200 (Ok example_code);
     platform := win32;
     child_process_available := true;
     poll_answers :=
       [(120, pending_answer); (900000, pending_answer); (90, pending_answer)] |}.

Definition fresh_world : World :=
  {| files := {| Store.botid_dir := None; Store.read_only := false |};
     clock := 1700000000000; trace := [] |}.

End Examples.

(* ===================================================================== *)
(** ** Notions for the further properties *)
(* ===================================================================== *)

Module JsonShape.

(** The values written with strings, booleans and [null] only, in arrays
    and in objects whose property names differ: those that a JSON text
    gives back exactly as they were written. *)
Fixpoint textual (v : JSValue) : bool :=
  match v with
  | JNull | JBool _ | JStr _ => true
  | JUndefined | JNum _ => false
  | JArr l => forallb textual l
  | JObj ps =>
      forallb (fun kv => let '(_, x) := kv in textual x) ps
      && bool_decide (NoDup (List.map fst ps))
  end.

(** The depth of calls that reading [v] back takes at most. *)
Fixpoint size (v : JSValue) : nat :=
  match v with
  | JArr l => S (list_sum (List.map (fun x => S (size x)) l))
  | JObj ps => S (list_sum (List.map (fun kv => let '(_, x) := kv in S (size x)) ps))
  | _ => 1
  end.

End JsonShape.

Module Outcomes.
Import Verify Middleware.

(** The result attached when the signature verifies. *)
Definition verified_result (timestamp : JSNumber) (botId : string)
  : VerificationResult :=
  {| verified := true;
     bot := Some {| id := botId; name := botId; deployer_id := EmptyString |};
     timestamp := timestamp; error := None; revoked := None |}.

(** The result attached when it does not. *)
Definition unverified_result (timestamp : JSNumber) : VerificationResult :=
  {| verified := false; bot := None; timestamp := timestamp;
     error := None; revoked := None |}.

(** The result attached when the registry could not be used. *)
Definition unavailable_result (later_ms : Z) : VerificationResult :=
  {| verified := false; bot := None; timestamp := Num.of_Z (seconds later_ms);
     error := Some "Verification service unavailable"; revoked := None |}.

(** The URL at which the key of [botId] is looked up. *)
Definition keys_url (options : VerifyBotIDOptions) (botId : string) : string :=
  normalizeUrl (apiUrl options) ++ "/api/keys/" ++ botId.

(** The registry's answer carries the value [publicKey]: a success status
    and a JSON body that has properties. *)
Definition key_served (answer : Net.FetchOutcome) (publicKey : JSValue) : Prop :=
  exists status text body,
    answer = Net.Response status text /\ Net.ok status = true
    /\ JSON.parse text = Ok body /\ JS.get body "publicKey" = Ok publicKey.

(** The lookup fails: no answer, or an answer that neither flags a
    revocation nor serves a key (a status that is no success, a body that is
    no JSON, or the body [null]). *)
Definition lookup_fails (answer : Net.FetchOutcome) : Prop :=
  signals_revocation answer = false
  /\ match answer with
     | Net.NetworkError => True
     | Net.Response status text =>
         Net.ok status = false
         \/ Exn.raises (let* body := JSON.parse text in JS.get body "publicKey")
     end.

(** A request in the form the client library sends: the method and the
    signature are ASCII text, and the time is written as a whole number
    that binary64 holds exactly, so that its text in the signed message is
    that number again. *)
Definition plain (req : ExpressRequest) : Prop :=
  Str.ascii_only (default "GET" (method req)) = true
  /\ (forall signature,
        getHeader req HEADER_SIGNATURE = Some signature ->
        Str.ascii_only signature = true)
  /\ (forall timestampRaw,
        getHeader req HEADER_TIMESTAMP = Some timestampRaw ->
        exists t, Number timestampRaw = Num.of_Z t
                  /\ Z.abs t <= 9007199254740992).

(** What the registry serves as a key is a text within ASCII, or a value
    that [Buffer.from] refuses with a TypeError: [undefined], [null], a
    boolean, a number.  Arrays and objects, some of which [Buffer.from]
    reads as bytes, are left out. *)
Definition scalar_key (publicKey : JSValue) : Prop :=
  match publicKey with
  | JStr publicKeyHex => Str.ascii_only publicKeyHex = true
  | JArr _ | JObj _ => False
  | _ => True
  end.

(** The text ends with a slash. *)
Definition ends_with_slash (s : string) : bool :=
  match Str.rev s with
  | String c _ => Ascii.eqb "/"%char c
  | EmptyString => false
  end.

(** A request signed by the bot of the examples for GET / at second
    1700000000, and the registry's answer that serves its key. *)
Definition signed_request : ExpressRequest :=
  Examples.mockReq
    [("X-BotID", "bot_mw_test"); ("X-BotID-Signature", Examples.example_signature);
     ("X-BotID-Timestamp", "1700000000")].

Definition key_body : string :=
  JSON.stringify (JObj [("publicKey", JStr "2a2a2a2a")]).

(** The client of the examples, holding the private key of the pair drawn
    from [Byte.x2a], and what its [fetch] hands to the platform for
    [https://example.com/] at [example_now]. *)
Definition example_client : Client.BotIDClient :=
  {| Client.botId := "bot_mw_test";
     Client.privateKey :=
       privateKey (generateKeypair (H := Examples.toy_crypto) Byte.x2a);
     Client.apiUrl := "https://botid.net" |}.

Definition example_init : Client.RequestInit :=
  {| Client.init_method := None;
     Client.init_headers := [("Accept", "text/plain"); ("X-BotID", "someone")] |}.

Definition example_outbound : Client.Outbound :=
  match Client.fetch (H := Examples.toy_crypto) Examples.simple_URL
          example_client Examples.example_now "https://example.com/"
          example_init with
  | Ok out => out
  | Throw _ =>
      {| Client.out_url := EmptyString; Client.out_method := None;
         Client.out_headers := ∅ |}
  end.

(** The names that [Object.prototype] provides to every object: reading
    one of them from an object that has no property of that name itself
    gives the inherited member, not [undefined]. *)
Definition object_prototype_names (v : JSValue) (k : string) : bool :=
  existsb (String.eqb k)
    ["__proto__"; "constructor"; "hasOwnProperty"; "isPrototypeOf";
     "propertyIsEnumerable"; "toLocaleString"; "toString"; "valueOf";
     "__defineGetter__"; "__defineSetter__"; "__lookupGetter__";
     "__lookupSetter__"].

Definition example_credentials : Store.StoredCredentials :=
  {| Store.botId := "bot_abc123"; Store.privateKey := "2a2a2a2a";
     Store.name := "my-agent"; Store.deployer := "github:alice";
     Store.apiUrl := "https://botid.net";
     Store.createdAt := "2023-11-14T22:13:20.123Z" |}.

(** A directory whose credentials file holds one other agent. *)
Definition example_store_files : Store.FS :=
  Store.botid_with
    (Store.Content
       (JSON.stringify
          (JObj [("agents",
                  JObj [("other-agent",
                         JObj [("botId", JStr "bot_other");
                               ("privateKey", JStr "0b0b0b0b")])])])))
    Store.Missing.

Definition example_init_options : Init.BotIDInitOptions :=
  {| Init.name := "my-agent"; Init.accessToken := Some "explicit_token";
     Init.apiUrl := None |}.

(** The registry accepts the registration. *)
Definition example_registration : Auth.Answer Init.RegistrationResponse :=
  Auth.Answered 200
    (Ok {| Init.botId := "bot_new"; Init.deployer := "github:alice";
           Init.success := true; Init.error := None |}).

(** A first [init] on the directory of the examples. *)
Definition example_first_init
  : Result Init.LoadedClient * Store.FS * list Init.Registration :=
  Init.init (H := Examples.toy_crypto) example_init_options (Some "env_token")
    Byte.x2a example_registration Examples.example_now example_store_files.

End Outcomes.

(* ===================================================================== *)
(** * Properties *)
(* ===================================================================== *)

(** ** The replay window *)

Module ReplayWindow.
Import Verify.

Lemma isTimestampValid_whole_seconds (now_ms t : Z) :
  isTimestampValid now_ms (Num.of_Z t)
  = (Z.abs (seconds now_ms - t) <=? TIMESTAMP_WINDOW_SECONDS).
Proof.
  unfold isTimestampValid, Num.of_Z, Num.sub, Num.abs, Num.leb, Num.align.
  change (Z.min 0 0) with 0. change (10 ^ (0 - 0)) with 1.
  now rewrite !Z.mul_1_r.
Qed.

Lemma isTimestampValid_iff (now_ms t : Z) :
  isTimestampValid now_ms (Num.of_Z t) = true
  <-> seconds now_ms - 300 <= t <= seconds now_ms + 300.
Proof.
  rewrite isTimestampValid_whole_seconds. unfold TIMESTAMP_WINDOW_SECONDS.
  rewrite Z.leb_le. lia.
Qed.

Lemma isTimestampValid_NaN (now_ms : Z) : isTimestampValid now_ms NaN = false.
Proof. reflexivity. Qed.

Lemma isTimestampValid_Infinity (now_ms : Z) (negative : bool) :
  isTimestampValid now_ms (Infinity negative) = false.
Proof. now destruct negative. Qed.

(** C4.  Whatever the clock reads, with [now] its whole seconds:
    [isTimestampValid t] is true for every whole-second timestamp [t] with
    [now - 300 <= t <= now + 300], and false at [now - 301] and at
    [now + 301]. *)
Theorem replay_window_bounds (now_ms : Z) :
  let now := seconds now_ms in
  (forall t : Z,
      now - 300 <= t <= now + 300 ->
      isTimestampValid now_ms (Num.of_Z t) = true)
  /\ isTimestampValid now_ms (Num.of_Z (now - 301)) = false
  /\ isTimestampValid now_ms (Num.of_Z (now + 301)) = false.
Proof.
  intros now. split; [| split].
  - intros t Ht. now apply isTimestampValid_iff.
  - apply not_true_is_false. rewrite isTimestampValid_iff. subst now. lia.
  - apply not_true_is_false. rewrite isTimestampValid_iff. subst now. lia.
Qed.

Lemma replay_window_bounds_witness :
  seconds 1700000000999 - 300 <= 1699999700 <= seconds 1700000000999 + 300
  /\ isTimestampValid 1700000000999 (Num.of_Z 1699999700) = true.
Proof.
  assert (Hr : seconds 1700000000999 - 300 <= 1699999700
               <= seconds 1700000000999 + 300) by (vm_compute; split; discriminate).
  split; [exact Hr |].
  exact (proj1 (replay_window_bounds 1700000000999) 1699999700 Hr).
Defined.

End ReplayWindow.

(** ** Signatures *)

Module Signatures.
Import Verify.

(** Hexadecimal text written by [to_hex] reads back as the same bytes. *)
Lemma from_hex_to_hex_byte (b : Byte.byte) (rest : string) :
  Buffer.from_hex (Buffer.to_hex [b] ++ rest) = b :: Buffer.from_hex rest.
Proof. destruct b; reflexivity. Qed.

Lemma to_hex_cons (b : Byte.byte) (buf : Buffer.t) :
  Buffer.to_hex (b :: buf) = Buffer.to_hex [b] ++ Buffer.to_hex buf.
Proof. reflexivity. Qed.

Lemma from_hex_to_hex (buf : Buffer.t) : Buffer.from_hex (Buffer.to_hex buf) = buf.
Proof.
  induction buf as [| b buf IH]; [reflexivity |].
  rewrite to_hex_cons, from_hex_to_hex_byte. now f_equal.
Qed.

Section WithCrypto.
Context `{C : NodeCrypto}.

(** C5.  For every message, signature text and key text, hexadecimal or
    not, [verifySignature] does not raise: it answers a boolean; and
    whenever decoding fails the answer is [false]. *)
Theorem verifySignature_never_raises (message signatureHex publicKeyHex : string) :
  (exists b : bool, verifySignature message signatureHex publicKeyHex = Ok b)
  /\ (decode_failure message signatureHex publicKeyHex ->
      verifySignature message signatureHex publicKeyHex = Ok false).
Proof.
  unfold decode_failure, verifySignature, Exn.try_catch.
  destruct (Exn.bind _ _) as [b | e]; cbn.
  - split; [now exists b | intros []].
  - split; [now exists false | reflexivity].
Qed.

(** C6.  With the Ed25519 of the platform, for every message and every
    pair that [generateKeypair] produces, signing succeeds and the signature
    verifies under the public key of the pair. *)
Theorem sign_verify_round_trip (L : Ed25519Laws C) (r : Entropy) (m : string) :
  let keys := generateKeypair r in
  exists signature : string,
    signMessage m (privateKey keys) = Ok signature
    /\ verifySignature m signature (publicKey keys) = Ok true.
Proof.
  cbn. unfold generateKeypair.
  pose proof (import_export_private C L r) as Hpriv.
  pose proof (import_export_public C L r) as Hpub.
  destruct (sign_then_verify C L r (Buffer.from m)) as (sig & Hsign & Hverify).
  destruct (generateKeyPairSync r) as [pub priv]; cbn in *.
  exists (Buffer.to_hex sig). split.
  - unfold signMessage. rewrite from_hex_to_hex, Hpriv. cbn.
    now rewrite Hsign.
  - unfold verifySignature. rewrite !from_hex_to_hex, Hpub. cbn.
    now rewrite Hverify.
Qed.

End WithCrypto.

(** The stand-in crypto module obeys the laws. *)
Lemma bytes_eqb_refl (b : Buffer.t) : Examples.bytes_eqb b b = true.
Proof.
  induction b as [| x b IH]; [reflexivity |]. cbn.
  rewrite IH, andb_true_r. now apply Byte.byte_dec_lb.
Qed.

Lemma toy_crypto_laws : Ed25519Laws Examples.toy_crypto.
Proof.
  split; intros; try reflexivity.
  cbn. eexists. split; [reflexivity |]. now rewrite bytes_eqb_refl.
Qed.

Lemma verifySignature_never_raises_witness :
  decode_failure (H := Examples.toy_crypto) "test" "aabb" "not-a-key"
  /\ verifySignature (H := Examples.toy_crypto) "test" "aabb" "not-a-key" = Ok false.
Proof.
  assert (Hf : decode_failure (H := Examples.toy_crypto) "test" "aabb" "not-a-key")
    by exact I.
  split; [exact Hf |].
  exact (proj2 (verifySignature_never_raises (C := Examples.toy_crypto)
                  "test" "aabb" "not-a-key") Hf).
Defined.

Lemma sign_verify_round_trip_witness :
  exists signature : string,
    signMessage (H := Examples.toy_crypto) "1700000000.bot_test123.GET./test"
      (privateKey (generateKeypair (H := Examples.toy_crypto) Byte.x2a))
    = Ok signature
    /\ verifySignature (H := Examples.toy_crypto)
         "1700000000.bot_test123.GET./test" signature
         (publicKey (generateKeypair (H := Examples.toy_crypto) Byte.x2a))
       = Ok true.
Proof.
  exact (sign_verify_round_trip (C := Examples.toy_crypto) toy_crypto_laws
           Byte.x2a "1700000000.bot_test123.GET./test").
Defined.

End Signatures.

(** ** The verification middleware *)

Module MiddlewareFacts.
Import Verify Middleware Examples.

(** Case analysis on whatever the hypothesis [H] matches on first. *)
Ltac break_in H :=
  match type of H with
  | context [match ?x with _ => _ end] =>
      let E := fresh "E" in
      destruct x eqn:E; cbv beta iota zeta in H; try discriminate H
  end.

#[local] Arguments Number : simpl never.
#[local] Arguments Num.toString : simpl never.
#[local] Arguments JSON.parse : simpl never.
#[local] Arguments isTimestampValid : simpl never.
#[local] Arguments normalizeUrl : simpl never.

Section WithCrypto.
Context `{C : NodeCrypto}.

Lemma lookup_and_verify_attaches options server botId signature timestamp req req' act :
  lookup_and_verify options server botId signature timestamp req = Ok (req', act) ->
  exists r, req' = set_BotID req r.
Proof.
  unfold lookup_and_verify, Exn.bind. intros Hrun.
  repeat break_in Hrun;
    injection Hrun as <- <-; eexists; reflexivity.
Qed.

(** Where a result is attached.  With enforcement on and an identity
    header missing or empty, the request is turned down (by the default
    403/400 answer or by the caller's handler) exactly as it came: its
    result slot is what it was.  On every other path, rejections included,
    the request handed on is the incoming one with a result in the slot; so
    whenever [next()] is called a result is there. *)
Lemma result_attached_elsewhere
    (options : VerifyBotIDOptions) (server : string -> Net.FetchOutcome)
    (now_ms later_ms : Z) (req : ExpressRequest) :
  let out := verifyBotID options server now_ms later_ms req in
  (if enforce options && incomplete req
   then request out = req /\ BotID (request out) = BotID req
        /\ action out <> CallNext
   else exists r, request out = set_BotID req r /\ BotID (request out) = Some r)
  /\ (action out = CallNext -> exists r, BotID (request out) = Some r).
Proof.
  cbn zeta.
  assert (Hmain :
    if enforce options && incomplete req
    then request (verifyBotID options server now_ms later_ms req) = req
         /\ action (verifyBotID options server now_ms later_ms req) <> CallNext
    else exists r,
        request (verifyBotID options server now_ms later_ms req) = set_BotID req r).
  { unfold verifyBotID, enforce, incomplete, reject.
    destruct (falsy (getHeader req HEADER_BOT_ID)),
             (falsy (getHeader req HEADER_SIGNATURE)),
             (falsy (getHeader req HEADER_TIMESTAMP)),
             (default true (requireVerified options));
      cbn; try (split; [reflexivity | destruct (onUnverified options); discriminate]);
      try (eexists; reflexivity).
    all: destruct (isTimestampValid _ _); cbn; try (eexists; reflexivity).
    all: destruct (lookup_and_verify _ _ _ _ _ _) as [[req' act] | e] eqn:Hrun; cbn;
      try (eexists; reflexivity).
    all: eapply lookup_and_verify_attaches; eassumption. }
  destruct (enforce options && incomplete req).
  - destruct Hmain as [Hsame Hno].
    split; [split; [exact Hsame | split; [now rewrite Hsame | exact Hno]] |].
    intros Hnext. now destruct Hno.
  - destruct Hmain as [r Hr].
    split; [exists r | intros _; exists r]; rewrite Hr; try split; reflexivity.
Qed.

Lemma presents_not_falsy req botId signature timestampRaw :
  presents req botId signature timestampRaw ->
  getHeader req HEADER_BOT_ID = Some botId
  /\ getHeader req HEADER_SIGNATURE = Some signature
  /\ getHeader req HEADER_TIMESTAMP = Some timestampRaw
  /\ falsy (Some botId) = false /\ falsy (Some signature) = false
  /\ falsy (Some timestampRaw) = false.
Proof.
  intros (Hid & Hb & Hs & Ht). unfold identity in Hid.
  injection Hid as -> -> ->. cbn. now rewrite Hb, Hs, Ht.
Qed.

(** C2.  A request with all three identity headers and a fresh timestamp,
    for which the registry signals revocation (status 403 and a body whose
    [revoked] is truthy): the registry has been asked once, for the key of
    the id presented; the result in the request's slot has
    [verified = false] and [revoked = true], with the error text, no bot and
    the time of the header (given here for a header that is a whole
    number); the request is otherwise as it came; with enforcement on and no
    override handler the answer is 403 with [revoked: true] in the body,
    with an override handler that handler is called; with enforcement off
    the next handler runs. *)
Theorem revoked_identity
    (options : VerifyBotIDOptions) (server : string -> Net.FetchOutcome)
    (now_ms later_ms : Z) (req : ExpressRequest)
    (botId signature timestampRaw : string) :
  presents req botId signature timestampRaw ->
  isTimestampValid now_ms (Number timestampRaw) = true ->
  signals_revocation
    (server (normalizeUrl (apiUrl options) ++ "/api/keys/" ++ botId)) = true ->
  let out := verifyBotID options server now_ms later_ms req in
  (exists r,
      BotID (request out) = Some r
      /\ verified r = false /\ revoked r = Some true
      /\ error r = Some "Bot identity has been revoked"
      /\ bot r = None
      /\ (forall t, Number timestampRaw = Num.of_Z t -> timestamp r = Num.of_Z t))
  /\ headers (request out) = headers req
  /\ method (request out) = method req
  /\ url (request out) = url req
  /\ originalUrl (request out) = originalUrl req
  /\ lookups out = [normalizeUrl (apiUrl options) ++ "/api/keys/" ++ botId]
  /\ (enforce options = true -> onUnverified options = false ->
      action out =
        Respond 403 (JObj [("error", JStr "Bot identity has been revoked");
                           ("revoked", JBool true)]))
  /\ (enforce options = true -> onUnverified options = true ->
      action out = CallOnUnverified)
  /\ (enforce options = false -> action out = CallNext).
Proof.
  intros Hp Hfresh Hrev.
  destruct (presents_not_falsy _ _ _ _ Hp) as (Hb & Hs & Ht & Fb & Fs & Ft).
  unfold signals_revocation in Hrev.
  destruct (server _) as [| status text] eqn:Hanswer; [discriminate |].
  apply andb_true_iff in Hrev as [Hstatus Hflag].
  destruct (JSON.parse text) as [body |] eqn:Hbody; [| discriminate].
  destruct (JS.get body "revoked") as [flag |] eqn:Hget; [| discriminate].
  cbn zeta. unfold verifyBotID.
  rewrite Hb, Hs, Ht, Fb, Fs, Ft. cbn [andb orb from_option]. unfold Datatypes.id.
  rewrite Hfresh. cbn [negb].
  unfold lookup_and_verify, Net.fetch. rewrite Hanswer. cbn [Exn.bind].
  rewrite Hstatus, Hbody. cbn [Exn.bind]. rewrite Hget. cbn [Exn.bind].
  rewrite Hflag. unfold enforce, reject.
  split.
  { eexists.
    destruct (requireVerified options) as [[|] |]; cbn [from_option request];
      unfold Datatypes.id; cbn [request BotID set_BotID];
      (split; [reflexivity |]); cbn; repeat split; now intros t ->. }
  destruct (requireVerified options) as [[|] |]; cbn;
    repeat split; try discriminate; try reflexivity; now intros _ ->.
Qed.

(** C9, as the code has it.  A request with all three identity headers whose
    timestamp value [Number] turns into NaN (text that is no numeric literal
    of any kind) takes the stale-timestamp branch: the registry is not
    asked, the stale result is attached, and the answer is 403 "Timestamp
    outside valid window" when enforcement is on without an override. *)
Theorem non_numeric_timestamp_is_stale
    (options : VerifyBotIDOptions) (server : string -> Net.FetchOutcome)
    (now_ms later_ms : Z) (req : ExpressRequest)
    (botId signature timestampRaw : string) :
  presents req botId signature timestampRaw ->
  Number timestampRaw = NaN ->
  let out := verifyBotID options server now_ms later_ms req in
  lookups out = []
  /\ request out = set_BotID req (stale_result NaN)
  /\ BotID (request out)
     = Some {| verified := false; bot := None; timestamp := NaN;
               error := Some "Timestamp outside valid window";
               revoked := None |}
  /\ (enforce options = true -> onUnverified options = false ->
      action out = Respond 403 (error_body "Timestamp outside valid window"))
  /\ (enforce options = true -> onUnverified options = true ->
      action out = CallOnUnverified)
  /\ (enforce options = false -> action out = CallNext).
Proof.
  intros Hp Hnan.
  destruct (presents_not_falsy _ _ _ _ Hp) as (Hb & Hs & Ht & Fb & Fs & Ft).
  cbn zeta. unfold verifyBotID.
  rewrite Hb, Hs, Ht, Fb, Fs, Ft. cbn [andb orb from_option]. unfold Datatypes.id.
  rewrite Hnan. cbn [isTimestampValid negb]. unfold enforce, reject.
  change (isTimestampValid now_ms NaN) with false. cbn [negb].
  destruct (requireVerified options) as [[|] |]; cbn;
    repeat split; try discriminate; try reflexivity; now intros _ ->.
Qed.

Lemma getHeader_without_same req name :
  getHeader (without_header req name) name = None.
Proof. unfold getHeader, without_header; cbn. now rewrite lookup_delete_eq. Qed.

Lemma getHeader_without_other req name name' :
  Str.toLowerCase name <> Str.toLowerCase name' ->
  getHeader (without_header req name) name' = getHeader req name'.
Proof.
  intros Hne. unfold getHeader, without_header; cbn.
  now rewrite lookup_delete_ne.
Qed.

(** C10.  An identity header whose value is the empty string is treated as
    an absent one: taking it out of the request changes neither the way
    control is handed on, nor the result attached, nor the registry
    lookups.  A request whose three identity headers are all empty takes the
    no-identity branch: 403 "BotID verification required" under enforcement,
    not the 400 of the incomplete-headers branch. *)
Theorem empty_header_is_absent
    (options : VerifyBotIDOptions) (server : string -> Net.FetchOutcome)
    (now_ms later_ms : Z) (req : ExpressRequest) :
  (forall name,
      name = HEADER_BOT_ID \/ name = HEADER_SIGNATURE \/ name = HEADER_TIMESTAMP ->
      getHeader req name = Some EmptyString ->
      visible (verifyBotID options server now_ms later_ms req)
      = visible (verifyBotID options server now_ms later_ms (without_header req name)))
  /\ (identity req = (Some EmptyString, Some EmptyString, Some EmptyString) ->
      let out := verifyBotID options server now_ms later_ms req in
      lookups out = []
      /\ action out =
           (if enforce options
            then reject options 403 (error_body "BotID verification required")
            else CallNext)
      /\ (enforce options = true -> onUnverified options = false ->
          action out = Respond 403 (error_body "BotID verification required"))).
Proof.
  split.
  - intros name Hname Hempty. unfold visible, verifyBotID.
    destruct Hname as [-> | [-> | ->]];
      rewrite getHeader_without_same, !getHeader_without_other by discriminate;
      rewrite Hempty; cbn [falsy Str.truthy negb andb orb];
      destruct (falsy (getHeader req _)), (falsy (getHeader req _)),
               (default true (requireVerified options)); reflexivity.
  - unfold identity. intros Hid. injection Hid as Hb Hs Ht.
    cbn zeta. unfold verifyBotID, enforce. rewrite Hb, Hs, Ht.
    cbn [falsy Str.truthy negb andb orb].
    destruct (default true (requireVerified options)); cbn.
    + repeat split. intros _ Hov. unfold reject. now rewrite Hov.
    + repeat split. discriminate.
Qed.

End WithCrypto.

(** C1.  The design asks for a verification result on the request on
    every path, the rejections for missing headers included.  The handler
    does not give one there: with enforcement on, a request without
    identity headers is answered 403 and one with an incomplete set 400,
    and in both the result slot of the request stays empty; so it is when
    the caller's [onUnverified] handler is given the request.  The
    rejection of a stale timestamp, the next path of the same handler, fills
    the slot before it answers 403. *)
Lemma no_result_on_header_rejections :
  let out1 := verifyBotID (H := Examples.toy_crypto) default_options
                unreachable_registry 1700000000000 1700000000000 (mockReq []) in
  let out2 := verifyBotID (H := Examples.toy_crypto) default_options
                unreachable_registry 1700000000000 1700000000000
                (mockReq [("x-botid", "bot_mw_test")]) in
  let out3 := verifyBotID (H := Examples.toy_crypto) default_options
                unreachable_registry 1700000000000 1700000000000
                (example_request "1600000000") in
  let out4 := verifyBotID (H := Examples.toy_crypto)
                {| apiUrl := None; requireVerified := Some true;
                   onUnverified := true |}
                unreachable_registry 1700000000000 1700000000000 (mockReq []) in
  enforce default_options = true
  /\ BotID (mockReq []) = None
  /\ action out1 = Respond 403 (error_body "BotID verification required")
  /\ BotID (request out1) = None
  /\ action out2 = Respond 400 (error_body "Incomplete BotID headers")
  /\ BotID (request out2) = None
  /\ action out4 = CallOnUnverified
  /\ BotID (request out4) = None
  /\ action out3 = Respond 403 (error_body "Timestamp outside valid window")
  /\ BotID (request out3)
     = Some {| verified := false; bot := None; timestamp := Finite 1600000000 0;
               error := Some "Timestamp outside valid window";
               revoked := None |}.
Proof. vm_compute. repeat split; reflexivity. Qed.

(** A number too small for binary64 is zero to the handler: a 403 whose
    body has [1e-400] under [revoked] flags no revocation, and the lookup
    counts as failed. *)
Lemma tiny_flag_is_no_revocation :
  let body := JSON.stringify (JObj [("revoked", JNum (Finite 1 (-400)))]) in
  JSON.parse body = Ok (JObj [("revoked", JNum (Finite 1 (-400)))])
  /\ signals_revocation (Net.Response 403 body) = false
  /\ action (verifyBotID (H := Examples.toy_crypto) default_options
               (registry_answering 403 body) example_now example_now
               (example_request "1700000000"))
     = Respond 503 (error_body "BotID verification service unavailable").
Proof. vm_compute. repeat split; reflexivity. Qed.

Lemma example_request_presents timestampRaw :
  Str.truthy timestampRaw = true ->
  presents (example_request timestampRaw) "bot_mw_test" "aabb" timestampRaw.
Proof. intros Ht. repeat split. exact Ht. Qed.

Lemma revoked_identity_witness :
  let server :=
    registry_answering 403 (JSON.stringify (JObj [("revoked", JBool true)])) in
  let req := example_request "1700000000" in
  action (verifyBotID (H := Examples.toy_crypto) default_options server
            example_now example_now req)
  = Respond 403 (JObj [("error", JStr "Bot identity has been revoked");
                       ("revoked", JBool true)])
  /\ (exists r,
        BotID (request (verifyBotID (H := Examples.toy_crypto) passive_options
                          server example_now example_now req)) = Some r
        /\ verified r = false /\ revoked r = Some true
        /\ error r = Some "Bot identity has been revoked"
        /\ bot r = None /\ timestamp r = Num.of_Z 1700000000)
  /\ action (verifyBotID (H := Examples.toy_crypto) passive_options server
               example_now example_now req)
     = CallNext.
Proof.
  intros server req.
  pose proof (revoked_identity (C := Examples.toy_crypto) default_options server
                example_now example_now req "bot_mw_test" "aabb" "1700000000"
                (example_request_presents "1700000000" eq_refl) eq_refl eq_refl)
    as (_ & _ & _ & _ & _ & _ & Hstrict & _).
  pose proof (revoked_identity (C := Examples.toy_crypto) passive_options server
                example_now example_now req "bot_mw_test" "aabb" "1700000000"
                (example_request_presents "1700000000" eq_refl) eq_refl eq_refl)
    as ((r & Hslot & Hv & Hr & He & Hb & Ht) & _ & _ & _ & _ & _ & _ & _ & Hpassive).
  split; [exact (Hstrict eq_refl eq_refl) |].
  split; [| exact (Hpassive eq_refl)].
  exists r. repeat split; try assumption. exact (Ht 1700000000 eq_refl).
Defined.

Lemma non_numeric_timestamp_is_stale_witness :
  let out := verifyBotID (H := Examples.toy_crypto) default_options
               (registry_answering 200 "{}") example_now example_now
               (example_request "abc") in
  Number "abc" = NaN
  /\ lookups out = []
  /\ action out = Respond 403 (error_body "Timestamp outside valid window").
Proof.
  intros out.
  pose proof (non_numeric_timestamp_is_stale (C := Examples.toy_crypto)
                default_options (registry_answering 200 "{}")
                example_now example_now (example_request "abc")
                "bot_mw_test" "aabb" "abc"
                (example_request_presents "abc" eq_refl) eq_refl)
    as (Hlook & _ & _ & Hstrict & _).
  split; [reflexivity |].
  split; [exact Hlook | exact (Hstrict eq_refl eq_refl)].
Defined.

Lemma empty_header_is_absent_witness :
  let req := mockReq [("X-BotID", EmptyString); ("X-BotID-Signature", EmptyString);
                      ("X-BotID-Timestamp", EmptyString)] in
  let out := verifyBotID (H := Examples.toy_crypto) default_options
               unreachable_registry example_now example_now req in
  visible out
  = visible (verifyBotID (H := Examples.toy_crypto) default_options
               unreachable_registry example_now example_now
               (without_header req HEADER_SIGNATURE))
  /\ action out = Respond 403 (error_body "BotID verification required").
Proof.
  intros req out.
  pose proof (empty_header_is_absent (C := Examples.toy_crypto) default_options
                unreachable_registry example_now example_now req)
    as [Hsame Hall].
  split.
  - exact (Hsame HEADER_SIGNATURE (or_intror (or_introl eq_refl)) eq_refl).
  - exact (proj2 (proj2 (Hall eq_refl)) eq_refl eq_refl).
Defined.

(** C9 fails as stated: the timestamp value "0x6553F100" is no decimal
    number, yet [Number] reads it as 1700000000; at that second the request
    passes the window test, the registry is asked, and with a matching
    signature the request is verified and handed on. *)
Lemma hexadecimal_timestamp_passes_window :
  let req := mockReq [("X-BotID", "bot_mw_test");
                      ("X-BotID-Signature", example_signature);
                      ("X-BotID-Timestamp", "0x6553F100")] in
  let out := verifyBotID (H := Examples.toy_crypto) default_options
               (registry_answering 200
                  (JSON.stringify (JObj [("publicKey", JStr "2a2a2a2a")])))
               example_now example_now req in
  Num.decimal_number "0x6553F100" = false
  /\ identity req = (Some "bot_mw_test", Some example_signature, Some "0x6553F100")
  /\ Number "0x6553F100" = Finite 1700000000 0
  /\ lookups out = ["https://botid.net/api/keys/bot_mw_test"]
  /\ action out = CallNext
  /\ action out <> Respond 403 (error_body "Timestamp outside valid window")
  /\ (verified <$> BotID (request out)) = Some true.
Proof. vm_compute. repeat split; discriminate. Qed.

End MiddlewareFacts.

(** ** Numbers and their text *)

Module NumFacts.
Import Num.

Ltac by_bits c :=
  destruct c as [[] [] [] [] [] [] [] []]; try reflexivity; try discriminate.

Lemma digit_not_ws c : is_digit c = true -> is_ws c = false.
Proof. by_bits c. Qed.

Lemma digit_not_char c x :
  is_digit x = false -> is_digit c = true -> is_char x c = false.
Proof.
  intros Hx Hc. unfold is_char.
  destruct (Ascii.eqb_spec c x) as [-> |]; [congruence | reflexivity].
Qed.

Lemma digit_char_spec z :
  0 <= z < 10 ->
  is_digit (digit_char z) = true /\ digit_in 10 (digit_char z) = Some z.
Proof.
  intros Hz.
  assert (z = 0 \/ z = 1 \/ z = 2 \/ z = 3 \/ z = 4 \/ z = 5 \/ z = 6
          \/ z = 7 \/ z = 8 \/ z = 9) as Hcases by lia.
  repeat (destruct Hcases as [-> | Hcases]; [now split |]).
  subst z. now split.
Qed.

(** *** Reversal and trimming *)

Lemma app_cons (c : ascii) (s t : string) : String c s ++ t = String c (s ++ t).
Proof. reflexivity. Qed.

Lemma app_nil_l (s : string) : EmptyString ++ s = s.
Proof. reflexivity. Qed.

Lemma app_assoc (s t u : string) : (s ++ t) ++ u = s ++ (t ++ u).
Proof.
  induction s as [| c s IH]; [reflexivity |].
  rewrite !app_cons. now f_equal.
Qed.

Lemma app_nil_r (s : string) : s ++ EmptyString = s.
Proof.
  induction s as [| c s IH]; [reflexivity |].
  rewrite app_cons. now f_equal.
Qed.

Lemma rev_onto_app s acc : Str.rev_onto s acc = Str.rev s ++ acc.
Proof.
  unfold Str.rev. revert acc.
  induction s as [| c s IH]; intros acc; [reflexivity |]. cbn.
  rewrite (IH (String c acc)), (IH (String c EmptyString)).
  now rewrite app_assoc, app_cons, app_nil_l.
Qed.

Lemma rev_cons c s : Str.rev (String c s) = Str.rev s ++ String c EmptyString.
Proof. unfold Str.rev at 1. cbn [Str.rev_onto]. apply rev_onto_app. Qed.

Lemma rev_app s t : Str.rev (s ++ t) = Str.rev t ++ Str.rev s.
Proof.
  induction s as [| c s IH].
  - now rewrite app_nil_l, app_nil_r.
  - now rewrite app_cons, !rev_cons, IH, app_assoc.
Qed.

Lemma rev_involutive s : Str.rev (Str.rev s) = s.
Proof.
  induction s as [| c s IH]; [reflexivity |].
  now rewrite rev_cons, rev_app, IH.
Qed.

Lemma digits_only_app s t :
  digits_only (s ++ t) = digits_only s && digits_only t.
Proof.
  induction s as [| c s IH]; [reflexivity |]. rewrite app_cons. cbn.
  now rewrite IH, andb_assoc.
Qed.

Lemma digits_only_rev s : digits_only (Str.rev s) = digits_only s.
Proof.
  induction s as [| c s IH]; [reflexivity |].
  rewrite rev_cons, digits_only_app, IH. cbn.
  rewrite andb_true_r. apply andb_comm.
Qed.

(** Stripping, at both ends, characters among which there is no digit
    leaves a numeral as it is. *)
Lemma drop_while_digits (p : ascii -> bool) s :
  (forall c, is_digit c = true -> p c = false) ->
  digits_only s = true -> Str.drop_while p s = s.
Proof.
  intros Hp. destruct s as [| c s]; [reflexivity |]. cbn.
  intros [Hc _]%andb_true_iff. now rewrite (Hp c Hc).
Qed.

Lemma strip_digits (p : ascii -> bool) s :
  (forall c, is_digit c = true -> p c = false) ->
  digits_only s = true ->
  Str.drop_while_end p (Str.drop_while p s) = s.
Proof.
  intros Hp Hs. unfold Str.drop_while_end.
  rewrite (drop_while_digits p s Hp Hs).
  rewrite (drop_while_digits p) by (exact Hp || now rewrite digits_only_rev).
  apply rev_involutive.
Qed.

Lemma digit_not_wide c : is_digit c = true ->
  (forall b, is_ws2 c b = false /\ is_ws2 b c = false)
  /\ (forall a b, is_ws3 c a b = false /\ is_ws3 a b c = false).
Proof.
  intros Hc.
  assert (48 <= N_of_ascii c <= 57)%N as Hrange.
  { unfold is_digit in Hc. cbv zeta in Hc. apply andb_true_iff in Hc as [Hlo Hhi].
    apply N.leb_le in Hlo, Hhi. lia. }
  assert (forall n, (57 < n)%N -> (N_of_ascii c =? n)%N = false) as Hne.
  { intros n Hn. apply N.eqb_neq. lia. }
  assert ((128 <=? N_of_ascii c)%N = false) as Hlow by (apply N.leb_gt; lia).
  split.
  - intros b. unfold is_ws2. rewrite !Hne by lia.
    split; [reflexivity | apply andb_false_r].
  - intros a b. unfold is_ws3. cbv zeta. rewrite !Hne by lia. rewrite Hlow.
    split; [reflexivity |].
    rewrite !andb_false_r. reflexivity.
Qed.

(** No white space character starts or ends with a digit, so a numeral is
    trimmed to itself. *)
Lemma drop_ws_digits backwards s :
  digits_only s = true -> drop_ws backwards s = s.
Proof.
  destruct s as [| c s]; [reflexivity |]. cbn [digits_only].
  intros [Hc _]%andb_true_iff. cbn [drop_ws].
  rewrite (digit_not_ws c Hc).
  destruct (digit_not_wide c Hc) as [H2 H3].
  destruct s as [| b s]; [reflexivity |].
  destruct (H2 b) as [Hf Hb].
  destruct s as [| a s].
  - destruct backwards; [rewrite Hb | rewrite Hf]; reflexivity.
  - destruct (H3 b a) as [Hf3 _]. destruct (H3 a b) as [_ Hb3].
    destruct backwards; [rewrite Hb, Hb3 | rewrite Hf, Hf3]; reflexivity.
Qed.

Lemma trim_digits s : digits_only s = true -> trim s = s.
Proof.
  intros Hs. unfold trim. rewrite (drop_ws_digits false s Hs).
  rewrite drop_ws_digits by now rewrite digits_only_rev.
  apply rev_involutive.
Qed.

(** [Number] drops the white space of Unicode too: a no-break space
    (U+00A0) before the digits and a line separator (U+2028) after them do
    not matter; U+200B, which is no white space, makes the text no number. *)
Lemma Number_trims_wide_space :
  Number (String "194" (String "160" "1700000000")) = Finite 1700000000 0
  /\ Number ("12" ++ String "226" (String "128" (String "168" EmptyString)))
     = Finite 12 0
  /\ Number (String "226" (String "128" (String "139" "12"))) = NaN.
Proof. repeat split. Qed.

(** *** A numeral reads back as its number *)

Lemma dec_onto_digits fuel z acc :
  0 <= z -> digits_only acc = true -> digits_only (dec_onto fuel z acc) = true.
Proof.
  revert z acc. induction fuel as [| fuel IH]; intros z acc Hz Hacc; [exact Hacc |].
  cbn. destruct (Z.ltb_spec z 10).
  - cbn. rewrite Hacc, andb_true_r. now apply digit_char_spec.
  - apply IH; [apply Z.div_pos; lia |]. cbn. rewrite Hacc, andb_true_r.
    apply digit_char_spec. apply Z.mod_pos_bound. lia.
Qed.

Lemma take_digits_dec_onto fuel z acc :
  0 <= z < 10 ^ Z.of_nat fuel ->
  exists k, 0 <= k /\ (fuel <> O -> 1 <= k) /\
    forall a n,
      take_digits (dec_onto fuel z acc) a n
      = take_digits acc (a * 10 ^ k + z) (n + k).
Proof.
  revert z acc. induction fuel as [| fuel IH]; intros z acc Hz.
  - exists 0. cbn in Hz. assert (z = 0) as -> by lia.
    split; [lia |]. split; [congruence |]. intros a n. cbn.
    f_equal; lia.
  - cbn [dec_onto]. destruct (Z.ltb_spec z 10) as [Hlt | Hge].
    + exists 1. split; [lia |]. split; [lia |]. intros a n. cbn [take_digits].
      destruct (digit_char_spec z) as [_ ->]; [lia |].
      f_equal; lia.
    + rewrite Nat2Z.inj_succ, Z.pow_succ_r in Hz by lia.
      destruct (IH (z / 10) (String (digit_char (z mod 10)) acc))
        as (k & Hk & _ & Hrun).
      { split; [apply Z.div_pos; lia |].
        apply Z.div_lt_upper_bound; lia. }
      exists (k + 1). split; [lia |]. split; [lia |]. intros a n.
      rewrite Hrun. cbn [take_digits].
      destruct (digit_char_spec (z mod 10)) as [_ ->];
        [apply Z.mod_pos_bound; lia |].
      rewrite Z.pow_add_r, Z.pow_1_r by lia.
      pose proof (Z.div_mod z 10 ltac:(lia)) as Hdm.
      replace ((a * 10 ^ k + z / 10) * 10 + z mod 10)
        with (a * (10 ^ k * 10) + z) by (rewrite Hdm at 1; ring).
      now rewrite Z.add_assoc.
Qed.

Lemma dec_fuel z : 0 <= z -> z < 10 ^ Z.of_nat (S (Z.to_nat (Z.log2 z))).
Proof.
  intros Hz. destruct (Z.eq_dec z 0) as [-> | Hne]; [reflexivity |].
  pose proof (Z.log2_nonneg z) as Hlog.
  rewrite Nat2Z.inj_succ, Z2Nat.id by exact Hlog.
  eapply Z.lt_le_trans; [apply Z.log2_spec; lia |].
  apply Z.pow_le_mono_l. lia.
Qed.

Lemma dec_digits z : 0 <= z -> digits_only (dec z) = true.
Proof. intros Hz. now apply dec_onto_digits. Qed.

Lemma take_digits_dec z :
  0 <= z -> exists k, 1 <= k /\ take_digits (dec z) 0 0 = (z, k, EmptyString).
Proof.
  intros Hz. unfold dec.
  destruct (take_digits_dec_onto (S (Z.to_nat (Z.log2 z))) z EmptyString)
    as (k & _ & Hk & Hrun).
  { split; [exact Hz | now apply dec_fuel]. }
  exists k. split; [now apply Hk |]. rewrite Hrun. cbn. f_equal. 
Qed.

Lemma dec_not_empty z : 0 <= z -> dec z <> EmptyString.
Proof.
  intros Hz He. destruct (take_digits_dec z Hz) as (k & Hk & Hrun).
  rewrite He in Hrun. cbn in Hrun. injection Hrun as _ Hk0. lia.
Qed.

Lemma Number_digits s :
  digits_only s = true -> s <> EmptyString -> Number s = signed_decimal s.
Proof.
  intros Hs Hne. unfold Number. rewrite (trim_digits s Hs).
  destruct s as [| c0 [| c1 r]]; [congruence | reflexivity |].
  cbn in Hs. apply andb_true_iff in Hs as [_ [H1 _]%andb_true_iff].
  rewrite !(digit_not_char c1) by (exact H1 || reflexivity).
  now rewrite !andb_false_r.
Qed.

(** [Number] undoes the decimal numeral of a natural number. *)
Lemma Number_dec z : 0 <= z -> Number (dec z) = Finite z 0.
Proof.
  intros Hz.
  rewrite Number_digits by (now apply dec_digits || now apply dec_not_empty).
  destruct (take_digits_dec z Hz) as (k & Hk & Hrun).
  pose proof (dec_digits z Hz) as Hd. pose proof (dec_not_empty z Hz) as Hne.
  unfold signed_decimal, unsigned_decimal.
  destruct (dec z) as [| c r] eqn:Hdec; [congruence |].
  cbn in Hd. apply andb_true_iff in Hd as [Hc _].
  rewrite !(digit_not_char c) by (exact Hc || reflexivity).
  assert (String.eqb (String c r) "Infinity" = false) as ->.
  { cbn. change (Ascii.eqb c "I") with (is_char "I" c).
    now rewrite (digit_not_char c) by (exact Hc || reflexivity). }
  rewrite Hrun. cbn.
  assert ((0 <? k + 0) = true) as -> by (apply Z.ltb_lt; lia).
  reflexivity.
Qed.

(** A non-negative integer below 10^21 is printed as its numeral. *)
Lemma toString_of_Z z : 0 <= z < 10 ^ 21 -> toString (of_Z z) = dec z.
Proof.
  intros [Hz Hlt]. unfold toString, of_Z.
  destruct (Z.eqb_spec z 0) as [-> | Hne]; [reflexivity |].
  assert ((z <? 0) = false) as -> by (apply Z.ltb_ge; lia).
  unfold toString_pos. rewrite Z.pow_0_r, Z.mul_1_r.
  assert ((z <? 10 ^ 21) = true) as -> by now apply Z.ltb_lt.
  reflexivity.
Qed.

(** The text of a non-negative integer, read by [Number] and printed again,
    is the same text. *)
Lemma toString_Number_toString z :
  0 <= z < 10 ^ 21 ->
  toString (Number (toString (of_Z z))) = toString (of_Z z).
Proof.
  intros Hz. rewrite (toString_of_Z z Hz), Number_dec by lia.
  now rewrite <- (toString_of_Z z Hz).
Qed.

End NumFacts.

(** ** Signer and verifier *)

Module SignerVerifier.
Import Verify.

Lemma upper_char_idempotent c : Str.upper_char (Str.upper_char c) = Str.upper_char c.
Proof. NumFacts.by_bits c. Qed.

Lemma toUpperCase_idempotent s :
  Str.toUpperCase (Str.toUpperCase s) = Str.toUpperCase s.
Proof.
  induction s as [| c s IH]; [reflexivity |]. cbn.
  f_equal; [apply upper_char_idempotent | exact IH].
Qed.

(** Upper-casing what [fetch] puts on the wire gives the upper-cased method
    of the caller. *)
Lemma toUpperCase_wire_method m :
  Str.toUpperCase (Client.wire_method m) = Str.toUpperCase (default "GET" m).
Proof.
  unfold Client.wire_method. destruct (existsb _ _); [| reflexivity].
  apply toUpperCase_idempotent.
Qed.

Lemma split_head_no_sep sep s :
  Str.contains sep s = false -> Str.split_head sep s = s.
Proof.
  induction s as [| c s IH]; [reflexivity |]. cbn.
  destruct (Ascii.eqb c sep); [discriminate |]. cbn.
  intros Hs. f_equal. now apply IH.
Qed.

Lemma split_head_app sep s t :
  Str.contains sep s = false ->
  Str.split_head sep (s ++ String sep t) = s.
Proof.
  induction s as [| c s IH]; intros Hs.
  - rewrite NumFacts.app_nil_l. cbn. now rewrite Ascii.eqb_refl.
  - rewrite NumFacts.app_cons. cbn in *.
    destruct (Ascii.eqb c sep); [discriminate |]. cbn in Hs.
    f_equal. now apply IH.
Qed.

(** Cutting the request target at its first [?] gives the path back. *)
Lemma split_head_request_target (u : Client.URL) :
  Str.contains "?" (Client.pathname u) = false ->
  Str.split_head "?" (Client.request_target u) = Client.pathname u.
Proof.
  intros Hp. unfold Client.request_target. destruct (Client.query u) as [q |].
  - now apply split_head_app.
  - now apply split_head_no_sep.
Qed.

(** The three places where the two constructions differ in form. *)
Lemma rebuilt_timestamp (now_ms : Z) :
  0 <= now_ms <= 8640000000000000 ->
  Num.toString (Number (Num.toString (Num.of_Z (seconds now_ms))))
  = Num.toString (Num.of_Z (seconds now_ms)).
Proof.
  intros Hclock. apply NumFacts.toString_Number_toString.
  unfold seconds. split.
  - apply Z.div_pos; lia.
  - apply Z.div_lt_upper_bound; lia.
Qed.

Lemma rebuilt_method (req : Middleware.ExpressRequest) (m : option string) :
  Middleware.method req = Some (Client.wire_method m) ->
  Middleware.reqMethod req = Str.toUpperCase (default "GET" m).
Proof.
  intros Hm. unfold Middleware.reqMethod. rewrite Hm. cbn [from_option].
  apply toUpperCase_wire_method.
Qed.

Lemma rebuilt_path (req : Middleware.ExpressRequest) (u : Client.URL) :
  Str.contains "?" (Client.pathname u) = false ->
  Middleware.originalUrl req = Some (Client.request_target u) ->
  Middleware.reqPath req = Client.pathname u.
Proof.
  intros Hp Ht. unfold Middleware.reqPath. rewrite Ht. cbn [from_option].
  now apply split_head_request_target.
Qed.

Section WithPlatform.
Context `{C : NodeCrypto}.
Variable new_URL : string -> Result Client.URL.

(** C3.  Signer and verifier build the same message.  A client signs a
    request for [url] with method [init.method] at clock [now_ms]; the
    middleware holds that request: its method as put on the wire, its
    target (path and query of [url]) as [originalUrl], the bot id, and the
    timestamp header [String(timestamp)], which it reads with [Number].  The
    string the middleware rebuilds is the string the client signed,
    [timestamp.botId.METHOD.path]. *)
Theorem signer_and_verifier_build_same_message
    (self : Client.BotIDClient) (now_ms : Z) (init : Client.RequestInit)
    (url : string) (u : Client.URL) (req : Middleware.ExpressRequest) :
  Client.URL_standard new_URL ->
  new_URL url = Ok u ->
  0 <= now_ms <= 8640000000000000 ->
  Middleware.method req = Some (Client.wire_method (Client.init_method init)) ->
  Middleware.originalUrl req = Some (Client.request_target u) ->
  let timestampRaw := Num.toString (Num.of_Z (seconds now_ms)) in
  Middleware.message (Number timestampRaw) (Client.botId self) req
  = Client.message self now_ms init u.
Proof.
  intros Hstd Hurl Hclock Hmethod Htarget. cbn zeta.
  unfold Middleware.message, Client.message.
  rewrite (rebuilt_timestamp now_ms Hclock).
  rewrite (rebuilt_method req _ Hmethod).
  rewrite (rebuilt_path req u (Hstd url u Hurl) Htarget).
  reflexivity.
Qed.

(** What [Headers.set] stores. *)
Lemma set_stores name value h h' :
  Client.Headers.set name value h = Ok h' ->
  h' = <[Str.toLowerCase name := Client.Headers.normalize value]> h.
Proof.
  unfold Client.Headers.set, Client.Headers.checked.
  destruct (_ && _); cbn; [| discriminate]. now intros [= <-].
Qed.

(** The whole way.  When [client.fetch(url, init)] gets as far as the
    platform's [fetch], the request the server then holds carries the bot id
    and the timestamp in its headers, and the message the middleware builds
    from those headers, the method and the target is the message whose
    signature the signature header carries.  The bot id is taken to be free
    of surrounding white space, which [Headers] would strip. *)
Lemma signed_request_is_rebuilt
    (self : Client.BotIDClient) (now_ms : Z) (init : Client.RequestInit)
    (url : string) (out : Client.Outbound) :
  Client.URL_standard new_URL ->
  0 <= now_ms <= 8640000000000000 ->
  Client.Headers.normalize (Client.botId self) = Client.botId self ->
  Client.fetch new_URL self now_ms url init = Ok out ->
  exists u signature timestampRaw,
    new_URL url = Ok u
    /\ signMessage (Client.message self now_ms init u) (Client.privateKey self)
       = Ok signature
    /\ let req := Client.received out u in
       Middleware.getHeader req HEADER_BOT_ID = Some (Client.botId self)
       /\ Middleware.getHeader req HEADER_SIGNATURE
          = Some (Client.Headers.normalize signature)
       /\ Middleware.getHeader req HEADER_TIMESTAMP = Some timestampRaw
       /\ Middleware.message (Number timestampRaw) (Client.botId self) req
          = Client.message self now_ms init u.
Proof.
  intros Hstd Hclock Hbot Hrun. unfold Client.fetch, Exn.bind in Hrun.
  destruct (new_URL url) as [u |] eqn:Hurl; [| discriminate].
  destruct (signMessage _ _) as [signature |] eqn:Hsig; [| discriminate].
  destruct (Client.Headers.create _ _) as [h0 |]; [| discriminate].
  destruct (Client.Headers.set HEADER_BOT_ID _ h0) as [h1 |] eqn:H1; [| discriminate].
  destruct (Client.Headers.set HEADER_SIGNATURE _ h1) as [h2 |] eqn:H2; [| discriminate].
  destruct (Client.Headers.set HEADER_TIMESTAMP _ h2) as [h3 |] eqn:H3; [| discriminate].
  injection Hrun as <-.
  apply set_stores in H1, H2, H3. subst h1 h2 h3.
  assert (Hts : Client.Headers.normalize (Num.toString (Num.of_Z (seconds now_ms)))
                = Num.toString (Num.of_Z (seconds now_ms))).
  { assert (0 <= seconds now_ms < 10 ^ 21) as Hs.
    { unfold seconds. split;
        [apply Z.div_pos; lia | apply Z.div_lt_upper_bound; lia]. }
    rewrite (NumFacts.toString_of_Z _ Hs).
    apply NumFacts.strip_digits; [| apply NumFacts.dec_digits; lia].
    intros c. NumFacts.by_bits c. }
  exists u, signature, (Num.toString (Num.of_Z (seconds now_ms))).
  split; [reflexivity |]. split; [exact Hsig |]. cbn zeta.
  unfold Middleware.getHeader, Client.received; cbn [Middleware.headers Client.out_headers].
  rewrite !lookup_fmap.
  rewrite lookup_insert_ne, lookup_insert_ne, lookup_insert_eq by discriminate.
  rewrite lookup_insert_ne, lookup_insert_eq by discriminate.
  rewrite lookup_insert_eq. cbn [fmap option_fmap option_map].
  rewrite Hbot, Hts. repeat split.
  unfold Middleware.message, Client.message.
  rewrite (rebuilt_timestamp now_ms Hclock).
  rewrite (rebuilt_method _ (Client.init_method init)) by reflexivity.
  rewrite (rebuilt_path _ u) by (exact (Hstd url u Hurl) || reflexivity).
  reflexivity.
Qed.

End WithPlatform.

Lemma contains_split_head sep s : Str.contains sep (Str.split_head sep s) = false.
Proof.
  induction s as [| c s IH]; [reflexivity |]. cbn.
  destruct (Ascii.eqb c sep) eqn:E; [reflexivity |]. cbn. now rewrite E.
Qed.

(** The URL reader of the examples keeps [?] out of the path. *)
Lemma simple_URL_standard : Client.URL_standard Examples.simple_URL.
Proof.
  intros url u. unfold Examples.simple_URL.
  destruct (Str.contains ":" _); [| discriminate].
  intros [= <-]. cbn.
  destruct (Str.truthy _); [apply contains_split_head | reflexivity].
Qed.

Lemma signer_and_verifier_build_same_message_witness :
  let self := {| Client.botId := "bot_abc123xyz789";
                 Client.privateKey := "2a2a2a2a";
                 Client.apiUrl := "https://botid.net" |} in
  let init := {| Client.init_method := Some "patch"; Client.init_headers := [] |} in
  let req := {| Middleware.headers := ∅;
                Middleware.method := Some "patch";
                Middleware.url := Some "/data?page=2";
                Middleware.originalUrl := Some "/api/data?page=2";
                Middleware.BotID := None |} in
  Middleware.message (Number "1700000000") "bot_abc123xyz789" req
  = "1700000000.bot_abc123xyz789.PATCH./api/data".
Proof.
  intros self init req.
  exact (signer_and_verifier_build_same_message Examples.simple_URL
           self 1700000000123 init "https://example.com/api/data?page=2#top"
           {| Client.pathname := "/api/data"; Client.query := Some "page=2";
              Client.fragment := Some "top" |}
           req simple_URL_standard eq_refl
           ltac:(split; discriminate) eq_refl eq_refl).
Defined.

End SignerVerifier.

(** ** The credential store *)

Module StoreFacts.
Import Store.

Lemma unusable_dir fs p :
  unusable (file_at fs p) -> exists d, botid_dir fs = Some d.
Proof.
  unfold file_at. destruct (botid_dir fs) as [d |]; [now exists d |].
  intros [H | (text & H & _)]; discriminate.
Qed.

Lemma ensureDir_present fs d : botid_dir fs = Some d -> ensureDir fs = (Ok tt, fs).
Proof. unfold ensureDir, bind, existsSync_dir. now intros ->. Qed.

(** Reading an unusable file as JSON, with the fall-back [v] of the [catch]
    block, gives [v] and leaves the files alone. *)
Lemma read_unusable p v fs :
  unusable (file_at fs p) ->
  try_catch (do raw <- readFileSync p in lift (JSON.parse raw)) (ret v) fs
  = (Ok v, fs).
Proof.
  unfold try_catch, bind, readFileSync, lift, ret.
  intros [-> | (text & -> & Hbad)]; [reflexivity |].
  now destruct (JSON.parse text).
Qed.

Lemma readStore_unusable fs :
  unusable (file_at fs CREDENTIALS_FILE) -> readStore fs = (Ok empty_store, fs).
Proof.
  intros Hbad. destruct (unusable_dir fs _ Hbad) as [d Hd].
  unfold readStore, bind at 1. rewrite (ensureDir_present fs d Hd).
  unfold bind, existsSync.
  pose proof (read_unusable CREDENTIALS_FILE empty_store fs Hbad) as Hread.
  destruct Hbad as [E | (text & E & _)]; rewrite E in *; exact Hread.
Qed.

(** C8, as the code has it.  When the credentials file cannot be read or
    does not hold JSON, [getCredentials] answers absent for every name that
    objects do not inherit from [Object.prototype], and [listAgents] the
    empty list; when the session file cannot be read or does not hold JSON,
    [getAuthSession] answers absent.  None of them raises, none changes the
    files. *)
Theorem unusable_files_read_as_empty (fs : FS) :
  (unusable (file_at fs CREDENTIALS_FILE) ->
   (forall name,
       Outcomes.object_prototype_names (JObj []) name = false ->
       getCredentials name fs = (Ok JUndefined, fs))
   /\ listAgents fs = (Ok [], fs))
  /\ (unusable (file_at fs AUTH_FILE) ->
      getAuthSession fs = (Ok JUndefined, fs)).
Proof.
  split.
  - intros Hbad. split; [intros name _ |].
    + unfold getCredentials, bind at 1. now rewrite (readStore_unusable fs Hbad).
    + unfold listAgents, bind at 1. now rewrite (readStore_unusable fs Hbad).
  - intros Hbad. destruct (unusable_dir fs _ Hbad) as [d Hd].
    unfold getAuthSession, bind at 1. rewrite (ensureDir_present fs d Hd).
    unfold bind, existsSync.
    pose proof (read_unusable AUTH_FILE JUndefined fs Hbad) as Hread.
    destruct Hbad as [E | (text & E & _)]; rewrite E in *; exact Hread.
Qed.

Lemma unusable_files_read_as_empty_witness :
  let fs := botid_with (Content "corrupted{{{json") (Content "not-json{{{") in
  getCredentials "anything" fs = (Ok JUndefined, fs)
  /\ listAgents fs = (Ok [], fs)
  /\ getAuthSession fs = (Ok JUndefined, fs).
Proof.
  intros fs.
  assert (Hc : unusable (file_at fs CREDENTIALS_FILE)).
  { right. exists "corrupted{{{json". split; [reflexivity | exact I]. }
  assert (Ha : unusable (file_at fs AUTH_FILE)).
  { right. exists "not-json{{{". split; [reflexivity | exact I]. }
  destruct (unusable_files_read_as_empty fs) as [Hcred Hauth].
  split; [exact (proj1 (Hcred Hc) "anything" eq_refl) |].
  split; [exact (proj2 (Hcred Hc)) | exact (Hauth Ha)].
Defined.

(** C8 fails as stated: a credentials file damaged into JSON of another
    shape ([null], or an object without [agents]) makes [getCredentials] and
    [listAgents] raise a TypeError; a session file damaged into [{}] makes
    [getAuthSession] answer that object, not absent. *)
Lemma misshapen_store_raises :
  fst (getCredentials "anything" (botid_with (Content "null") Missing))
  = Throw (Exn.TypeError "Cannot read properties of undefined or null")
  /\ fst (listAgents (botid_with (Content "null") Missing))
     = Throw (Exn.TypeError "Cannot read properties of undefined or null")
  /\ fst (getCredentials "anything" (botid_with (Content "{}") Missing))
     = Throw (Exn.TypeError "Cannot read properties of undefined or null")
  /\ fst (listAgents (botid_with (Content "{}") Missing))
     = Throw (Exn.TypeError "Cannot convert undefined or null to object")
  /\ fst (getAuthSession (botid_with Missing (Content "{}"))) = Ok (JObj []).
Proof. vm_compute. repeat split; reflexivity. Qed.

Lemma saveAuthSession_writable session fs :
  writable AUTH_FILE fs ->
  exists fs',
    saveAuthSession session fs = (Ok tt, fs')
    /\ file_at fs' AUTH_FILE = Content (JSON.stringify session)
    /\ file_at fs' CREDENTIALS_FILE = file_at fs CREDENTIALS_FILE.
Proof.
  intros [Hrw Hfile]. unfold saveAuthSession, ensureDir, bind, existsSync_dir,
    mkdirSync, writeFileSync, ret, file_at in *.
  destruct fs as [[[cred auth] |] ro]; cbn in *; subst ro; cbn.
  - destruct auth; [| congruence |]; eexists; repeat split.
  - eexists; repeat split.
Qed.

End StoreFacts.

(** ** The device login *)

Module AuthFacts.
Import Verify Auth Examples.

Lemma time_taken_nonneg code rounds :
  0 <= interval code -> Forall keeps_waiting rounds -> 0 <= time_taken code rounds.
Proof.
  intros Hi. induction 1 as [| r rs [Hr _] _ IH]; [cbn; lia |].
  unfold time_taken in *. cbn [fold_right]. lia.
Qed.

Lemma poll_loop_complete apiUrl code start earlier round later token w :
  0 <= interval code ->
  Forall keeps_waiting earlier ->
  completes_with token round ->
  clock w - start + time_taken code earlier < expiresIn code * 1000 ->
  Store.writable Store.AUTH_FILE (files w) ->
  exists w',
    poll_loop apiUrl code start (earlier ++ round :: later) w
    = (Resolved token, w')
    /\ clock w' = clock w + time_taken code earlier
                  + interval code * 1000 + fst round
    /\ Store.file_at (files w') Store.AUTH_FILE
       = Store.Content
           (JSON.stringify
              (Store.AuthSession token apiUrl (Date.toISOString (clock w')))).
Proof.
  intros Hi Hearlier (p & Hpoll & Hst & Htok & Hne).
  revert w. induction Hearlier as [| r rs Hr Hrs IH]; intros w Htime Hw.
  - cbn [app time_taken fold_right] in *. destruct round as [took answer].
    cbn [poll_loop]. cbn [fst snd] in *.
    assert ((clock w - start <? expiresIn code * 1000) = true) as ->
        by (apply Z.ltb_lt; lia).
    rewrite Hpoll, Hst, Htok. destruct token as [| c t]; [congruence |].
    cbn [files elapse emit clock].
    destruct (StoreFacts.saveAuthSession_writable
                (Store.AuthSession (String c t) apiUrl
                   (Date.toISOString
                      (clock w + interval code * 1000 + took))) (files w) Hw)
      as (fs' & -> & Hfile & _).
    eexists. split; [reflexivity |]. cbn [clock files]. split; [lia |].
    exact Hfile.
  - pose proof (time_taken_nonneg code rs Hi Hrs) as Hnn.
    destruct r as [took answer]. destruct Hr as (Htook & q & Hq & Hstatus).
    cbn [app time_taken fold_right fst snd] in *. fold (time_taken code rs) in *.
    cbn [poll_loop].
    assert ((clock w - start <? expiresIn code * 1000) = true) as ->
        by (apply Z.ltb_lt; lia).
    rewrite Hq.
    assert (Hnext : forall w1,
               clock w1 = clock w + interval code * 1000 + took ->
               files w1 = files w ->
               exists w',
                 poll_loop apiUrl code start (rs ++ round :: later) w1
                 = (Resolved token, w')
                 /\ clock w' = clock w + (interval code * 1000 + took
                                          + time_taken code rs)
                               + interval code * 1000 + fst round
                 /\ Store.file_at (files w') Store.AUTH_FILE
                    = Store.Content
                        (JSON.stringify
                           (Store.AuthSession token apiUrl
                              (Date.toISOString (clock w'))))).
    { intros w1 Hc1 Hf1. destruct (IH w1) as (w' & Hrun & Hclock & Hfile).
      - lia.
      - now rewrite Hf1.
      - exists w'. split; [exact Hrun |]. split; [lia | exact Hfile]. }
    destruct Hstatus as [Hs | [Hs [Ht | Ht]]]; rewrite Hs; try rewrite Ht;
      cbv beta iota; apply Hnext; cbn [clock files elapse emit]; try lia;
      reflexivity.
Qed.

Lemma open_browser_keeps env code onOpen w :
  clock (open_browser env code onOpen w) = clock w
  /\ files (open_browser env code onOpen w) = files w.
Proof.
  unfold open_browser.
  destruct (child_process_available env), (platform env), onOpen; now split.
Qed.

(** C7.  In a run of [deviceLogin] whose rounds so far kept waiting within
    the time allowed, a poll answered [complete] with a token makes the run
    end well: the token is returned, and the session file then holds the
    JSON text of the object with exactly the three properties [accessToken]
    (the token), [apiUrl] (the registry URL in use, without trailing
    slashes) and [authenticatedAt] (the time of that moment in ISO form). *)
Theorem complete_poll_persists_session_and_returns_token
    (apiUrl : option string) (onOpen : bool) (env : Environment) (w : World)
    (code : DeviceCodeResponse)
    (earlier later : list (Z * Answer PollResponse))
    (round : Z * Answer PollResponse) (token : string) :
  requestDeviceCode (code_answer env) = Ok code ->
  poll_answers env = (earlier ++ round :: later)%list ->
  0 <= interval code ->
  Forall keeps_waiting earlier ->
  time_taken code earlier < expiresIn code * 1000 ->
  completes_with token round ->
  Store.writable Store.AUTH_FILE (files w) ->
  exists w',
    deviceLogin apiUrl onOpen env w = (Resolved token, w')
    /\ Store.file_at (files w') Store.AUTH_FILE
       = Store.Content
           (JSON.stringify
              (JObj [("accessToken", JStr token);
                     ("apiUrl", JStr (normalizeUrl apiUrl));
                     ("authenticatedAt",
                      JStr (Date.toISOString (clock w')))])).
Proof.
  intros Hcode Hpolls Hi Hearlier Htime Hhit Hw.
  unfold deviceLogin. rewrite Hcode, Hpolls.
  set (w0 := open_browser env code onOpen _).
  destruct (open_browser_keeps env code onOpen
              (emit (OnPrompt (verificationUrl code) (userCode code)) w))
    as [Hclock Hfiles].
  fold w0 in Hclock, Hfiles.
  destruct (poll_loop_complete (normalizeUrl apiUrl) code (clock w0)
              earlier round later token w0 Hi Hearlier Hhit)
    as (w' & Hrun & _ & Hfile).
  - lia.
  - now rewrite Hfiles.
  - exists w'. now split.
Qed.

Lemma complete_poll_persists_session_and_returns_token_witness :
  exists w',
    deviceLogin (Some "https://botid.net/") true example_environment fresh_world
    = (Resolved "token_xyz", w')
    /\ Store.file_at (files w') Store.AUTH_FILE
       = Store.Content
           (JSON.stringify
              (JObj [("accessToken", JStr "token_xyz");
                     ("apiUrl", JStr "https://botid.net");
                     ("authenticatedAt",
                      JStr (Date.toISOString (clock w')))])).
Proof.
  refine (complete_poll_persists_session_and_returns_token
            (Some "https://botid.net/") true example_environment fresh_world
            example_code
            [(120, Answered 202
                     (Ok {| status := pending; accessToken := None;
                            error_message := None |}))]
            []
            (80, Answered 200
                   (Ok {| status := complete; accessToken := Some "token_xyz";
                          error_message := None |}))
            "token_xyz" eq_refl eq_refl _ _ _ _ _).
  - cbn. lia.
  - constructor; [| constructor]. split; [cbn; lia |].
    eexists. split; [reflexivity |]. now left.
  - cbn. lia.
  - eexists. split; [reflexivity |]. split; [reflexivity |].
    split; [reflexivity | discriminate].
  - split; [reflexivity | discriminate].
Defined.

End AuthFacts.

(** ** More on the verification middleware *)

Module MiddlewareMore.
Import Verify Middleware Outcomes Examples.

#[local] Arguments Number : simpl never.
#[local] Arguments Num.toString : simpl never.
#[local] Arguments JSON.parse : simpl never.
#[local] Arguments isTimestampValid : simpl never.
#[local] Arguments normalizeUrl : simpl never.

Section WithCrypto.
Context `{C : NodeCrypto}.

(** The handler on a request that presents its three headers: the two
    header tests are passed. *)
Lemma verifyBotID_presented options server now_ms later_ms req botId signature timestampRaw :
  presents req botId signature timestampRaw ->
  verifyBotID options server now_ms later_ms req
  = let timestamp := Number timestampRaw in
    if negb (isTimestampValid now_ms timestamp) then
      {| request := set_BotID req (stale_result timestamp);
         action :=
           if default true (requireVerified options)
           then reject options 403 (error_body "Timestamp outside valid window")
           else CallNext;
         lookups := [] |}
    else
      match lookup_and_verify options server botId signature timestamp req with
      | Ok (req', act) =>
          {| request := req'; action := act;
             lookups := [keys_url options botId] |}
      | Throw _ =>
          {| request := set_BotID req (unavailable_result later_ms);
             action :=
               if default true (requireVerified options)
               then reject options 503
                      (error_body "BotID verification service unavailable")
               else CallNext;
             lookups := [keys_url options botId] |}
      end.
Proof.
  intros Hp.
  destruct (MiddlewareFacts.presents_not_falsy _ _ _ _ Hp)
    as (Hb & Hs & Ht & Fb & Fs & Ft).
  unfold verifyBotID. rewrite Hb, Hs, Ht, Fb, Fs, Ft. reflexivity.
Qed.

(** What the [try] block does, by the registry's answer. *)
Lemma lookup_and_verify_served options server botId signature timestamp req publicKey :
  key_served (server (keys_url options botId)) publicKey ->
  lookup_and_verify options server botId signature timestamp req
  = let* verified :=
      verifySignature_of (message timestamp botId req) signature publicKey in
    let req' :=
      set_BotID req (if verified then verified_result timestamp botId
                     else unverified_result timestamp) in
    if negb verified && default true (requireVerified options)
    then Ok (req', reject options 403
                     (error_body "Bot identity verification failed"))
    else Ok (req', CallNext).
Proof.
  intros (status & text & body & Hanswer & Hok & Hbody & Hkey).
  unfold lookup_and_verify, Net.fetch. fold (keys_url options botId).
  rewrite Hanswer. cbn [Exn.bind].
  assert ((status =? 403) = false) as ->.
  { unfold Net.ok in Hok. apply andb_true_iff in Hok as [_ Hle].
    apply Z.leb_le in Hle. apply Z.eqb_neq. lia. }
  cbn [Exn.bind]. rewrite Hok. cbn [negb]. rewrite Hbody. cbn [Exn.bind].
  rewrite Hkey. cbn [Exn.bind].
  destruct (verifySignature_of _ _ _) as [[|] | e]; reflexivity.
Qed.

Lemma lookup_and_verify_fails options server botId signature timestamp req :
  lookup_fails (server (keys_url options botId)) ->
  Exn.raises (lookup_and_verify options server botId signature timestamp req).
Proof.
  intros [Hnot Hfail]. unfold lookup_and_verify, Net.fetch.
  fold (keys_url options botId).
  destruct (server (keys_url options botId)) as [| status text]; [exact I |].
  cbn [Exn.bind]. unfold signals_revocation in Hnot.
  destruct (status =? 403) eqn:H403.
  - assert (Net.ok status = false) as Hno.
    { apply Z.eqb_eq in H403. now subst status. }
    cbn [andb] in Hnot.
    destruct (JSON.parse text) as [body |]; [| exact I]. cbn [Exn.bind].
    destruct (JS.get body "revoked") as [flag |]; [| exact I]. cbn [Exn.bind].
    rewrite Hnot, Hno. exact I.
  - cbn [Exn.bind].
    destruct (Net.ok status); cbn [negb]; [| exact I].
    destruct Hfail as [Hfalse | Hraise]; [discriminate |].
    destruct (JSON.parse text) as [body |]; [| exact I]. cbn [Exn.bind] in *.
    destruct (JS.get body "publicKey") as [publicKey |]; [destruct Hraise | exact I].
Qed.

(** X1.  With enforcement off the handler never rejects: whatever the
    request and whatever the registry does, the next handler is called. *)
Theorem passive_mode_always_continues
    (options : VerifyBotIDOptions) (server : string -> Net.FetchOutcome)
    (now_ms later_ms : Z) (req : ExpressRequest) :
  requireVerified options = Some false ->
  action (verifyBotID options server now_ms later_ms req) = CallNext.
Proof.
  intros Hoff. unfold verifyBotID. rewrite Hoff. cbn [from_option].
  unfold Datatypes.id.
  destruct (falsy _ && falsy _ && falsy _); [reflexivity |].
  destruct (falsy _ || falsy _ || falsy _); [reflexivity |].
  destruct (negb (isTimestampValid _ _)); [reflexivity |].
  destruct (lookup_and_verify _ _ _ _ _ _) as [[req' act] | e] eqn:Hrun;
    [| reflexivity].
  cbn [action]. unfold lookup_and_verify, Exn.bind in Hrun.
  cbv zeta in Hrun. rewrite Hoff in Hrun. cbn [from_option] in Hrun.
  unfold Datatypes.id in Hrun.
  repeat MiddlewareFacts.break_in Hrun;
    try match goal with
        | E : _ && false = true |- _ => rewrite andb_false_r in E; discriminate E
        end;
    now injection Hrun as _ <-.
Qed.

(** X2.  The handler answers by itself only under enforcement and without
    an override handler, and then with 400, 403 or 503; with an override
    handler it never writes a response. *)
Theorem default_rejections
    (options : VerifyBotIDOptions) (server : string -> Net.FetchOutcome)
    (now_ms later_ms : Z) (req : ExpressRequest) (code : Z) (body : JSValue) :
  action (verifyBotID options server now_ms later_ms req) = Respond code body ->
  enforce options = true /\ onUnverified options = false
  /\ (code = 400 \/ code = 403 \/ code = 503)
  /\ exists msg, JS.get body "error" = Ok (JStr msg).
Proof.
  unfold verifyBotID, enforce, reject.
  destruct (default true (requireVerified options)) eqn:Hen;
    destruct (onUnverified options) eqn:Hov;
    destruct (falsy _ && falsy _ && falsy _); cbn [action];
    try discriminate;
    try (intros [= <- <-]; repeat split; eauto; fail);
    destruct (falsy _ || falsy _ || falsy _); cbn [action];
    try discriminate;
    try (intros [= <- <-]; repeat split; eauto; fail);
    destruct (negb (isTimestampValid _ _)); cbn [action];
    try discriminate;
    try (intros [= <- <-]; repeat split; eauto; fail);
    (destruct (lookup_and_verify _ _ _ _ _ _) as [[req' act] | e] eqn:Hrun;
     cbn [action];
     [| try discriminate; try (intros [= <- <-]; repeat split; eauto; fail)]).
  all: intros ->; unfold lookup_and_verify, Exn.bind, reject in Hrun;
    cbv zeta in Hrun; rewrite ?Hen, ?Hov in Hrun;
    repeat MiddlewareFacts.break_in Hrun;
    injection Hrun as _ <- <-; repeat split; eauto.
Qed.

(** X3.  A request in the client library's form whose signature verifies
    under the hexadecimal key the registry serves passes in every mode: the
    registry is asked once, the result in the request's slot is marked
    verified and names the bot by the id presented, and the next handler is
    called. *)
Theorem verified_request_passes
    (options : VerifyBotIDOptions) (server : string -> Net.FetchOutcome)
    (now_ms later_ms : Z) (req : ExpressRequest)
    (botId signature timestampRaw publicKey : string) :
  presents req botId signature timestampRaw ->
  plain req ->
  Str.ascii_only publicKey = true ->
  isTimestampValid now_ms (Number timestampRaw) = true ->
  key_served (server (keys_url options botId)) (JStr publicKey) ->
  verifySignature (message (Number timestampRaw) botId req) signature publicKey
  = Ok true ->
  let out := verifyBotID options server now_ms later_ms req in
  BotID (request out)
  = Some {| verified := true;
            bot := Some {| id := botId; name := botId;
                           deployer_id := EmptyString |};
            timestamp := Number timestampRaw; error := None;
            revoked := None |}
  /\ request out = set_BotID req (verified_result (Number timestampRaw) botId)
  /\ action out = CallNext
  /\ lookups out = [keys_url options botId].
Proof.
  intros Hp _ _ Hfresh Hserved Hsig out. subst out.
  rewrite (verifyBotID_presented _ _ _ _ _ _ _ _ Hp). cbv zeta.
  rewrite Hfresh. cbn [negb].
  rewrite (lookup_and_verify_served _ _ _ _ _ _ _ Hserved).
  unfold verifySignature_of. rewrite Hsig. cbn [Exn.bind negb andb].
  now repeat split.
Qed.

(** The signature check of the handler always answers. *)
Lemma verifySignature_of_answers message signature publicKey :
  exists verified, verifySignature_of message signature publicKey = Ok verified.
Proof.
  destruct publicKey; cbn [verifySignature_of]; eauto.
  unfold verifySignature, Exn.try_catch.
  match goal with |- exists v, match ?e with _ => _ end = _ => destruct e end;
    eauto.
Qed.

(** X4.  When the registry serves a hexadecimal key under which the
    signature of a request in the client library's form does not verify, or
    serves [undefined], [null], a boolean or a number for the key, the
    result in the request's slot is unverified, without a bot and without an
    error text; the request is rejected with 403 under enforcement and
    passed on otherwise. *)
Theorem invalid_signature_is_refused
    (options : VerifyBotIDOptions) (server : string -> Net.FetchOutcome)
    (now_ms later_ms : Z) (req : ExpressRequest)
    (botId signature timestampRaw : string) (publicKey : JSValue) :
  presents req botId signature timestampRaw ->
  plain req ->
  scalar_key publicKey ->
  isTimestampValid now_ms (Number timestampRaw) = true ->
  key_served (server (keys_url options botId)) publicKey ->
  verifySignature_of (message (Number timestampRaw) botId req) signature publicKey
  <> Ok true ->
  let out := verifyBotID options server now_ms later_ms req in
  BotID (request out)
  = Some {| verified := false; bot := None; timestamp := Number timestampRaw;
            error := None; revoked := None |}
  /\ request out = set_BotID req (unverified_result (Number timestampRaw))
  /\ action out
     = (if enforce options
        then reject options 403 (error_body "Bot identity verification failed")
        else CallNext)
  /\ lookups out = [keys_url options botId].
Proof.
  intros Hp _ _ Hfresh Hserved Hsig out. subst out.
  rewrite (verifyBotID_presented _ _ _ _ _ _ _ _ Hp). cbv zeta.
  rewrite Hfresh. cbn [negb].
  rewrite (lookup_and_verify_served _ _ _ _ _ _ _ Hserved).
  destruct (verifySignature_of_answers
              (message (Number timestampRaw) botId req) signature publicKey)
    as [[|] Hv]; [contradiction |].
  rewrite Hv. cbn [Exn.bind negb andb]. unfold enforce.
  destruct (default true (requireVerified options)); now repeat split.
Qed.

(** X5.  When the key lookup fails (no answer, a status that is no
    success, a body that cannot be read) the result carries the error
    [Verification service unavailable] and the time of the failure; the
    request is rejected with 503 under enforcement and passed on
    otherwise. *)
Theorem failed_lookup_is_unavailable
    (options : VerifyBotIDOptions) (server : string -> Net.FetchOutcome)
    (now_ms later_ms : Z) (req : ExpressRequest)
    (botId signature timestampRaw : string) :
  presents req botId signature timestampRaw ->
  isTimestampValid now_ms (Number timestampRaw) = true ->
  lookup_fails (server (keys_url options botId)) ->
  let out := verifyBotID options server now_ms later_ms req in
  BotID (request out)
  = Some {| verified := false; bot := None;
            timestamp := Num.of_Z (later_ms / 1000);
            error := Some "Verification service unavailable";
            revoked := None |}
  /\ request out = set_BotID req (unavailable_result later_ms)
  /\ action out
     = (if enforce options
        then reject options 503
               (error_body "BotID verification service unavailable")
        else CallNext)
  /\ lookups out = [keys_url options botId].
Proof.
  intros Hp Hfresh Hfails out. subst out.
  rewrite (verifyBotID_presented _ _ _ _ _ _ _ _ Hp). cbv zeta.
  rewrite Hfresh. cbn [negb].
  pose proof (lookup_and_verify_fails options server botId signature
                (Number timestampRaw) req Hfails) as Hraise.
  destruct (lookup_and_verify _ _ _ _ _ _) as [[req' act] | e];
    [destruct Hraise |].
  now repeat split.
Qed.

End WithCrypto.

Lemma signed_request_presents :
  presents signed_request "bot_mw_test" example_signature "1700000000".
Proof. repeat split. Qed.

Lemma key_body_served :
  key_served (registry_answering 200 key_body
                (keys_url default_options "bot_mw_test")) (JStr "2a2a2a2a").
Proof.
  exists 200, key_body, (JObj [("publicKey", JStr "2a2a2a2a")]).
  repeat split.
Qed.

Lemma passive_mode_always_continues_witness :
  action (verifyBotID (H := toy_crypto) passive_options unreachable_registry
            example_now example_now (example_request "1700000000"))
  = CallNext.
Proof.
  apply (passive_mode_always_continues (C := toy_crypto)). reflexivity.
Defined.

Lemma default_rejections_witness :
  enforce default_options = true /\ onUnverified default_options = false
  /\ (400 = 400 \/ 400 = 403 \/ 400 = 503)
  /\ exists msg,
       JS.get (error_body "Incomplete BotID headers") "error" = Ok (JStr msg).
Proof.
  apply (default_rejections (C := toy_crypto) default_options
           unreachable_registry example_now example_now
           (mockReq [("X-BotID", "bot_mw_test")])).
  reflexivity.
Defined.

Lemma signed_request_plain : plain signed_request.
Proof.
  split; [reflexivity |]. split.
  - intros signature [= <-]. reflexivity.
  - intros timestampRaw [= <-]. exists 1700000000. split; [reflexivity | lia].
Qed.

Lemma example_request_plain : plain (example_request "1700000000").
Proof.
  split; [reflexivity |]. split.
  - intros signature [= <-]. reflexivity.
  - intros timestampRaw [= <-]. exists 1700000000. split; [reflexivity | lia].
Qed.

Lemma key_body_scalar url publicKey :
  key_served (registry_answering 200 key_body url) publicKey ->
  scalar_key publicKey.
Proof.
  intros (status & text & body & Hanswer & _ & Hbody & Hkey).
  unfold registry_answering in Hanswer.
  destruct (String.eqb url _); [| discriminate].
  injection Hanswer as <- <-.
  assert (JSON.parse key_body = Ok (JObj [("publicKey", JStr "2a2a2a2a")]))
    as Hparse by (vm_compute; reflexivity).
  rewrite Hparse in Hbody. injection Hbody as <-.
  cbn in Hkey. injection Hkey as <-. reflexivity.
Qed.

Lemma verified_request_passes_witness :
  let out := verifyBotID (H := toy_crypto) default_options
               (registry_answering 200 key_body) example_now example_now
               signed_request in
  BotID (request out)
  = Some {| verified := true;
            bot := Some {| id := "bot_mw_test"; name := "bot_mw_test";
                           deployer_id := EmptyString |};
            timestamp := Number "1700000000"; error := None;
            revoked := None |}
  /\ request out
     = set_BotID signed_request
         (verified_result (Number "1700000000") "bot_mw_test")
  /\ action out = CallNext
  /\ lookups out = [keys_url default_options "bot_mw_test"].
Proof.
  apply (verified_request_passes (C := toy_crypto) default_options
           (registry_answering 200 key_body) example_now example_now
           signed_request "bot_mw_test" example_signature "1700000000"
           "2a2a2a2a" signed_request_presents signed_request_plain).
  - reflexivity.
  - reflexivity.
  - exact key_body_served.
  - vm_compute. reflexivity.
Defined.

Lemma invalid_signature_is_refused_witness :
  let out := verifyBotID (H := toy_crypto) default_options
               (registry_answering 200 key_body) example_now example_now
               (example_request "1700000000") in
  BotID (request out)
  = Some {| verified := false; bot := None; timestamp := Number "1700000000";
            error := None; revoked := None |}
  /\ request out
     = set_BotID (example_request "1700000000")
         (unverified_result (Number "1700000000"))
  /\ action out
     = (if enforce default_options
        then reject default_options 403
               (error_body "Bot identity verification failed")
        else CallNext)
  /\ lookups out = [keys_url default_options "bot_mw_test"].
Proof.
  apply (invalid_signature_is_refused (C := toy_crypto) default_options
           (registry_answering 200 key_body) example_now example_now
           (example_request "1700000000") "bot_mw_test" "aabb" "1700000000"
           (JStr "2a2a2a2a")
           (MiddlewareFacts.example_request_presents "1700000000" eq_refl)
           example_request_plain).
  - reflexivity.
  - reflexivity.
  - exact key_body_served.
  - vm_compute. discriminate.
Defined.

Lemma failed_lookup_is_unavailable_witness :
  let out := verifyBotID (H := toy_crypto) default_options
               (registry_answering 500 "Internal Server Error")
               example_now (example_now + 40) (example_request "1700000000") in
  BotID (request out)
  = Some {| verified := false; bot := None;
            timestamp := Num.of_Z ((example_now + 40) / 1000);
            error := Some "Verification service unavailable";
            revoked := None |}
  /\ request out
     = set_BotID (example_request "1700000000")
         (unavailable_result (example_now + 40))
  /\ action out
     = (if enforce default_options
        then reject default_options 503
               (error_body "BotID verification service unavailable")
        else CallNext)
  /\ lookups out = [keys_url default_options "bot_mw_test"].
Proof.
  apply (failed_lookup_is_unavailable (C := toy_crypto) default_options
           (registry_answering 500 "Internal Server Error")
           example_now (example_now + 40) (example_request "1700000000")
           "bot_mw_test" "aabb" "1700000000"
           (MiddlewareFacts.example_request_presents "1700000000" eq_refl)).
  - reflexivity.
  - split; [reflexivity | left; reflexivity].
Defined.

Section Soundness.
Context `{C : NodeCrypto}.

Lemma not_falsy (h : option string) :
  falsy h = false -> exists s, h = Some s /\ Str.truthy s = true.
Proof.
  destruct h as [s |]; [| discriminate]. cbn [falsy]. intros Hs.
  exists s. split; [reflexivity |]. now destruct (Str.truthy s).
Qed.

Lemma presents_or_incomplete (req : ExpressRequest) :
  incomplete req = true
  \/ exists botId signature timestampRaw,
       presents req botId signature timestampRaw.
Proof.
  unfold incomplete.
  destruct (falsy (getHeader req HEADER_BOT_ID)) eqn:Fb; [now left |].
  destruct (falsy (getHeader req HEADER_SIGNATURE)) eqn:Fs; [now left |].
  destruct (falsy (getHeader req HEADER_TIMESTAMP)) eqn:Ft; [now left |].
  right.
  destruct (not_falsy _ Fb) as (b & Hb & Tb).
  destruct (not_falsy _ Fs) as (g & Hs & Ts).
  destruct (not_falsy _ Ft) as (t & Ht & Tt).
  exists b, g, t. unfold presents, identity. now rewrite Hb, Hs, Ht.
Qed.

(** The registry's answer flags a revocation, or serves a value as the key,
    or the lookup fails. *)
Lemma answer_cases (answer : Net.FetchOutcome) :
  signals_revocation answer = true
  \/ lookup_fails answer
  \/ exists publicKey, key_served answer publicKey.
Proof.
  destruct (signals_revocation answer) eqn:Hrev; [now left | right].
  unfold lookup_fails, key_served.
  destruct answer as [| status text]; [now left |].
  destruct (Net.ok status) eqn:Hok; [| left; split; [exact Hrev | now left]].
  destruct (JSON.parse text) as [body | e] eqn:Hbody;
    [| left; split; [exact Hrev | right; exact I]].
  cbn [Exn.bind].
  destruct (JS.get body "publicKey") as [publicKey | e] eqn:Hkey.
  - right. exists publicKey, status, text, body. now repeat split.
  - left. split; [exact Hrev |]. right. exact I.
Qed.

Lemma lookup_and_verify_revoked options server botId signature timestamp req :
  signals_revocation (server (keys_url options botId)) = true ->
  exists act,
    lookup_and_verify options server botId signature timestamp req
    = Ok (set_BotID req (revoked_result timestamp), act)
    /\ (enforce options = true -> act <> CallNext).
Proof.
  intros Hrev. unfold lookup_and_verify, Net.fetch, enforce, reject.
  fold (keys_url options botId). unfold signals_revocation in Hrev.
  destruct (server (keys_url options botId)) as [| status text];
    [discriminate |].
  apply andb_true_iff in Hrev as [H403 Hflag]. cbn [Exn.bind]. rewrite H403.
  destruct (JSON.parse text) as [body |]; [| discriminate]. cbn [Exn.bind].
  destruct (JS.get body "revoked") as [flag |]; [| discriminate].
  cbn [Exn.bind]. rewrite Hflag.
  destruct (default true (requireVerified options));
    destruct (onUnverified options); eexists; (split; [reflexivity |]);
    intros; discriminate.
Qed.

Lemma reject_not_next options code body : reject options code body <> CallNext.
Proof. unfold reject. now destruct (onUnverified options). Qed.

(** Every invocation either finds the signature valid under the key the
    registry serves, or leaves no verified result of its own and, under
    enforcement, does not call the next handler. *)
Lemma checked_or_refused options server now_ms later_ms req :
  let out := verifyBotID options server now_ms later_ms req in
  (exists botId signature timestampRaw publicKey,
      presents req botId signature timestampRaw
      /\ isTimestampValid now_ms (Number timestampRaw) = true
      /\ key_served (server (keys_url options botId)) (JStr publicKey)
      /\ verifySignature (message (Number timestampRaw) botId req)
           signature publicKey = Ok true
      /\ request out = set_BotID req (verified_result (Number timestampRaw) botId)
      /\ action out = CallNext
      /\ lookups out = [keys_url options botId])
  \/ ((BotID (request out) = BotID req
       \/ exists r, BotID (request out) = Some r /\ verified r = false)
      /\ (enforce options = true -> action out <> CallNext)).
Proof.
  intros out. subst out.
  destruct (presents_or_incomplete req) as [Hinc | (b & g & t & Hp)].
  - right. unfold incomplete in Hinc. unfold verifyBotID, enforce.
    rewrite Hinc.
    destruct (default true (requireVerified options));
      destruct (falsy _ && falsy _ && falsy _); cbn [request action BotID];
      (split; [eauto | intros; try discriminate; apply reject_not_next]).
  - rewrite (verifyBotID_presented _ _ _ _ _ _ _ _ Hp). cbv zeta.
    destruct (isTimestampValid now_ms (Number t)) eqn:Hfresh; cbn [negb].
    2:{ right. unfold enforce. cbn [request action].
        split; [right; eexists; split; reflexivity |].
        intros ->. apply reject_not_next. }
    destruct (answer_cases (server (keys_url options b)))
      as [Hrev | [Hfails | [publicKey Hserved]]].
    + right.
      destruct (lookup_and_verify_revoked options server b g (Number t) req Hrev)
        as (act & -> & Hact).
      cbn [request action]. split; [right; eexists; split; reflexivity | exact Hact].
    + right.
      pose proof (lookup_and_verify_fails options server b g (Number t) req Hfails)
        as Hraise.
      destruct (lookup_and_verify _ _ _ _ _ _) as [[req' act] | e];
        [destruct Hraise |].
      unfold enforce. cbn [request action].
      split; [right; eexists; split; reflexivity |].
      intros ->. apply reject_not_next.
    + rewrite (lookup_and_verify_served _ _ _ _ _ _ _ Hserved).
      destruct (verifySignature_of_answers (message (Number t) b req) g publicKey)
        as [[|] Hv]; rewrite Hv; cbn [Exn.bind negb andb].
      * left. exists b, g, t.
        destruct publicKey as [| | | | publicKeyHex | |];
          try discriminate Hv.
        exists publicKeyHex.
        split; [exact Hp |]. split; [exact Hfresh |].
        split; [exact Hserved |]. split; [exact Hv |]. repeat split.
      * right. unfold enforce.
        destruct (default true (requireVerified options)); cbn [request action];
          (split; [right; eexists; split; reflexivity |]);
          intros; try discriminate; apply reject_not_next.
Qed.

(** X6.  A result marked verified on a request that arrived without one
    has been checked.  For a request in the client library's form and a
    registry that serves no array or object as a key: the request presented
    the three headers, its time was inside the window, and its signature
    verifies under the hexadecimal key the registry serves for its id; the
    result names the bot by that id, and the next handler is called. *)
Theorem verified_result_is_sound
    (options : VerifyBotIDOptions) (server : string -> Net.FetchOutcome)
    (now_ms later_ms : Z) (req : ExpressRequest) (r : VerificationResult) :
  BotID req = None ->
  plain req ->
  (forall url publicKey, key_served (server url) publicKey -> scalar_key publicKey) ->
  BotID (request (verifyBotID options server now_ms later_ms req)) = Some r ->
  verified r = true ->
  exists botId signature timestampRaw publicKey,
    presents req botId signature timestampRaw
    /\ isTimestampValid now_ms (Number timestampRaw) = true
    /\ key_served (server (keys_url options botId)) (JStr publicKey)
    /\ verifySignature (message (Number timestampRaw) botId req)
         signature publicKey = Ok true
    /\ r = {| verified := true;
              bot := Some {| id := botId; name := botId;
                             deployer_id := EmptyString |};
              timestamp := Number timestampRaw; error := None;
              revoked := None |}
    /\ action (verifyBotID options server now_ms later_ms req) = CallNext.
Proof.
  intros Hnone _ _ Hr Hv.
  destruct (checked_or_refused options server now_ms later_ms req)
    as [(b & g & t & k & Hp & Hfresh & Hserved & Hsig & Hreq & Hact & _)
       | [[Hsame | (r' & Hr' & Hv')] _]].
  - exists b, g, t, k. repeat split; try assumption; try apply Hp.
    rewrite Hreq in Hr. cbn [BotID set_BotID] in Hr. injection Hr as <-.
    reflexivity.
  - congruence.
  - rewrite Hr in Hr'. injection Hr' as <-. congruence.
Qed.

(** X7.  Under enforcement the next handler is reached only by requests
    that present the three headers and for which the registry served a
    key: the registry has been asked once, for that id, and the result in
    the request's slot is marked verified and names the bot by the id
    presented. *)
Theorem enforcement_admits_only_verified
    (options : VerifyBotIDOptions) (server : string -> Net.FetchOutcome)
    (now_ms later_ms : Z) (req : ExpressRequest) :
  enforce options = true ->
  action (verifyBotID options server now_ms later_ms req) = CallNext ->
  exists botId signature timestampRaw publicKey r,
    presents req botId signature timestampRaw
    /\ key_served (server (keys_url options botId)) publicKey
    /\ lookups (verifyBotID options server now_ms later_ms req)
       = [keys_url options botId]
    /\ BotID (request (verifyBotID options server now_ms later_ms req)) = Some r
    /\ verified r = true
    /\ bot r = Some {| id := botId; name := botId; deployer_id := EmptyString |}
    /\ error r = None /\ revoked r = None.
Proof.
  intros Hen Hnext.
  destruct (checked_or_refused options server now_ms later_ms req)
    as [(b & g & t & k & Hp & Hfresh & Hserved & Hsig & Hreq & Hact & Hlook)
       | [_ Hno]].
  - exists b, g, t, (JStr k), (verified_result (Number t) b).
    split; [exact Hp |]. split; [exact Hserved |]. split; [exact Hlook |].
    rewrite Hreq. cbn [BotID set_BotID]. repeat split.
  - now destruct (Hno Hen).
Qed.

End Soundness.

Lemma verified_result_is_sound_witness :
  exists botId signature timestampRaw publicKey,
    presents signed_request botId signature timestampRaw
    /\ isTimestampValid example_now (Number timestampRaw) = true
    /\ key_served (registry_answering 200 key_body
                     (keys_url passive_options botId)) (JStr publicKey)
    /\ verifySignature (H := toy_crypto)
         (message (Number timestampRaw) botId signed_request)
         signature publicKey = Ok true
    /\ verified_result (Number "1700000000") "bot_mw_test"
       = {| verified := true;
            bot := Some {| id := botId; name := botId;
                           deployer_id := EmptyString |};
            timestamp := Number timestampRaw; error := None;
            revoked := None |}
    /\ action (verifyBotID (H := toy_crypto) passive_options
                 (registry_answering 200 key_body) example_now example_now
                 signed_request) = CallNext.
Proof.
  apply (verified_result_is_sound (C := toy_crypto) passive_options
           (registry_answering 200 key_body) example_now example_now
           signed_request
           (verified_result (Number "1700000000") "bot_mw_test")).
  - reflexivity.
  - exact signed_request_plain.
  - exact key_body_scalar.
  - vm_compute. reflexivity.
  - reflexivity.
Defined.

Lemma enforcement_admits_only_verified_witness :
  exists botId signature timestampRaw publicKey r,
    presents signed_request botId signature timestampRaw
    /\ key_served (registry_answering 200 key_body
                     (keys_url default_options botId)) publicKey
    /\ lookups (verifyBotID (H := toy_crypto) default_options
                  (registry_answering 200 key_body) example_now example_now
                  signed_request)
       = [keys_url default_options botId]
    /\ BotID (request (verifyBotID (H := toy_crypto) default_options
                         (registry_answering 200 key_body) example_now
                         example_now signed_request)) = Some r
    /\ verified r = true
    /\ bot r = Some {| id := botId; name := botId; deployer_id := EmptyString |}
    /\ error r = None /\ revoked r = None.
Proof.
  apply (enforcement_admits_only_verified (C := toy_crypto) default_options
           (registry_answering 200 key_body) example_now example_now
           signed_request); vm_compute; reflexivity.
Defined.

End MiddlewareMore.

(** ** More on the device login *)

Module AuthMore.
Import Verify Auth Examples.

Lemma after_rounds_clock code rounds w :
  clock (after_rounds code rounds w) = clock w + time_taken code rounds.
Proof.
  unfold after_rounds, time_taken. revert w.
  induction rounds as [| r rs IH]; intros w.
  - cbn. lia.
  - cbn [fold_left fold_right]. rewrite IH. cbn [clock elapse emit]. lia.
Qed.

Lemma after_rounds_files code rounds w :
  files (after_rounds code rounds w) = files w.
Proof.
  unfold after_rounds. revert w.
  induction rounds as [| r rs IH]; intros w; [reflexivity |].
  cbn [fold_left]. now rewrite IH.
Qed.

Lemma after_rounds_cons code r rs w :
  after_rounds code (r :: rs) w
  = after_rounds code rs
      (elapse (fst r)
         (emit (Poll (deviceCode code))
            (elapse (interval code * 1000)
               (emit (Sleep (interval code * 1000)) w)))).
Proof. reflexivity. Qed.

(** Rounds that keep waiting inside the time allowed are gone through. *)
Lemma poll_loop_skip apiUrl code start earlier rest w :
  0 <= interval code ->
  Forall keeps_waiting earlier ->
  clock w - start + time_taken code earlier < expiresIn code * 1000 ->
  poll_loop apiUrl code start (earlier ++ rest) w
  = poll_loop apiUrl code start rest (after_rounds code earlier w).
Proof.
  intros Hi Hearlier. revert w.
  induction Hearlier as [| r rs Hr Hrs IH]; intros w Htime; [reflexivity |].
  pose proof (AuthFacts.time_taken_nonneg code rs Hi Hrs) as Hnn.
  destruct r as [took answer]. destruct Hr as (Htook & q & Hq & Hstatus).
  cbn [app time_taken fold_right fst snd] in *. fold (time_taken code rs) in *.
  cbn [poll_loop]. rewrite after_rounds_cons. cbn [fst].
  assert ((clock w - start <? expiresIn code * 1000) = true) as ->
      by (apply Z.ltb_lt; lia).
  rewrite Hq.
  destruct Hstatus as [Hs | [Hs [Ht | Ht]]]; rewrite Hs; try rewrite Ht;
    cbv beta iota; apply IH; cbn [clock elapse emit]; lia.
Qed.

(** X8.  A poll that fails, or that reports the device code as expired,
    as already used, or an error, ends the login with that failure; no
    session is written. *)
Theorem refused_poll_ends_login
    (apiUrl : option string) (onOpen : bool) (env : Environment) (w : World)
    (code : DeviceCodeResponse)
    (earlier later : list (Z * Answer PollResponse))
    (round : Z * Answer PollResponse) (e : Exn.t) :
  requestDeviceCode (code_answer env) = Ok code ->
  poll_answers env = (earlier ++ round :: later)%list ->
  0 <= interval code ->
  Forall keeps_waiting earlier ->
  time_taken code earlier < expiresIn code * 1000 ->
  refused_with e round ->
  exists w',
    deviceLogin apiUrl onOpen env w = (Rejected e, w')
    /\ files w' = files w
    /\ clock w' = clock w + time_taken code earlier
                  + interval code * 1000 + fst round.
Proof.
  intros Hcode Hpolls Hi Hearlier Htime Href.
  unfold deviceLogin. rewrite Hcode, Hpolls.
  set (w0 := open_browser env code onOpen _).
  destruct (AuthFacts.open_browser_keeps env code onOpen
              (emit (OnPrompt (verificationUrl code) (userCode code)) w))
    as [Hclock Hfiles].
  fold w0 in Hclock, Hfiles. cbn [clock files emit] in Hclock, Hfiles.
  rewrite poll_loop_skip by (try assumption; lia).
  pose proof (after_rounds_clock code earlier w0) as Hc.
  pose proof (after_rounds_files code earlier w0) as Hf.
  set (w1 := after_rounds code earlier w0) in *.
  destruct round as [took answer]. unfold refused_with in Href.
  cbn [poll_loop fst snd] in *.
  assert ((clock w1 - clock w0 <? expiresIn code * 1000) = true) as ->
      by (apply Z.ltb_lt; lia).
  destruct Href as [Hthrow | (p & Hp & Hwhy)].
  - rewrite Hthrow. eexists. split; [reflexivity |].
    cbn [files clock elapse emit]. split; [congruence | lia].
  - rewrite Hp.
    destruct Hwhy as [[Hs ->] | [[Hs ->] | [Hs ->]]]; rewrite Hs;
      destruct (accessToken p) as [[| c t] |];
      (eexists; split; [reflexivity |]);
      cbn [files clock elapse emit]; (split; [congruence | lia]).
Qed.

Lemma poll_loop_timeout apiUrl code start rounds later w :
  0 <= interval code ->
  Forall keeps_waiting rounds ->
  expiresIn code * 1000 <= clock w - start + time_taken code rounds ->
  exists w',
    poll_loop apiUrl code start (rounds ++ later) w
    = (Rejected (Exn.Error "Authentication timed out. Please try again."), w')
    /\ files w' = files w
    /\ expiresIn code * 1000 <= clock w' - start
    /\ clock w' <= clock w + time_taken code rounds.
Proof.
  intros Hi Hrounds. revert w.
  induction Hrounds as [| r rs Hr Hrs IH]; intros w Htime.
  - cbn [app time_taken fold_right] in *.
    assert (Hout : (clock w - start <? expiresIn code * 1000) = false)
      by (apply Z.ltb_ge; lia).
    exists w. destruct later as [| [took answer] later];
      cbn [poll_loop]; rewrite Hout; repeat split; lia.
  - pose proof (AuthFacts.time_taken_nonneg code rs Hi Hrs) as Hnn.
    destruct r as [took answer]. destruct Hr as (Htook & q & Hq & Hstatus).
    cbn [app time_taken fold_right fst snd] in *. fold (time_taken code rs) in *.
    cbn [poll_loop].
    destruct (clock w - start <? expiresIn code * 1000) eqn:Hin.
    + rewrite Hq.
      assert (Hnext : forall w1,
                 clock w1 = clock w + interval code * 1000 + took ->
                 files w1 = files w ->
                 exists w',
                   poll_loop apiUrl code start (rs ++ later) w1
                   = (Rejected
                        (Exn.Error "Authentication timed out. Please try again."),
                      w')
                   /\ files w' = files w
                   /\ expiresIn code * 1000 <= clock w' - start
                   /\ clock w' <= clock w + (interval code * 1000 + took
                                             + time_taken code rs)).
      { intros w1 Hc1 Hf1. destruct (IH w1) as (w' & Hrun & Hf & Hlo & Hhi).
        - lia.
        - exists w'. split; [exact Hrun |]. split; [congruence |].
          split; lia. }
      destruct Hstatus as [Hs | [Hs [Ht | Ht]]]; rewrite Hs; try rewrite Ht;
        cbv beta iota; apply Hnext; cbn [clock files elapse emit]; try lia;
        reflexivity.
    + apply Z.ltb_ge in Hin. exists w. repeat split; lia.
Qed.

(** X9.  When the registry keeps answering [pending] until the time
    allowed has passed, the login ends with [Authentication timed out];
    this happens at the first check after the deadline, and no session is
    written. *)
Theorem login_times_out
    (apiUrl : option string) (onOpen : bool) (env : Environment) (w : World)
    (code : DeviceCodeResponse)
    (rounds later : list (Z * Answer PollResponse)) :
  requestDeviceCode (code_answer env) = Ok code ->
  poll_answers env = (rounds ++ later)%list ->
  0 <= interval code ->
  Forall keeps_waiting rounds ->
  expiresIn code * 1000 <= time_taken code rounds ->
  exists w',
    deviceLogin apiUrl onOpen env w
    = (Rejected (Exn.Error "Authentication timed out. Please try again."), w')
    /\ files w' = files w
    /\ expiresIn code * 1000 <= clock w' - clock w
    /\ clock w' - clock w <= time_taken code rounds.
Proof.
  intros Hcode Hpolls Hi Hrounds Htime.
  unfold deviceLogin. rewrite Hcode, Hpolls.
  set (w0 := open_browser env code onOpen _).
  destruct (AuthFacts.open_browser_keeps env code onOpen
              (emit (OnPrompt (verificationUrl code) (userCode code)) w))
    as [Hclock Hfiles].
  fold w0 in Hclock, Hfiles. cbn [clock files emit] in Hclock, Hfiles.
  destruct (poll_loop_timeout (normalizeUrl apiUrl) code (clock w0) rounds later
              w0 Hi Hrounds) as (w' & Hrun & Hf & Hlo & Hhi); [lia |].
  exists w'. split; [exact Hrun |]. split; [congruence |]. split; lia.
Qed.

Lemma saveAuthSession_written session fs fs' :
  Store.saveAuthSession session fs = (Ok tt, fs') ->
  Store.file_at fs' Store.AUTH_FILE = Store.Content (JSON.stringify session)
  /\ Store.file_at fs' Store.CREDENTIALS_FILE
     = Store.file_at fs Store.CREDENTIALS_FILE.
Proof.
  unfold Store.saveAuthSession, Store.ensureDir, Store.bind,
    Store.existsSync_dir, Store.mkdirSync, Store.writeFileSync, Store.ret.
  destruct fs as [[[cred auth] |] [|]]; cbn; try discriminate.
  - destruct auth; try discriminate; now intros [= <-].
  - now intros [= <-].
Qed.

(** A failed write of the session leaves the two files as they were. *)
Lemma saveAuthSession_failed session fs fs' e p :
  Store.saveAuthSession session fs = (Throw e, fs') ->
  Store.file_at fs' p = Store.file_at fs p.
Proof.
  unfold Store.saveAuthSession, Store.ensureDir, Store.bind,
    Store.existsSync_dir, Store.mkdirSync, Store.writeFileSync, Store.ret.
  destruct fs as [[[cred auth] |] [|]]; cbn; try discriminate;
    try (now intros [= _ <-]).
  destruct auth; try discriminate; now intros [= _ <-].
Qed.

Lemma poll_loop_outcome apiUrl code start answers w outcome w' :
  poll_loop apiUrl code start answers w = (outcome, w') ->
  Store.file_at (files w') Store.CREDENTIALS_FILE
  = Store.file_at (files w) Store.CREDENTIALS_FILE
  /\ match outcome with
     | Resolved token =>
         token <> EmptyString
         /\ Store.file_at (files w') Store.AUTH_FILE
            = Store.Content
                (JSON.stringify
                   (Store.AuthSession token apiUrl
                      (Date.toISOString (clock w'))))
     | _ =>
         Store.file_at (files w') Store.AUTH_FILE
         = Store.file_at (files w) Store.AUTH_FILE
     end.
Proof.
  revert w. induction answers as [| [took answer] later IH]; intros w;
    cbn [poll_loop];
    destruct (clock w - start <? expiresIn code * 1000);
    try (intros [= <- <-]; now split).
  destruct (pollDeviceAuth answer) as [p | e]; [| intros [= <- <-]; now split].
  set (w1 := elapse took _).
  assert (Hsame : files w1 = files w) by reflexivity.
  assert (Hgo : poll_loop apiUrl code start later w1 = (outcome, w') ->
                Store.file_at (files w') Store.CREDENTIALS_FILE
                = Store.file_at (files w) Store.CREDENTIALS_FILE
                /\ match outcome with
                   | Resolved token =>
                       token <> EmptyString
                       /\ Store.file_at (files w') Store.AUTH_FILE
                          = Store.Content
                              (JSON.stringify
                                 (Store.AuthSession token apiUrl
                                    (Date.toISOString (clock w'))))
                   | _ =>
                       Store.file_at (files w') Store.AUTH_FILE
                       = Store.file_at (files w) Store.AUTH_FILE
                   end).
  { intros Hrun. apply IH in Hrun. now rewrite Hsame in Hrun. }
  destruct (status p); destruct (accessToken p) as [[| c t] |];
    try exact Hgo; try (intros [= <- <-]; now split).
  destruct (Store.saveAuthSession _ (files w1)) as [[[] | e] fs] eqn:Hsave;
    intros [= <- <-]; cbn [files clock].
  - apply saveAuthSession_written in Hsave as [Hauth Hcred].
    split; [now rewrite Hcred |]. split; [discriminate | exact Hauth].
  - split; now rewrite (saveAuthSession_failed _ _ _ _ _ Hsave).
Qed.

(** X10.  A login that returns a token has stored the session first: the
    token is not empty and the session file holds the JSON text of the
    object with the three properties [accessToken] (that token), [apiUrl]
    (the registry URL without trailing slashes) and [authenticatedAt] (the
    time of the moment).  However the login ends, the credentials file is
    as before, and unless it returns a token so is the session file. *)
Theorem login_outcome_and_files
    (apiUrl : option string) (onOpen : bool) (env : Environment) (w w' : World)
    (outcome : Settled string) :
  deviceLogin apiUrl onOpen env w = (outcome, w') ->
  Store.file_at (files w') Store.CREDENTIALS_FILE
  = Store.file_at (files w) Store.CREDENTIALS_FILE
  /\ match outcome with
     | Resolved token =>
         token <> EmptyString
         /\ Store.file_at (files w') Store.AUTH_FILE
            = Store.Content
                (JSON.stringify
                   (JObj [("accessToken", JStr token);
                          ("apiUrl", JStr (normalizeUrl apiUrl));
                          ("authenticatedAt",
                           JStr (Date.toISOString (clock w')))]))
     | _ =>
         Store.file_at (files w') Store.AUTH_FILE
         = Store.file_at (files w) Store.AUTH_FILE
     end.
Proof.
  unfold deviceLogin.
  destruct (requestDeviceCode (code_answer env)) as [code | e];
    [| intros [= <- <-]; now split].
  intros Hrun. apply poll_loop_outcome in Hrun.
  destruct (AuthFacts.open_browser_keeps env code onOpen
              (emit (OnPrompt (verificationUrl code) (userCode code)) w))
    as [_ Hfiles].
  now rewrite Hfiles in Hrun.
Qed.

(** The loop reads the clock and the files of the process, nothing else. *)
Lemma poll_loop_same apiUrl code start answers w1 w2 :
  clock w1 = clock w2 -> files w1 = files w2 ->
  fst (poll_loop apiUrl code start answers w1)
  = fst (poll_loop apiUrl code start answers w2)
  /\ clock (snd (poll_loop apiUrl code start answers w1))
     = clock (snd (poll_loop apiUrl code start answers w2))
  /\ files (snd (poll_loop apiUrl code start answers w1))
     = files (snd (poll_loop apiUrl code start answers w2)).
Proof.
  revert w1 w2. induction answers as [| [took answer] later IH];
    intros w1 w2 Hc Hf; cbn [poll_loop]; rewrite Hc;
    destruct (clock w2 - start <? expiresIn code * 1000); try now repeat split.
  destruct (pollDeviceAuth answer) as [p | e];
    [| cbn [fst snd clock files elapse emit]; repeat split; congruence].
  set (v1 := elapse took (emit _ (elapse _ (emit _ w1)))).
  set (v2 := elapse took (emit _ (elapse _ (emit _ w2)))).
  assert (Hc' : clock v1 = clock v2)
    by (subst v1 v2; cbn [clock elapse emit]; lia).
  assert (Hf' : files v1 = files v2) by exact Hf.
  destruct (status p); destruct (accessToken p) as [[| c t] |];
    try (apply IH; assumption);
    try (cbn [fst snd]; repeat split; assumption).
  rewrite Hc', Hf'.
  destruct (Store.saveAuthSession _ (files v2)) as [[[] | e] fs];
    now repeat split.
Qed.

(** X11.  Whether and how the browser could be opened (the platform, the
    availability of [node:child_process], the [onOpen] callback) changes
    neither the outcome of the login nor the files nor the time it takes. *)
Theorem login_independent_of_browser
    (apiUrl : option string) (onOpen onOpen' : bool) (env env' : Environment)
    (w : World) :
  code_answer env = code_answer env' ->
  poll_answers env = poll_answers env' ->
  fst (deviceLogin apiUrl onOpen env w) = fst (deviceLogin apiUrl onOpen' env' w)
  /\ clock (snd (deviceLogin apiUrl onOpen env w))
     = clock (snd (deviceLogin apiUrl onOpen' env' w))
  /\ files (snd (deviceLogin apiUrl onOpen env w))
     = files (snd (deviceLogin apiUrl onOpen' env' w)).
Proof.
  intros Hcode Hpolls. unfold deviceLogin. rewrite Hcode, Hpolls.
  destruct (requestDeviceCode (code_answer env')) as [code | e];
    [| now repeat split].
  set (p := emit (OnPrompt (verificationUrl code) (userCode code)) w).
  destruct (AuthFacts.open_browser_keeps env code onOpen p) as [Hc1 Hf1].
  destruct (AuthFacts.open_browser_keeps env' code onOpen' p) as [Hc2 Hf2].
  rewrite Hc1, Hc2. apply poll_loop_same; congruence.
Qed.

Lemma poll_loop_trace apiUrl code start answers w :
  exists events,
    trace (snd (poll_loop apiUrl code start answers w)) = (events ++ trace w)%list
    /\ List.filter is_prompt events = [].
Proof.
  revert w. induction answers as [| [took answer] later IH]; intros w;
    cbn [poll_loop];
    destruct (clock w - start <? expiresIn code * 1000);
    try (exists []; now split).
  set (w1 := elapse took _).
  assert (Hw1 : trace w1
                = ([Poll (deviceCode code); Sleep (interval code * 1000)]
                     ++ trace w)%list) by reflexivity.
  assert (Hgo : exists events,
             trace (snd (poll_loop apiUrl code start later w1))
             = (events ++ trace w)%list
             /\ List.filter is_prompt events = []).
  { destruct (IH w1) as (events & Htrace & Hnone).
    exists (events ++ [Poll (deviceCode code); Sleep (interval code * 1000)])%list.
    split.
    - rewrite Htrace, Hw1. now rewrite <- List.app_assoc.
    - rewrite List.filter_app, Hnone. reflexivity. }
  assert (Hstop : exists events,
             trace w1 = (events ++ trace w)%list
             /\ List.filter is_prompt events = []).
  { eexists. split; [exact Hw1 | reflexivity]. }
  destruct (pollDeviceAuth answer) as [p | e]; [| exact Hstop].
  destruct (status p); destruct (accessToken p) as [[| c t] |];
    try exact Hgo; try exact Hstop.
  destruct (Store.saveAuthSession _ (files w1)) as [[[] | e] fs]; exact Hstop.
Qed.

(** X12.  When the device code is obtained, the caller is prompted exactly
    once, with the verification URL and the user code, and before anything
    else happens. *)
Theorem prompted_once_before_polling
    (apiUrl : option string) (onOpen : bool) (env : Environment) (w : World)
    (code : DeviceCodeResponse) :
  requestDeviceCode (code_answer env) = Ok code ->
  exists events,
    trace (snd (deviceLogin apiUrl onOpen env w))
    = (events ++ OnPrompt (verificationUrl code) (userCode code) :: trace w)%list
    /\ List.filter is_prompt events = [].
Proof.
  intros Hcode. unfold deviceLogin. rewrite Hcode.
  set (p := emit (OnPrompt (verificationUrl code) (userCode code)) w).
  destruct (poll_loop_trace (normalizeUrl apiUrl) code
              (clock (open_browser env code onOpen p)) (poll_answers env)
              (open_browser env code onOpen p)) as (events & Htrace & Hnone).
  assert (Hopen : exists opened,
             trace (open_browser env code onOpen p) = (opened ++ trace p)%list
             /\ List.filter is_prompt opened = []).
  { unfold open_browser.
    destruct (child_process_available env), (platform env), onOpen;
      cbn [trace emit];
      first [ now exists nil
            | eexists (cons _ nil); split; reflexivity
            | eexists (cons _ (cons _ nil)); split; reflexivity ]. }
  destruct Hopen as (opened & Hopened & Hnone').
  exists (events ++ opened)%list. split.
  - rewrite Htrace, Hopened. now rewrite <- List.app_assoc.
  - rewrite List.filter_app, Hnone, Hnone'. reflexivity.
Qed.

Lemma pending_keeps_waiting took :
  0 <= took -> keeps_waiting (took, pending_answer).
Proof.
  intros Htook. split; [exact Htook |].
  eexists. split; [reflexivity |]. now left.
Qed.

Lemma refused_poll_ends_login_witness :
  exists w',
    deviceLogin None false expiring_environment fresh_world
    = (Rejected (Exn.Error "Device code expired. Please try again."), w')
    /\ files w' = files fresh_world
    /\ clock w' = clock fresh_world
                  + time_taken example_code [(120, pending_answer)]
                  + interval example_code * 1000 + 80.
Proof.
  refine (refused_poll_ends_login None false expiring_environment fresh_world
            example_code [(120, pending_answer)] []
            (80, Answered 200
                   (Ok {| status := expired; accessToken := None;
                          error_message := None |}))
            (Exn.Error "Device code expired. Please try again.")
            eq_refl eq_refl _ _ _ _).
  - cbn. lia.
  - constructor; [apply pending_keeps_waiting; lia | constructor].
  - cbn. lia.
  - right. eexists. split; [reflexivity |]. left. now split.
Defined.

Lemma login_times_out_witness :
  exists w',
    deviceLogin None true stalling_environment fresh_world
    = (Rejected (Exn.Error "Authentication timed out. Please try again."), w')
    /\ files w' = files fresh_world
    /\ expiresIn example_code * 1000 <= clock w' - clock fresh_world
    /\ clock w' - clock fresh_world
       <= time_taken example_code
            [(120, pending_answer); (900000, pending_answer)].
Proof.
  refine (login_times_out None true stalling_environment fresh_world
            example_code [(120, pending_answer); (900000, pending_answer)]
            [(90, pending_answer)] eq_refl eq_refl _ _ _).
  - cbn. lia.
  - repeat constructor; apply pending_keeps_waiting; lia.
  - cbn. lia.
Defined.

Lemma login_outcome_and_files_witness :
  let w' := snd (deviceLogin (Some "https://botid.net/") true
                   example_environment fresh_world) in
  Store.file_at (files w') Store.CREDENTIALS_FILE
  = Store.file_at (files fresh_world) Store.CREDENTIALS_FILE
  /\ "token_xyz" <> EmptyString
  /\ Store.file_at (files w') Store.AUTH_FILE
     = Store.Content
         (JSON.stringify
            (JObj [("accessToken", JStr "token_xyz");
                   ("apiUrl", JStr (normalizeUrl (Some "https://botid.net/")));
                   ("authenticatedAt",
                    JStr (Date.toISOString (clock w')))])).
Proof.
  intros w'.
  apply (login_outcome_and_files (Some "https://botid.net/") true
           example_environment fresh_world w' (Resolved "token_xyz")).
  reflexivity.
Defined.

Lemma login_independent_of_browser_witness :
  let quiet :=
    {| code_answer := code_answer example_environment;
       platform := darwin; child_process_available := false;
       poll_answers := poll_answers example_environment |} in
  fst (deviceLogin None true example_environment fresh_world)
  = fst (deviceLogin None false quiet fresh_world)
  /\ clock (snd (deviceLogin None true example_environment fresh_world))
     = clock (snd (deviceLogin None false quiet fresh_world))
  /\ files (snd (deviceLogin None true example_environment fresh_world))
     = files (snd (deviceLogin None false quiet fresh_world)).
Proof.
  intros quiet.
  apply (login_independent_of_browser None true false example_environment
           quiet fresh_world); reflexivity.
Defined.

Lemma prompted_once_before_polling_witness :
  exists events,
    trace (snd (deviceLogin None true example_environment fresh_world))
    = (events
         ++ OnPrompt (verificationUrl example_code) (userCode example_code)
         :: trace fresh_world)%list
    /\ List.filter is_prompt events = [].
Proof.
  apply (prompted_once_before_polling None true example_environment fresh_world
           example_code).
  reflexivity.
Defined.

End AuthMore.

(** ** More on src/verify.ts *)

Module VerifyMore.
Import Verify Outcomes Examples.

Lemma rev_repeat c k : Str.rev (Str.repeat c k) = Str.repeat c k.
Proof.
  induction k as [| k IH]; [reflexivity |].
  cbn [Str.repeat]. rewrite NumFacts.rev_cons, IH.
  clear IH. induction k as [| k IH]; [reflexivity |].
  cbn [Str.repeat]. rewrite NumFacts.app_cons. now f_equal.
Qed.

Lemma drop_while_repeat c k s :
  Str.drop_while (Ascii.eqb c) (Str.repeat c k ++ s)
  = Str.drop_while (Ascii.eqb c) s.
Proof.
  induction k as [| k IH]; [reflexivity |].
  cbn [Str.repeat]. rewrite NumFacts.app_cons. cbn [Str.drop_while].
  now rewrite Ascii.eqb_refl.
Qed.

Lemma drop_while_head p s :
  match s with String c _ => p c = false | EmptyString => True end ->
  Str.drop_while p s = s.
Proof. destruct s as [| c r]; [reflexivity |]. cbn. now intros ->. Qed.

(** X13.  [normalizeUrl] removes the slashes at the end and nothing else:
    a URL that does not end with a slash comes back as it is, however many
    slashes are put after it. *)
Theorem normalizeUrl_strips_trailing_slashes (u : string) (k : nat) :
  ends_with_slash u = false ->
  normalizeUrl (Some (u ++ Str.repeat "/" k)) = u.
Proof.
  unfold ends_with_slash, normalizeUrl, Str.drop_while_end. cbn [from_option].
  unfold Datatypes.id. intros Hend.
  rewrite NumFacts.rev_app, rev_repeat, drop_while_repeat.
  rewrite drop_while_head; [apply NumFacts.rev_involutive |].
  now destruct (Str.rev u).
Qed.

Lemma drop_while_stops p s :
  match Str.drop_while p s with
  | String c _ => p c = false
  | EmptyString => True
  end.
Proof.
  induction s as [| c r IH]; [exact I |]. cbn [Str.drop_while].
  now destruct (p c) eqn:Hc.
Qed.

Lemma ends_with_slash_normalizeUrl (url : option string) :
  ends_with_slash (normalizeUrl url) = false.
Proof.
  unfold ends_with_slash, normalizeUrl, Str.drop_while_end.
  rewrite NumFacts.rev_involutive.
  pose proof (drop_while_stops (Ascii.eqb "/"%char)
                (Str.rev (default DEFAULT_API_URL url))) as Hstop.
  now destruct (Str.drop_while _ _).
Qed.

Lemma normalizeUrl_fixed (u : string) :
  ends_with_slash u = false -> normalizeUrl (Some u) = u.
Proof.
  unfold ends_with_slash, normalizeUrl, Str.drop_while_end. cbn [from_option].
  unfold Datatypes.id. intros Hend.
  rewrite drop_while_head; [apply NumFacts.rev_involutive |].
  now destruct (Str.rev u).
Qed.

(** X14.  What [normalizeUrl] returns never ends with a slash, and
    normalising it again changes nothing; without a URL it is the default
    registry. *)
Theorem normalizeUrl_is_normal (url : option string) :
  ends_with_slash (normalizeUrl url) = false
  /\ normalizeUrl (Some (normalizeUrl url)) = normalizeUrl url
  /\ normalizeUrl None = DEFAULT_API_URL.
Proof.
  split; [apply ends_with_slash_normalizeUrl |]. split; [| reflexivity].
  apply normalizeUrl_fixed, ends_with_slash_normalizeUrl.
Qed.

Lemma digit_in_upper c :
  Num.digit_in 16 (Str.upper_char c) = Num.digit_in 16 c.
Proof. NumFacts.by_bits c. Qed.

Lemma from_hex_toUpperCase s :
  Buffer.from_hex (Str.toUpperCase s) = Buffer.from_hex s.
Proof.
  revert s. fix IH 1. intros [| a [| b r]]; try reflexivity.
  change (Str.toUpperCase (String a (String b r)))
    with (String (Str.upper_char a)
            (String (Str.upper_char b) (Str.toUpperCase r))).
  cbn [Buffer.from_hex]. rewrite !digit_in_upper.
  destruct (Num.digit_in 16 a), (Num.digit_in 16 b); try reflexivity.
  now rewrite IH.
Qed.

Lemma from_hex_then_text buf junk :
  Buffer.from_hex junk = [] ->
  Buffer.from_hex (Buffer.to_hex buf ++ junk) = buf.
Proof.
  intros Hjunk. induction buf as [| b buf IH]; [exact Hjunk |].
  rewrite Signatures.to_hex_cons, NumFacts.app_assoc,
    Signatures.from_hex_to_hex_byte.
  now f_equal.
Qed.

Section WithCrypto.
Context `{C : NodeCrypto}.

(** X15.  The case of the hexadecimal digits does not matter: for texts
    within ASCII, a signature and keys written in upper case sign and
    verify as they do in lower or mixed case. *)
Theorem hex_case_is_ignored (message signatureHex keyHex : string) :
  Str.ascii_only signatureHex = true ->
  Str.ascii_only keyHex = true ->
  verifySignature message (Str.toUpperCase signatureHex) (Str.toUpperCase keyHex)
  = verifySignature message signatureHex keyHex
  /\ signMessage message (Str.toUpperCase keyHex) = signMessage message keyHex.
Proof.
  intros _ _.
  unfold verifySignature, signMessage. now rewrite !from_hex_toUpperCase.
Qed.

(** X16.  Text after the hexadecimal digits is dropped without an error:
    a signature followed by ASCII text that does not begin with two more
    digits verifies as the signature alone, and likewise for the key. *)
Theorem text_after_hex_is_dropped
    (message : string) (signature key : Buffer.t) (junk junk' : string) :
  Str.ascii_only junk = true ->
  Str.ascii_only junk' = true ->
  Buffer.from_hex junk = [] ->
  Buffer.from_hex junk' = [] ->
  verifySignature message (Buffer.to_hex signature ++ junk)
    (Buffer.to_hex key ++ junk')
  = verifySignature message (Buffer.to_hex signature) (Buffer.to_hex key).
Proof.
  intros _ _ Hj Hj'. unfold verifySignature.
  now rewrite !from_hex_then_text, !Signatures.from_hex_to_hex.
Qed.

(** X17.  The two texts of a generated pair are the exported keys in
    hexadecimal: decoding them gives the DER bytes back, two digits for
    each byte. *)
Theorem generated_keys_decode (r : Entropy) :
  let keys := generateKeypair r in
  Buffer.from_hex (publicKey keys) = export_spki (fst (generateKeyPairSync r))
  /\ Buffer.from_hex (privateKey keys) = export_pkcs8 (snd (generateKeyPairSync r))
  /\ String.length (publicKey keys)
     = (2 * List.length (export_spki (fst (generateKeyPairSync r))))%nat
  /\ String.length (privateKey keys)
     = (2 * List.length (export_pkcs8 (snd (generateKeyPairSync r))))%nat.
Proof.
  assert (Hlen : forall buf,
             String.length (Buffer.to_hex buf) = (2 * List.length buf)%nat).
  { induction buf as [| b buf IH]; [reflexivity |].
    cbn [Buffer.to_hex String.length List.length]. rewrite IH. lia. }
  unfold generateKeypair. destruct (generateKeyPairSync r) as [pub priv].
  cbn [publicKey privateKey fst snd].
  rewrite !Signatures.from_hex_to_hex, !Hlen. now repeat split.
Qed.

End WithCrypto.

Lemma normalizeUrl_strips_trailing_slashes_witness :
  normalizeUrl (Some ("https://botid.net" ++ Str.repeat "/" 3))
  = "https://botid.net".
Proof.
  apply (normalizeUrl_strips_trailing_slashes "https://botid.net" 3).
  reflexivity.
Defined.

Lemma hex_case_is_ignored_witness :
  verifySignature (H := toy_crypto) "test" (Str.toUpperCase "aaBb")
    (Str.toUpperCase "2a2a2a2a")
  = verifySignature (H := toy_crypto) "test" "aaBb" "2a2a2a2a"
  /\ signMessage (H := toy_crypto) "test" (Str.toUpperCase "2a2a2a2a")
     = signMessage (H := toy_crypto) "test" "2a2a2a2a".
Proof.
  apply (hex_case_is_ignored (C := toy_crypto)); reflexivity.
Defined.

Lemma text_after_hex_is_dropped_witness :
  verifySignature (H := toy_crypto) "test"
    (Buffer.to_hex [Byte.xaa; Byte.xbb] ++ "zz")
    (Buffer.to_hex [Byte.x2a; Byte.x2a; Byte.x2a; Byte.x2a] ++ "-----")
  = verifySignature (H := toy_crypto) "test"
      (Buffer.to_hex [Byte.xaa; Byte.xbb])
      (Buffer.to_hex [Byte.x2a; Byte.x2a; Byte.x2a; Byte.x2a]).
Proof.
  apply (text_after_hex_is_dropped (C := toy_crypto)); reflexivity.
Defined.

End VerifyMore.

(** ** More on the client, and the client against the middleware *)

Module ClientMore.
Import Verify Outcomes Examples.

Lemma contains_app c s t :
  Str.contains c (s ++ t) = Str.contains c s || Str.contains c t.
Proof.
  induction s as [| x s IH]; [reflexivity |].
  rewrite NumFacts.app_cons. cbn [Str.contains]. now rewrite IH, orb_assoc.
Qed.

Lemma contains_rev c s : Str.contains c (Str.rev s) = Str.contains c s.
Proof.
  induction s as [| x s IH]; [reflexivity |].
  rewrite NumFacts.rev_cons, contains_app, IH. cbn [Str.contains].
  rewrite orb_false_r. apply orb_comm.
Qed.

Lemma drop_while_clean p s :
  (forall c, Str.contains c s = true -> p c = false) -> Str.drop_while p s = s.
Proof.
  destruct s as [| x s]; [reflexivity |]. intros Hp. cbn [Str.drop_while].
  rewrite (Hp x); [reflexivity |]. cbn [Str.contains].
  now rewrite Ascii.eqb_refl.
Qed.

(** Text without white space is stored in a header as it is. *)
Lemma strip_clean p s :
  (forall c, Str.contains c s = true -> p c = false) ->
  Str.drop_while_end p (Str.drop_while p s) = s.
Proof.
  intros Hp. rewrite (drop_while_clean p s Hp). unfold Str.drop_while_end.
  rewrite drop_while_clean; [apply NumFacts.rev_involutive |].
  intros c Hc. apply Hp. now rewrite contains_rev in Hc.
Qed.

Lemma hex_digit_clean d :
  0 <= d < 16 -> Client.Headers.is_http_ws (JSON.hex_digit d) = false.
Proof.
  intros Hd.
  assert (d = 0 \/ d = 1 \/ d = 2 \/ d = 3 \/ d = 4 \/ d = 5 \/ d = 6 \/ d = 7
          \/ d = 8 \/ d = 9 \/ d = 10 \/ d = 11 \/ d = 12 \/ d = 13 \/ d = 14
          \/ d = 15) as Hcases by lia.
  repeat (destruct Hcases as [-> | Hcases]; [reflexivity |]).
  now subst d.
Qed.

Lemma to_hex_clean buf c :
  Str.contains c (Buffer.to_hex buf) = true -> Client.Headers.is_http_ws c = false.
Proof.
  induction buf as [| b buf IH]; [discriminate |].
  cbn [Buffer.to_hex Str.contains].
  pose proof (N2Z.is_nonneg (Byte.to_N b)) as Hlo.
  assert (Z.of_N (Byte.to_N b) < 256) as Hhi.
  { pose proof (Byte.to_N_bounded b). lia. }
  intros [Hc | [Hc | Hc]%orb_true_iff]%orb_true_iff.
  - apply Ascii.eqb_eq in Hc as <-. apply hex_digit_clean.
    split; [apply Z.div_pos; lia | apply Z.div_lt_upper_bound; lia].
  - apply Ascii.eqb_eq in Hc as <-. apply hex_digit_clean.
    apply Z.mod_pos_bound. lia.
  - now apply IH.
Qed.

Lemma normalize_to_hex buf :
  Client.Headers.normalize (Buffer.to_hex buf) = Buffer.to_hex buf.
Proof. apply strip_clean. intros c. apply to_hex_clean. Qed.

Section WithPlatform.
Context `{C : NodeCrypto}.
Variable new_URL : string -> Result Client.URL.

(** What [fetch] hands to the platform when it gets that far. *)
Lemma fetch_sends self now_ms url init out :
  Client.fetch new_URL self now_ms url init = Ok out ->
  exists u signature h0,
    new_URL url = Ok u
    /\ signMessage (Client.message self now_ms init u) (Client.privateKey self)
       = Ok signature
    /\ Client.Headers.create (Client.init_headers init) ∅ = Ok h0
    /\ Client.out_url out = url
    /\ Client.out_method out = Client.init_method init
    /\ Client.out_headers out
       = <[Str.toLowerCase HEADER_TIMESTAMP :=
             Client.Headers.normalize (Num.toString (Num.of_Z (seconds now_ms)))]>
           (<[Str.toLowerCase HEADER_SIGNATURE :=
                Client.Headers.normalize signature]>
              (<[Str.toLowerCase HEADER_BOT_ID :=
                   Client.Headers.normalize (Client.botId self)]> h0)).
Proof.
  intros Hrun. unfold Client.fetch, Exn.bind in Hrun.
  destruct (new_URL url) as [u |] eqn:Hurl; [| discriminate].
  destruct (signMessage _ _) as [signature |] eqn:Hsig; [| discriminate].
  destruct (Client.Headers.create _ _) as [h0 |]; [| discriminate].
  destruct (Client.Headers.set HEADER_BOT_ID _ h0) as [h1 |] eqn:H1; [| discriminate].
  destruct (Client.Headers.set HEADER_SIGNATURE _ h1) as [h2 |] eqn:H2; [| discriminate].
  destruct (Client.Headers.set HEADER_TIMESTAMP _ h2) as [h3 |] eqn:H3; [| discriminate].
  injection Hrun as <-.
  apply SignerVerifier.set_stores in H1, H2, H3. subst h1 h2 h3.
  exists u, signature, h0. now repeat split.
Qed.

Lemma normalize_timestamp now_ms :
  0 <= now_ms <= 8640000000000000 ->
  Client.Headers.normalize (Num.toString (Num.of_Z (seconds now_ms)))
  = Num.toString (Num.of_Z (seconds now_ms))
  /\ Number (Num.toString (Num.of_Z (seconds now_ms))) = Num.of_Z (seconds now_ms)
  /\ Num.toString (Num.of_Z (seconds now_ms)) <> EmptyString.
Proof.
  intros Hclock.
  assert (0 <= seconds now_ms < 10 ^ 21) as Hs.
  { unfold seconds. split;
      [apply Z.div_pos; lia | apply Z.div_lt_upper_bound; lia]. }
  rewrite (NumFacts.toString_of_Z _ Hs). split; [| split].
  - apply NumFacts.strip_digits; [| apply NumFacts.dec_digits; lia].
    intros c. NumFacts.by_bits c.
  - apply NumFacts.Number_dec. lia.
  - apply NumFacts.dec_not_empty. lia.
Qed.

(** X18.  Every request that [fetch] sends carries the three identity
    headers of the client: the bot id, the signature and the timestamp in
    whole seconds, whatever the caller put under those names; the caller's
    other headers, the URL and the method go out as given. *)
Theorem fetch_sets_identity_headers
    (self : Client.BotIDClient) (now_ms : Z) (url : string)
    (init : Client.RequestInit) (out : Client.Outbound) :
  0 <= now_ms <= 8640000000000000 ->
  Client.fetch new_URL self now_ms url init = Ok out ->
  exists u signature h0,
    new_URL url = Ok u
    /\ signMessage (Client.message self now_ms init u) (Client.privateKey self)
       = Ok signature
    /\ Client.Headers.create (Client.init_headers init) ∅ = Ok h0
    /\ Client.out_headers out !! "x-botid"
       = Some (Client.Headers.normalize (Client.botId self))
    /\ Client.out_headers out !! "x-botid-signature"
       = Some (Client.Headers.normalize signature)
    /\ Client.out_headers out !! "x-botid-timestamp"
       = Some (Num.toString (Num.of_Z (seconds now_ms)))
    /\ (forall name,
          name <> "x-botid" -> name <> "x-botid-signature" ->
          name <> "x-botid-timestamp" ->
          Client.out_headers out !! name = h0 !! name)
    /\ Client.out_url out = url
    /\ Client.out_method out = Client.init_method init.
Proof.
  intros Hclock Hrun.
  destruct (fetch_sends _ _ _ _ _ Hrun)
    as (u & signature & h0 & Hu & Hsig & Hcreate & Hurl & Hmethod & Hh).
  destruct (normalize_timestamp now_ms Hclock) as (Hts & _ & _).
  exists u, signature, h0. rewrite Hh, Hts.
  split; [exact Hu |]. split; [exact Hsig |]. split; [exact Hcreate |].
  split; [now rewrite lookup_insert_ne, lookup_insert_ne, lookup_insert_eq |].
  split; [now rewrite lookup_insert_ne, lookup_insert_eq |].
  split; [now rewrite lookup_insert_eq |].
  split; [| now split].
  intros name Hb Hs Ht.
  change (Str.toLowerCase HEADER_BOT_ID) with "x-botid".
  change (Str.toLowerCase HEADER_SIGNATURE) with "x-botid-signature".
  change (Str.toLowerCase HEADER_TIMESTAMP) with "x-botid-timestamp".
  now rewrite !lookup_insert_ne by congruence.
Qed.

(** X19.  Client and middleware fit together.  A request that a client
    holding the private key of a generated pair sends with [fetch] is found
    verified by the middleware, in every mode, when the registry serves the
    public key of the pair for the client's bot id and the two clocks are at
    most five minutes apart.  The signature is taken not to be empty (an
    Ed25519 signature has 64 bytes) and the bot id to be non-empty and free
    of surrounding white space. *)
Theorem client_request_passes_middleware
    (L : Ed25519Laws C) (r : Entropy)
    (self : Client.BotIDClient) (sent_ms : Z) (url : string)
    (init : Client.RequestInit) (out : Client.Outbound) (u : Client.URL)
    (options : Middleware.VerifyBotIDOptions)
    (server : string -> Net.FetchOutcome) (now_ms later_ms : Z) :
  Client.URL_standard new_URL ->
  0 <= sent_ms <= 8640000000000000 ->
  Client.Headers.normalize (Client.botId self) = Client.botId self ->
  Client.botId self <> EmptyString ->
  Client.privateKey self = privateKey (generateKeypair r) ->
  new_URL url = Ok u ->
  Client.fetch new_URL self sent_ms url init = Ok out ->
  Client.out_headers out !! "x-botid-signature" <> Some EmptyString ->
  key_served (server (keys_url options (Client.botId self)))
    (JStr (publicKey (generateKeypair r))) ->
  seconds now_ms - 300 <= seconds sent_ms <= seconds now_ms + 300 ->
  let req := Client.received out u in
  let res := Middleware.verifyBotID options server now_ms later_ms req in
  Middleware.BotID (Middleware.request res)
  = Some {| Middleware.verified := true;
            Middleware.bot :=
              Some {| Middleware.id := Client.botId self;
                      Middleware.name := Client.botId self;
                      Middleware.deployer_id := EmptyString |};
            Middleware.timestamp := Num.of_Z (seconds sent_ms);
            Middleware.error := None; Middleware.revoked := None |}
  /\ Middleware.request res
     = Middleware.set_BotID req
         (verified_result (Num.of_Z (seconds sent_ms)) (Client.botId self))
  /\ Middleware.action res = Middleware.CallNext
  /\ Middleware.lookups res = [keys_url options (Client.botId self)].
Proof.
  intros Hstd Hclock Hbot Hbne Hkey Hu Hrun Hsigne Hserved Hwin req res.
  destruct (fetch_sends _ _ _ _ _ Hrun)
    as (u' & signature & h0 & Hu' & Hsig & Hcreate & Hurl & Hmethod & Hh).
  rewrite Hu in Hu'. injection Hu' as <-.
  destruct (normalize_timestamp sent_ms Hclock) as (Hts & Hnum & Hraw).
  rewrite Hts, Hbot in Hh.
  (* the signature is the hexadecimal text of what the key signs *)
  pose proof (import_export_private C L r) as Hpriv.
  pose proof (import_export_public C L r) as Hpub.
  destruct (sign_then_verify C L r
              (Buffer.from (Client.message self sent_ms init u)))
    as (sig & Hsign & Hverify).
  unfold signMessage in Hsig. rewrite Hkey in Hsig.
  unfold generateKeypair in Hsig, Hserved.
  destruct (generateKeyPairSync r) as [pub priv]; cbn [fst snd publicKey privateKey] in *.
  rewrite Signatures.from_hex_to_hex, Hpriv in Hsig. cbn [Exn.bind] in Hsig.
  rewrite Hsign in Hsig. cbn [Exn.bind] in Hsig. injection Hsig as <-.
  rewrite normalize_to_hex in Hh.
  assert (Hne : Buffer.to_hex sig <> EmptyString).
  { intros He. apply Hsigne. rewrite Hh.
    rewrite lookup_insert_ne, lookup_insert_eq by discriminate. now rewrite He. }
  (* the request the server holds presents the three headers *)
  assert (Hp : Middleware.presents req (Client.botId self) (Buffer.to_hex sig)
                 (Num.toString (Num.of_Z (seconds sent_ms)))).
  { unfold Middleware.presents, Middleware.identity, Middleware.getHeader.
    subst req. unfold Client.received. cbn [Middleware.headers].
    rewrite !lookup_fmap, Hh.
    change (Str.toLowerCase HEADER_BOT_ID) with "x-botid".
    change (Str.toLowerCase HEADER_SIGNATURE) with "x-botid-signature".
    change (Str.toLowerCase HEADER_TIMESTAMP) with "x-botid-timestamp".
    rewrite lookup_insert_ne, lookup_insert_ne, lookup_insert_eq by discriminate.
    rewrite lookup_insert_ne, lookup_insert_eq by discriminate.
    rewrite lookup_insert_eq. cbn [fmap option_fmap option_map].
    split; [reflexivity |].
    split; [now destruct (Client.botId self) |].
    split; [now destruct (Buffer.to_hex sig) |].
    now destruct (Num.toString (Num.of_Z (seconds sent_ms))). }
  (* the message the middleware rebuilds is the message signed *)
  assert (Hmsg : Middleware.message
                   (Number (Num.toString (Num.of_Z (seconds sent_ms))))
                   (Client.botId self) req
                 = Client.message self sent_ms init u).
  { unfold Middleware.message, Client.message.
    rewrite (SignerVerifier.rebuilt_timestamp sent_ms Hclock).
    rewrite (SignerVerifier.rebuilt_method req (Client.init_method init))
      by (subst req; cbn; now rewrite Hmethod).
    rewrite (SignerVerifier.rebuilt_path req u)
      by (exact (Hstd url u Hu) || reflexivity).
    reflexivity. }
  subst res.
  rewrite (MiddlewareMore.verifyBotID_presented _ _ _ _ _ _ _ _ Hp). cbv zeta.
  assert (Hfresh : isTimestampValid now_ms
                     (Number (Num.toString (Num.of_Z (seconds sent_ms)))) = true).
  { rewrite Hnum. now apply ReplayWindow.isTimestampValid_iff. }
  rewrite Hfresh. cbn [negb].
  rewrite (MiddlewareMore.lookup_and_verify_served _ _ _ _ _ _ _ Hserved).
  unfold Middleware.verifySignature_of, verifySignature. rewrite Hmsg.
  rewrite !Signatures.from_hex_to_hex, Hpub. cbn [Exn.bind Exn.try_catch].
  rewrite Hverify. cbn [Exn.bind Exn.try_catch negb andb Middleware.request
                        Middleware.action Middleware.lookups].
  rewrite Hnum. repeat split.
Qed.

End WithPlatform.

Lemma fetch_sets_identity_headers_witness :
  exists u signature h0,
    simple_URL "https://example.com/" = Ok u
    /\ signMessage (H := toy_crypto)
         (Client.message example_client example_now example_init u)
         (Client.privateKey example_client)
       = Ok signature
    /\ Client.Headers.create (Client.init_headers example_init) ∅ = Ok h0
    /\ Client.out_headers example_outbound !! "x-botid"
       = Some (Client.Headers.normalize (Client.botId example_client))
    /\ Client.out_headers example_outbound !! "x-botid-signature"
       = Some (Client.Headers.normalize signature)
    /\ Client.out_headers example_outbound !! "x-botid-timestamp"
       = Some (Num.toString (Num.of_Z (seconds example_now)))
    /\ (forall name,
          name <> "x-botid" -> name <> "x-botid-signature" ->
          name <> "x-botid-timestamp" ->
          Client.out_headers example_outbound !! name = h0 !! name)
    /\ Client.out_url example_outbound = "https://example.com/"
    /\ Client.out_method example_outbound = Client.init_method example_init.
Proof.
  apply (fetch_sets_identity_headers (C := toy_crypto) simple_URL example_client
           example_now "https://example.com/" example_init example_outbound).
  - split; discriminate.
  - vm_compute. reflexivity.
Defined.

Lemma client_request_passes_middleware_witness :
  let u := {| Client.pathname := "/"; Client.query := None;
              Client.fragment := None |} in
  let req := Client.received example_outbound u in
  let res := Middleware.verifyBotID (H := toy_crypto) default_options
               (registry_answering 200 key_body) (example_now + 200000)
               (example_now + 200000) req in
  Middleware.BotID (Middleware.request res)
  = Some {| Middleware.verified := true;
            Middleware.bot :=
              Some {| Middleware.id := "bot_mw_test";
                      Middleware.name := "bot_mw_test";
                      Middleware.deployer_id := EmptyString |};
            Middleware.timestamp := Num.of_Z (seconds example_now);
            Middleware.error := None; Middleware.revoked := None |}
  /\ Middleware.request res
     = Middleware.set_BotID req
         (verified_result (Num.of_Z (seconds example_now))
            (Client.botId example_client))
  /\ Middleware.action res = Middleware.CallNext
  /\ Middleware.lookups res
     = [keys_url default_options (Client.botId example_client)].
Proof.
  intros u.
  apply (client_request_passes_middleware (C := toy_crypto) simple_URL
           Signatures.toy_crypto_laws Byte.x2a example_client example_now
           "https://example.com/" example_init example_outbound u
           default_options (registry_answering 200 key_body)
           (example_now + 200000) (example_now + 200000)
           SignerVerifier.simple_URL_standard).
  - split; discriminate.
  - reflexivity.
  - discriminate.
  - reflexivity.
  - reflexivity.
  - vm_compute. reflexivity.
  - vm_compute. discriminate.
  - exact MiddlewareMore.key_body_served.
  - vm_compute. split; discriminate.
Defined.

End ClientMore.

(** ** Writing a value as JSON and reading it back *)

Module JsonFacts.
Import JSON JsonShape.

Lemma JSValue_nested_ind (P : JSValue -> Prop) :
  P JUndefined -> P JNull -> (forall b, P (JBool b)) -> (forall n, P (JNum n)) ->
  (forall s, P (JStr s)) ->
  (forall l, Forall P l -> P (JArr l)) ->
  (forall ps, Forall (fun kv => P (snd kv)) ps -> P (JObj ps)) ->
  forall v, P v.
Proof.
  intros Hu Hn Hb Hnum Hs Harr Hobj. fix IH 1.
  intros [| | b | n | s | l | ps];
    [exact Hu | exact Hn | apply Hb | apply Hnum | apply Hs | |].
  - apply Harr. induction l as [| x l IHl]; constructor; [apply IH | exact IHl].
  - apply Hobj. induction ps as [| [k x] ps IHps]; constructor;
      [apply IH | exact IHps].
Qed.

Lemma length_app s t :
  String.length (s ++ t) = (String.length s + String.length t)%nat.
Proof.
  induction s as [| c s IH]; [reflexivity |].
  rewrite NumFacts.app_cons. cbn [String.length]. now rewrite IH.
Qed.

(** One escaped character is read back as the character. *)
Lemma escape_char_step c k r acc :
  parse_chars (S k) (escape_char c ++ r) acc = parse_chars k r (String c acc).
Proof. NumFacts.by_bits c. Qed.

Lemma escape_char_length c : (1 <= String.length (escape_char c))%nat.
Proof. destruct c as [[] [] [] [] [] [] [] []]; vm_compute; lia. Qed.

Lemma escape_length s : (String.length s <= String.length (escape s))%nat.
Proof.
  induction s as [| c s IH]; [reflexivity |].
  cbn [escape String.length]. rewrite length_app.
  pose proof (escape_char_length c). lia.
Qed.

Lemma parse_chars_escape s :
  forall fuel acc rest,
    (String.length s < fuel)%nat ->
    parse_chars fuel (escape s ++ String "034"%char rest) acc
    = Some (Str.rev (Str.rev_onto s acc), rest).
Proof.
  induction s as [| c s IH]; intros [| k] acc rest Hf;
    cbn [String.length] in Hf; try lia.
  - reflexivity.
  - cbn [escape]. rewrite NumFacts.app_assoc, escape_char_step.
    rewrite IH by lia. reflexivity.
Qed.

(** A quoted string is read back as the string. *)
Lemma parse_string_escape s rest :
  parse_string (escape s ++ String "034"%char rest) = Some (s, rest).
Proof.
  unfold parse_string. rewrite parse_chars_escape.
  - change (Str.rev_onto s EmptyString) with (Str.rev s).
    now rewrite NumFacts.rev_involutive.
  - rewrite length_app. pose proof (escape_length s). cbn [String.length]. lia.
Qed.

(** *** White space *)

Lemma skip_ws_idempotent s : skip_ws (skip_ws s) = skip_ws s.
Proof.
  unfold skip_ws. induction s as [| c s IH]; [reflexivity |].
  cbn [Str.drop_while]. destruct (is_ws c) eqn:Hc; [exact IH |].
  cbn [Str.drop_while]. now rewrite Hc.
Qed.

(** The three readers look at their text from its first character that is
    not white space. *)
Lemma parse_value_from fuel s t :
  skip_ws s = skip_ws t -> parse_value fuel s = parse_value fuel t.
Proof.
  intros Hst. destruct fuel as [| k]; [reflexivity |].
  cbn [parse_value]. now rewrite Hst.
Qed.

Lemma parse_elements_from fuel s t acc :
  skip_ws s = skip_ws t -> parse_elements fuel s acc = parse_elements fuel t acc.
Proof.
  intros Hst. destruct fuel as [| k]; [reflexivity |].
  cbn [parse_elements]. now rewrite (parse_value_from k s t Hst).
Qed.

Lemma parse_members_from fuel s t acc :
  skip_ws s = skip_ws t -> parse_members fuel s acc = parse_members fuel t acc.
Proof.
  intros Hst. destruct fuel as [| k]; [reflexivity |].
  cbn [parse_members]. now rewrite Hst.
Qed.

(** *** One step of each reader *)

Lemma parse_value_quote k X :
  parse_value (S k) (String "034"%char X)
  = match parse_string X with
    | Some (x, r') => Some (JStr x, r')
    | None => None
    end.
Proof. reflexivity. Qed.

Lemma parse_value_bracket k Y :
  parse_value (S k) (String "["%char Y)
  = match skip_ws Y with
    | String "]"%char r' => Some (JArr [], r')
    | r1 => parse_elements k r1 []
    end.
Proof. reflexivity. Qed.

Lemma parse_value_brace k Y :
  parse_value (S k) (String "{"%char Y)
  = match skip_ws Y with
    | String "}"%char r' => Some (JObj [], r')
    | r1 => parse_members k r1 []
    end.
Proof. reflexivity. Qed.

Lemma parse_elements_more k s x R acc :
  parse_value k s = Some (x, String ","%char R) ->
  parse_elements (S k) s acc = parse_elements k R (x :: acc).
Proof. intros Hx. cbn [parse_elements]. now rewrite Hx. Qed.

Lemma parse_elements_last k s x Z rest acc :
  parse_value k s = Some (x, Z) ->
  skip_ws Z = String "]"%char rest ->
  parse_elements (S k) s acc = Some (JArr (List.rev (x :: acc)), rest).
Proof. intros Hx HZ. cbn [parse_elements]. now rewrite Hx, HZ. Qed.

Lemma parse_members_colon k key X acc :
  parse_members (S k) (quote key ++ ": " ++ X) acc
  = match parse_value k X with
    | Some (v, r3) =>
        match skip_ws r3 with
        | String ","%char r4 => parse_members k r4 (JS.set key v acc)
        | String "}"%char r4 => Some (JObj (JS.set key v acc), r4)
        | _ => None
        end
    | None => None
    end.
Proof.
  unfold quote.
  rewrite NumFacts.app_cons, NumFacts.app_assoc, NumFacts.app_cons,
    NumFacts.app_nil_l.
  cbn [parse_members].
  change (skip_ws (String "034"%char ?r)) with (String "034"%char r).
  cbv iota beta. rewrite parse_string_escape.
  change (": " ++ X) with (String ":"%char (String " "%char X)).
  change (skip_ws (String ":"%char ?r)) with (String ":"%char r).
  cbv iota beta.
  now rewrite (parse_value_from k (String " "%char X) X) by reflexivity.
Qed.

(** *** The text of arrays and objects *)

Lemma join_cons sep a b l : join sep (a :: b :: l) = a ++ sep ++ join sep (b :: l).
Proof. reflexivity. Qed.

Lemma stringify_arr ind x l :
  stringify_at ind (JArr (x :: l))
  = "[" ++ newline ++ (ind ++ "  ")
      ++ join ("," ++ newline ++ (ind ++ "  "))
           (List.map (stringify_at (ind ++ "  ")) (x :: l))
      ++ newline ++ ind ++ "]".
Proof. reflexivity. Qed.

Lemma members_of ind ps :
  forallb (fun kv : string * JSValue => let '(_, x) := kv in textual x) ps = true ->
  (fix go (ps : list (string * JSValue)) : list string :=
     match ps with
     | [] => []
     | (_, JUndefined) :: r => go r
     | (k, x) :: r => (quote k ++ ": " ++ stringify_at ind x) :: go r
     end) ps
  = List.map (fun kv => quote (fst kv) ++ ": " ++ stringify_at ind (snd kv)) ps.
Proof.
  induction ps as [| [k x] ps IH]; [reflexivity |].
  cbn [forallb List.map fst snd]. intros [Hx Hps]%andb_true_iff.
  rewrite <- (IH Hps). now destruct x.
Qed.

Lemma stringify_obj ind kx ps :
  forallb (fun kv : string * JSValue => let '(_, x) := kv in textual x) (kx :: ps)
  = true ->
  stringify_at ind (JObj (kx :: ps))
  = "{" ++ newline ++ (ind ++ "  ")
      ++ join ("," ++ newline ++ (ind ++ "  "))
           (List.map (fun kv => quote (fst kv) ++ ": "
                                  ++ stringify_at (ind ++ "  ") (snd kv))
              (kx :: ps))
      ++ newline ++ ind ++ "}".
Proof.
  intros Hall. rewrite <- (members_of (ind ++ "  ") (kx :: ps) Hall).
  destruct kx as [k x]. cbn [forallb] in Hall.
  apply andb_true_iff in Hall as [Hx _]. now destruct x.
Qed.

Lemma parse_members_last k key X x Z rest acc :
  parse_value k X = Some (x, Z) ->
  skip_ws Z = String "}"%char rest ->
  parse_members (S k) (quote key ++ ": " ++ X) acc
  = Some (JObj (JS.set key x acc), rest).
Proof. intros Hx HZ. now rewrite parse_members_colon, Hx, HZ. Qed.

Lemma parse_members_more k key X x R acc :
  parse_value k X = Some (x, String ","%char R) ->
  parse_members (S k) (quote key ++ ": " ++ X) acc
  = parse_members k R (JS.set key x acc).
Proof. intros Hx. now rewrite parse_members_colon, Hx. Qed.

Lemma parse_value_bracket_items k Y W :
  skip_ws Y = skip_ws W ->
  (exists c R, skip_ws W = String c R /\ Ascii.eqb c "]"%char = false) ->
  parse_value (S k) (String "["%char Y) = parse_elements k W [].
Proof.
  intros HY (c & R & HW & Hc). rewrite parse_value_bracket, HY, HW.
  transitivity (parse_elements k (String c R) []).
  - revert Hc. NumFacts.by_bits c.
  - apply parse_elements_from. rewrite <- HW. apply skip_ws_idempotent.
Qed.

Lemma parse_value_brace_members k Y W :
  skip_ws Y = skip_ws W ->
  (exists R, skip_ws W = String "034"%char R) ->
  parse_value (S k) (String "{"%char Y) = parse_members k W [].
Proof.
  intros HY (R & HW). rewrite parse_value_brace, HY, HW.
  transitivity (parse_members k (String "034"%char R) []); [reflexivity |].
  apply parse_members_from. rewrite <- HW. apply skip_ws_idempotent.
Qed.

Lemma join_head sep a l Z : exists Z', join sep (a :: l) ++ Z = a ++ Z'.
Proof.
  destruct l as [| b l]; [now exists Z |].
  rewrite join_cons, !NumFacts.app_assoc. now eexists.
Qed.

Lemma stringify_head ind v :
  textual v = true ->
  exists c r, stringify_at ind v = String c r
              /\ is_ws c = false /\ Ascii.eqb c "]"%char = false.
Proof.
  destruct v as [| | [|] | n | s | [| x l] | [| kx ps]]; cbn [textual];
    try discriminate; intros Hv.
  - now exists "n"%char, "ull".
  - now exists "t"%char, "rue".
  - now exists "f"%char, "alse".
  - eexists "034"%char, _. split; [reflexivity | now split].
  - now exists "["%char, "]".
  - rewrite stringify_arr. eexists "["%char, _. split; [reflexivity | now split].
  - now exists "{"%char, "}".
  - apply andb_true_iff in Hv as [Hall _]. rewrite (stringify_obj _ _ _ Hall).
    eexists "{"%char, _. split; [reflexivity | now split].
Qed.

Lemma set_fresh k v acc :
  k ∉ List.map fst acc -> JS.set k v acc = (acc ++ [(k, v)])%list.
Proof.
  induction acc as [| [k' v'] acc IH]; [reflexivity |].
  cbn [List.map fst JS.set]. intros Hk.
  apply not_elem_of_cons in Hk as [Hne Hk].
  destruct (String.eqb_spec k' k) as [-> | _]; [congruence |].
  cbn [app]. now rewrite IH.
Qed.

Section Reading.

(** The indentation is white space. *)
Let blank (ind : string) : Prop := forall x, skip_ws (ind ++ x) = skip_ws x.

(** What is known of the parts of a value when the value is read. *)
Let reads_back (v : JSValue) : Prop :=
  textual v = true ->
  forall ind rest fuel,
    blank ind -> (size v <= fuel)%nat ->
    parse_value fuel (stringify_at ind v ++ rest) = Some (v, rest).

Lemma blank_inner ind : blank ind -> blank (ind ++ "  ").
Proof.
  intros Hind x. rewrite NumFacts.app_assoc, Hind. reflexivity.
Qed.

Lemma skip_line ind x : blank ind -> skip_ws (newline ++ ind ++ x) = skip_ws x.
Proof. intros Hind. rewrite <- (Hind x). reflexivity. Qed.

Lemma parse_elements_items ind inner rest l :
  blank ind -> blank inner ->
  Forall reads_back l ->
  forallb textual l = true ->
  l <> [] ->
  forall acc fuel,
    (list_sum (List.map (fun x => S (size x)) l) <= fuel)%nat ->
    parse_elements fuel
      (join ("," ++ newline ++ inner) (List.map (stringify_at inner) l)
         ++ newline ++ ind ++ "]" ++ rest) acc
    = Some (JArr (List.rev acc ++ l), rest).
Proof.
  intros Hind Hinner HP.
  induction HP as [| x l Hx HPl IH]; [congruence |].
  intros Hall _ acc fuel Hfuel.
  cbn [forallb] in Hall. apply andb_true_iff in Hall as [Htx Hall].
  cbn [List.map] in Hfuel.
  change (list_sum (?a :: ?r)) with (a + list_sum r)%nat in Hfuel.
  destruct fuel as [| k]; [lia |].
  destruct l as [| y l'].
  - cbn [List.map join].
    rewrite (parse_elements_last k _ x (newline ++ ind ++ "]" ++ rest) rest).
    + reflexivity.
    + apply (Hx Htx); [exact Hinner | lia].
    + now rewrite (skip_line ind _ Hind).
  - cbn [List.map]. rewrite join_cons, !NumFacts.app_assoc.
    erewrite parse_elements_more;
      [| rewrite NumFacts.app_cons, NumFacts.app_nil_l;
         apply (Hx Htx); [exact Hinner | lia]].
    erewrite parse_elements_from; [| apply (skip_line inner _ Hinner)].
    rewrite IH; [| exact Hall | discriminate | lia].
    cbn [List.rev]. now rewrite <- List.app_assoc.
Qed.

Lemma parse_members_items ind inner rest ps :
  blank ind -> blank inner ->
  Forall (fun kv => reads_back (snd kv)) ps ->
  forallb (fun kv : string * JSValue => let '(_, x) := kv in textual x) ps = true ->
  ps <> [] ->
  forall acc fuel,
    NoDup (List.map fst (acc ++ ps)) ->
    (list_sum (List.map (fun kv : string * JSValue => let '(_, x) := kv in S (size x)) ps)
     <= fuel)%nat ->
    parse_members fuel
      (join ("," ++ newline ++ inner)
         (List.map (fun kv => quote (fst kv) ++ ": " ++ stringify_at inner (snd kv)) ps)
         ++ newline ++ ind ++ "}" ++ rest) acc
    = Some (JObj (acc ++ ps), rest).
Proof.
  intros Hind Hinner HP.
  induction HP as [| [key x] ps Hx HPs IH]; [congruence |].
  intros Hall _ acc fuel Hdup Hfuel.
  cbn [forallb] in Hall. apply andb_true_iff in Hall as [Htx Hall].
  cbn [List.map] in Hfuel.
  change (list_sum (?a :: ?r)) with (a + list_sum r)%nat in Hfuel.
  cbn [snd] in Hx.
  assert (Hfresh : JS.set key x acc = (acc ++ [(key, x)])%list).
  { apply set_fresh. rewrite List.map_app in Hdup. cbn [List.map fst] in Hdup.
    apply NoDup_app in Hdup as (_ & Hdisj & _). intros Hin.
    apply (Hdisj key Hin). now left. }
  destruct fuel as [| k]; [lia |].
  destruct ps as [| kx' ps'].
  - cbn [List.map join fst snd]. rewrite !NumFacts.app_assoc.
    rewrite (parse_members_last k key _ x (newline ++ ind ++ "}" ++ rest) rest).
    + now rewrite Hfresh.
    + apply (Hx Htx); [exact Hinner | lia].
    + now rewrite (skip_line ind _ Hind).
  - cbn [List.map fst snd]. rewrite join_cons, !NumFacts.app_assoc.
    erewrite parse_members_more;
      [| rewrite NumFacts.app_cons, NumFacts.app_nil_l;
         apply (Hx Htx); [exact Hinner | lia]].
    erewrite parse_members_from; [| apply (skip_line inner _ Hinner)].
    rewrite Hfresh.
    rewrite IH; [| exact Hall | discriminate | | lia].
    + now rewrite <- List.app_assoc.
    + now rewrite <- List.app_assoc.
Qed.

(** A textual value, written at any indentation and followed by any text,
    is read back as the value, and that text is what is left. *)
Lemma parse_value_stringify_at v : reads_back v.
Proof.
  induction v as [| | b | n | s | l IHl | ps IHps] using JSValue_nested_ind;
    intros Htext ind rest fuel Hind Hfuel; try discriminate;
    (destruct fuel as [| k]; [cbn [size] in Hfuel; lia |]).
  - reflexivity.
  - now destruct b.
  - cbn [stringify_at]. unfold quote.
    rewrite NumFacts.app_cons, NumFacts.app_assoc, NumFacts.app_cons,
      NumFacts.app_nil_l.
    now rewrite parse_value_quote, parse_string_escape.
  - destruct l as [| x l]; [reflexivity |].
    cbn [textual] in Htext. cbn [size] in Hfuel.
    rewrite stringify_arr.
    pose proof (blank_inner ind Hind) as Hinner.
    remember (ind ++ "  ") as inner eqn:Einner. clear Einner.
    rewrite !NumFacts.app_assoc, NumFacts.app_cons, NumFacts.app_nil_l.
    erewrite parse_value_bracket_items.
    + rewrite (parse_elements_items ind inner rest (x :: l));
        try assumption; [reflexivity | discriminate | lia].
    + apply (skip_line inner _ Hinner).
    + cbn [forallb] in Htext. apply andb_true_iff in Htext as [Htx _].
      destruct (stringify_head inner x Htx) as (c & r & Hc & Hws & Hnb).
      destruct (join_head ("," ++ newline ++ inner) (stringify_at inner x)
                  (List.map (stringify_at inner) l)
                  (newline ++ ind ++ "]" ++ rest)) as [Z' HZ'].
      exists c, (r ++ Z'). split; [| exact Hnb].
      cbn [List.map]. rewrite HZ', Hc, NumFacts.app_cons.
      unfold skip_ws. cbn [Str.drop_while]. now rewrite Hws.
  - destruct ps as [| kx ps]; [reflexivity |].
    cbn [textual] in Htext. apply andb_true_iff in Htext as [Hall Hdup].
    apply bool_decide_eq_true in Hdup. cbn [size] in Hfuel.
    rewrite (stringify_obj _ _ _ Hall).
    pose proof (blank_inner ind Hind) as Hinner.
    remember (ind ++ "  ") as inner eqn:Einner. clear Einner.
    rewrite !NumFacts.app_assoc, NumFacts.app_cons, NumFacts.app_nil_l.
    erewrite parse_value_brace_members.
    + rewrite (parse_members_items ind inner rest (kx :: ps));
        try assumption; [reflexivity | discriminate | lia].
    + apply (skip_line inner _ Hinner).
    + destruct (join_head ("," ++ newline ++ inner)
                  (quote (fst kx) ++ ": " ++ stringify_at inner (snd kx))
                  (List.map (fun kv => quote (fst kv) ++ ": "
                                         ++ stringify_at inner (snd kv)) ps)
                  (newline ++ ind ++ "}" ++ rest)) as [Z' HZ'].
      eexists. cbn [List.map]. rewrite HZ'. unfold quote.
      rewrite !NumFacts.app_cons. reflexivity.
Qed.

End Reading.

(** *** The fuel suffices *)

Lemma join_length sep l :
  (1 <= String.length sep)%nat ->
  (list_sum (List.map (fun a => S (String.length a)) l)
   <= String.length (join sep l) + 1)%nat.
Proof.
  intros Hsep. induction l as [| a [| b l] IH]; [cbn; lia | cbn; lia |].
  rewrite join_cons, !length_app. cbn [List.map].
  change (list_sum (?x :: ?r)) with (x + list_sum r)%nat.
  cbn [List.map] in IH. lia.
Qed.

Lemma size_le_length v :
  textual v = true ->
  forall ind, (size v <= String.length (stringify_at ind v))%nat.
Proof.
  induction v as [| | b | n | s | l IHl | ps IHps] using JSValue_nested_ind;
    intros Htext ind; try discriminate.
  - cbn. lia.
  - destruct b; cbn; lia.
  - cbn [size stringify_at]. unfold quote. cbn [String.length].
    rewrite length_app. cbn [String.length]. lia.
  - destruct l as [| x l]; [cbn; lia |].
    rewrite stringify_arr. remember (ind ++ "  ") as inner eqn:Einner.
    rewrite !length_app. unfold newline. cbn [String.length size].
    cbn [textual] in Htext.
    pose proof (join_length ("," ++ String "010"%char EmptyString ++ inner)
                  (List.map (stringify_at inner) (x :: l))) as Hjoin.
    rewrite !length_app in Hjoin. cbn [String.length] in Hjoin.
    assert (Hsum : (list_sum (List.map (fun y => S (size y)) (x :: l))
                    <= list_sum (List.map (fun a => S (String.length a))
                                   (List.map (stringify_at inner) (x :: l))))%nat).
    { clear Hjoin. revert Htext.
      induction IHl as [| y ys Hy _ IH]; [reflexivity |].
      cbn [forallb List.map]. intros [Hty Htys]%andb_true_iff.
      change (list_sum (?a :: ?r)) with (a + list_sum r)%nat.
      specialize (IH Htys). specialize (Hy Hty inner). lia. }
    lia.
  - destruct ps as [| kx ps]; [cbn; lia |].
    cbn [textual] in Htext. apply andb_true_iff in Htext as [Hall _].
    rewrite (stringify_obj _ _ _ Hall). remember (ind ++ "  ") as inner eqn:Einner.
    rewrite !length_app. unfold newline. cbn [String.length size].
    pose proof (join_length ("," ++ String "010"%char EmptyString ++ inner)
                  (List.map (fun kv => quote (fst kv) ++ ": "
                                         ++ stringify_at inner (snd kv))
                     (kx :: ps))) as Hjoin.
    rewrite !length_app in Hjoin. cbn [String.length] in Hjoin.
    assert (Hsum : (list_sum (List.map (fun kv : string * JSValue =>
                                          let '(_, y) := kv in S (size y))
                                (kx :: ps))
                    <= list_sum (List.map (fun a => S (String.length a))
                                   (List.map (fun kv => quote (fst kv) ++ ": "
                                                ++ stringify_at inner (snd kv))
                                      (kx :: ps))))%nat).
    { clear Hjoin. revert Hall.
      induction IHps as [| [key y] ys Hy _ IH]; [reflexivity |].
      cbn [forallb List.map fst snd]. intros [Hty Htys]%andb_true_iff.
      change (list_sum (?a :: ?r)) with (a + list_sum r)%nat.
      specialize (IH Htys). specialize (Hy Hty inner).
      rewrite !length_app. cbn [snd] in Hy. lia. }
    lia.
Qed.

(** [JSON.parse(JSON.stringify(v, null, 2))] is [v] for a textual [v]. *)
Lemma parse_stringify v : textual v = true -> parse (stringify v) = Ok v.
Proof.
  intros Htext. unfold parse, stringify.
  pose proof (parse_value_stringify_at v Htext EmptyString EmptyString) as Hread.
  rewrite NumFacts.app_nil_r in Hread. rewrite Hread; [reflexivity | now intros x |].
  pose proof (size_le_length v Htext EmptyString). lia.
Qed.

End JsonFacts.

(** ** The stored session *)

Module SessionFacts.
Import Verify Auth Examples.

Lemma session_textual t u d : JsonShape.textual (Store.AuthSession t u d) = true.
Proof. reflexivity. Qed.

(** Reading a session file that holds JSON gives the value written there. *)
Lemma getAuthSession_content fs text v :
  Store.file_at fs Store.AUTH_FILE = Store.Content text ->
  JSON.parse text = Ok v ->
  Store.getAuthSession fs = (Ok v, fs).
Proof.
  intros Hfile Hparse.
  unfold Store.getAuthSession, Store.bind at 1.
  assert (Hdir : exists d, Store.botid_dir fs = Some d).
  { unfold Store.file_at in Hfile. destruct (Store.botid_dir fs) as [d |];
      [now exists d | discriminate]. }
  destruct Hdir as [d Hd]. rewrite (StoreFacts.ensureDir_present fs d Hd).
  unfold Store.bind, Store.existsSync, Store.try_catch, Store.readFileSync,
    Store.lift, Store.ret.
  rewrite Hfile. cbn [negb]. cbv beta iota zeta. rewrite Hfile.
  cbv beta iota zeta. now rewrite Hparse.
Qed.

(** X20.  A session that has been saved is the session that is read:
    [getAuthSession] after [saveAuthSession(s)] gives [s] back, whatever
    characters the token, the URL and the date hold. *)
Theorem saved_session_is_read_back
    (accessToken apiUrl authenticatedAt : string) (fs : Store.FS) :
  Store.writable Store.AUTH_FILE fs ->
  exists fs',
    Store.saveAuthSession
      (Store.AuthSession accessToken apiUrl authenticatedAt) fs = (Ok tt, fs')
    /\ Store.getAuthSession fs'
       = (Ok (Store.AuthSession accessToken apiUrl authenticatedAt), fs').
Proof.
  intros Hw.
  destruct (StoreFacts.saveAuthSession_writable
              (Store.AuthSession accessToken apiUrl authenticatedAt) fs Hw)
    as (fs' & Hsave & Hfile & _).
  exists fs'. split; [exact Hsave |].
  apply (getAuthSession_content fs' _ _ Hfile).
  apply JsonFacts.parse_stringify, session_textual.
Qed.

Lemma login_resolved_file apiUrl onOpen env w token w' :
  deviceLogin apiUrl onOpen env w = (Resolved token, w') ->
  Store.file_at (files w') Store.AUTH_FILE
  = Store.Content
      (JSON.stringify
         (Store.AuthSession token (normalizeUrl apiUrl)
            (Date.toISOString (clock w')))).
Proof.
  unfold deviceLogin.
  destruct (requestDeviceCode (code_answer env)) as [code | e]; [| discriminate].
  intros Hrun. now apply AuthMore.poll_loop_outcome in Hrun as (_ & _ & Hfile).
Qed.

Lemma session_queries (asked : option string) fs token url date :
  Store.getAuthSession fs = (Ok (Store.AuthSession token url date), fs) ->
  let same :=
    match asked with
    | Some u => negb (Str.truthy u) || String.eqb url u
    | None => true
    end in
  isLoggedIn asked fs = (Ok same, fs)
  /\ getAccessToken asked fs
     = (Ok (if same then JStr token else JUndefined), fs).
Proof.
  intros Hsession same. subst same.
  unfold isLoggedIn, getAccessToken, Store.bind at 1 3. rewrite Hsession.
  cbn [JS.truthy Store.AuthSession negb].
  unfold Store.bind, Store.lift, Store.ret, other_registry.
  destruct asked as [[| c u] |]; try (now split).
  cbn [Str.truthy negb orb Exn.bind JS.get JS.lookup differs].
  cbn. now destruct (String.eqb url (String c u)).
Qed.

(** X21.  After a login, [isLoggedIn] and [getAccessToken] find the session
    when they are asked without a URL, with an empty one, or with exactly
    the normalised URL of the login, and [getAccessToken] then returns the
    token; asked with any other URL (the same URL with a slash at its end,
    say) they answer [false] and [undefined]. *)
Theorem login_then_session_is_found
    (apiUrl : option string) (onOpen : bool) (env : Environment) (w w' : World)
    (token : string) (asked : option string) :
  deviceLogin apiUrl onOpen env w = (Resolved token, w') ->
  let same :=
    match asked with
    | Some u => negb (Str.truthy u) || String.eqb (normalizeUrl apiUrl) u
    | None => true
    end in
  isLoggedIn asked (files w') = (Ok same, files w')
  /\ getAccessToken asked (files w')
     = (Ok (if same then JStr token else JUndefined), files w').
Proof.
  intros Hrun. apply session_queries with (date := Date.toISOString (clock w')).
  apply (getAuthSession_content _ _ _ (login_resolved_file _ _ _ _ _ _ Hrun)).
  apply JsonFacts.parse_stringify, session_textual.
Qed.

(** X22.  Where the process may write and the session file, if there, is
    open to it, [logout] removes the session file and nothing else, and
    tells whether there was one; afterwards [isLoggedIn] answers [false],
    [getAccessToken] [undefined], and a second [logout] [false]. *)
Theorem logout_removes_session (fs : Store.FS) :
  Store.writable Store.AUTH_FILE fs ->
  exists fs',
    logout fs
    = (Ok match Store.file_at fs Store.AUTH_FILE with
          | Store.Missing => false
          | _ => true
          end, fs')
    /\ Store.file_at fs' Store.AUTH_FILE = Store.Missing
    /\ Store.file_at fs' Store.CREDENTIALS_FILE
       = Store.file_at fs Store.CREDENTIALS_FILE
    /\ (forall asked,
          fst (isLoggedIn asked fs') = Ok false
          /\ fst (getAccessToken asked fs') = Ok JUndefined)
    /\ logout fs' = (Ok false, fs').
Proof.
  intros [Hrw _]. unfold logout, Store.clearAuthSession, Store.bind, Store.existsSync,
    Store.unlinkSync, Store.ret.
  destruct fs as [[[cred auth] |] ro]; cbn in Hrw; subst ro.
  - destruct auth; cbn; eexists; (split; [reflexivity |]);
      (split; [reflexivity |]); (split; [reflexivity |]);
      (split; [intros asked; now split | reflexivity]).
  - cbn. eexists. split; [reflexivity |]. split; [reflexivity |].
    split; [reflexivity |]. split; [intros asked; now split | reflexivity].
Qed.

(** X23.  The two questions agree: whenever [getAccessToken] returns
    something, for the same argument and files [isLoggedIn] answers
    [true]. *)
Theorem token_means_logged_in
    (asked : option string) (fs fs' : Store.FS) (token : JSValue) :
  getAccessToken asked fs = (Ok token, fs') ->
  token <> JUndefined ->
  isLoggedIn asked fs = (Ok true, fs').
Proof.
  unfold getAccessToken, isLoggedIn, Store.bind, Store.ret, Store.lift.
  destruct (Store.getAuthSession fs) as [[session | e] fs1]; [| discriminate].
  destruct (negb (JS.truthy session)); [intros [= <- <-]; congruence |].
  destruct (other_registry asked session) as [[|] | e]; try discriminate.
  - intros [= <- <-]; congruence.
  - now intros [= _ <-].
Qed.

Lemma saved_session_is_read_back_witness :
  exists fs',
    Store.saveAuthSession
      (Store.AuthSession "token_xyz" "https://botid.net"
         "2023-11-14T22:13:20.325Z") (files fresh_world) = (Ok tt, fs')
    /\ Store.getAuthSession fs'
       = (Ok (Store.AuthSession "token_xyz" "https://botid.net"
                "2023-11-14T22:13:20.325Z"), fs').
Proof.
  apply (saved_session_is_read_back "token_xyz" "https://botid.net"
           "2023-11-14T22:13:20.325Z" (files fresh_world)).
  split; [reflexivity | discriminate].
Defined.

Lemma login_then_session_is_found_witness :
  let w' := snd (deviceLogin (Some "https://botid.net/") true
                   example_environment fresh_world) in
  isLoggedIn (Some "https://botid.net/") (files w') = (Ok false, files w')
  /\ getAccessToken (Some "https://botid.net/") (files w')
     = (Ok JUndefined, files w').
Proof.
  intros w'.
  apply (login_then_session_is_found (Some "https://botid.net/") true
           example_environment fresh_world w' "token_xyz"
           (Some "https://botid.net/")).
  reflexivity.
Defined.

Lemma logout_removes_session_witness :
  let fs := Store.botid_with Store.Missing (Store.Content "{}") in
  exists fs',
    logout fs = (Ok true, fs')
    /\ Store.file_at fs' Store.AUTH_FILE = Store.Missing
    /\ Store.file_at fs' Store.CREDENTIALS_FILE
       = Store.file_at fs Store.CREDENTIALS_FILE
    /\ (forall asked,
          fst (isLoggedIn asked fs') = Ok false
          /\ fst (getAccessToken asked fs') = Ok JUndefined)
    /\ logout fs' = (Ok false, fs').
Proof.
  intros fs. apply (logout_removes_session fs).
  split; [reflexivity | discriminate].
Defined.

Lemma token_means_logged_in_witness :
  let fs := Store.botid_with Store.Missing
              (Store.Content
                 (JSON.stringify
                    (Store.AuthSession "token_xyz" "https://botid.net"
                       "2023-11-14T22:13:20.325Z"))) in
  isLoggedIn (Some "https://botid.net") fs = (Ok true, fs).
Proof.
  intros fs.
  apply (token_means_logged_in (Some "https://botid.net") fs fs (JStr "token_xyz"));
    [vm_compute; reflexivity | discriminate].
Defined.

End SessionFacts.

(** ** The stored credentials *)

Module CredentialFacts.
Import Store JsonShape.

(** *** Property lists *)

Lemma lookup_set_same k v ps : JS.lookup k (JS.set k v ps) = Some v.
Proof.
  induction ps as [| [k' v'] ps IH]; cbn [JS.set JS.lookup].
  - now rewrite String.eqb_refl.
  - destruct (String.eqb k' k) eqn:E; cbn [JS.lookup]; rewrite ?String.eqb_refl, ?E;
      [reflexivity | exact IH].
Qed.

Lemma lookup_set_other k k' v ps :
  k' <> k -> JS.lookup k' (JS.set k v ps) = JS.lookup k' ps.
Proof.
  intros Hne. induction ps as [| [k0 v0] ps IH]; cbn [JS.set JS.lookup].
  - destruct (String.eqb_spec k k'); [congruence | reflexivity].
  - destruct (String.eqb_spec k0 k) as [-> | Hk0]; cbn [JS.lookup].
    + destruct (String.eqb_spec k k'); [congruence | reflexivity].
    + destruct (String.eqb k0 k'); [reflexivity | exact IH].
Qed.

Lemma keys_set k v ps :
  List.map fst (JS.set k v ps)
  = if JS.has_own k ps then List.map fst ps else (List.map fst ps ++ [k])%list.
Proof.
  unfold JS.has_own. induction ps as [| [k' v'] ps IH]; [reflexivity |].
  cbn [JS.set JS.lookup]. destruct (String.eqb_spec k' k) as [-> | Hne];
    [reflexivity |].
  cbn [List.map fst]. rewrite IH. now destruct (JS.lookup k ps).
Qed.

Lemma has_own_keys k ps : JS.has_own k ps = true <-> k ∈ List.map fst ps.
Proof.
  unfold JS.has_own. induction ps as [| [k' v'] ps IH]; cbn [JS.lookup List.map fst].
  - split; [discriminate | intros H; inversion H].
  - destruct (String.eqb_spec k' k) as [-> | Hne].
    + split; [intros _; apply elem_of_cons; now left | reflexivity].
    + rewrite IH, elem_of_cons. split; [now right | intros [-> | H]; congruence].
Qed.

Lemma set_textual k v ps :
  textual (JObj ps) = true -> textual v = true -> textual (JObj (JS.set k v ps)) = true.
Proof.
  cbn [textual]. intros [Hall Hdup]%andb_true_iff Hv.
  apply bool_decide_eq_true in Hdup. apply andb_true_iff. split.
  - clear Hdup. induction ps as [| [k' v'] ps IH]; cbn [JS.set forallb].
    + now rewrite Hv.
    + cbn [forallb] in Hall. apply andb_true_iff in Hall as [Hv' Hall].
      destruct (String.eqb k' k); cbn [forallb]; rewrite ?Hv, ?Hv', ?Hall;
        [reflexivity | now rewrite IH].
  - apply bool_decide_eq_true. rewrite keys_set.
    destruct (JS.has_own k ps) eqn:Hown; [exact Hdup |].
    apply NoDup_app. split; [exact Hdup |]. split; [| apply NoDup_singleton].
    intros x Hx Hin. apply list_elem_of_singleton in Hin as ->.
    apply has_own_keys in Hx. congruence.
Qed.

Lemma lookup_remove_same k ps : JS.lookup k (JS.remove k ps) = None.
Proof.
  induction ps as [| [k' v'] ps IH]; [reflexivity |]. cbn [JS.remove].
  destruct (String.eqb k' k) eqn:E; [exact IH |]. cbn [JS.lookup]. now rewrite E.
Qed.

Lemma lookup_remove_other k k' ps :
  k' <> k -> JS.lookup k' (JS.remove k ps) = JS.lookup k' ps.
Proof.
  intros Hne. induction ps as [| [k0 v0] ps IH]; [reflexivity |].
  cbn [JS.remove JS.lookup]. destruct (String.eqb_spec k0 k) as [-> | Hk0].
  - destruct (String.eqb_spec k k'); [congruence | exact IH].
  - cbn [JS.lookup]. destruct (String.eqb k0 k'); [reflexivity | exact IH].
Qed.

Lemma keys_remove k ps :
  List.map fst (JS.remove k ps)
  = List.filter (fun n => negb (String.eqb n k)) (List.map fst ps).
Proof.
  induction ps as [| [k' v'] ps IH]; [reflexivity |].
  cbn [JS.remove List.map fst List.filter].
  destruct (String.eqb k' k); cbn [negb List.map fst]; now rewrite IH.
Qed.

Lemma remove_textual k ps :
  textual (JObj ps) = true -> textual (JObj (JS.remove k ps)) = true.
Proof.
  cbn [textual]. intros [Hall Hdup]%andb_true_iff.
  apply bool_decide_eq_true in Hdup. apply andb_true_iff. split.
  - clear Hdup. induction ps as [| [k' v'] ps IH]; [reflexivity |].
    cbn [forallb] in Hall. apply andb_true_iff in Hall as [Hv' Hall].
    cbn [JS.remove]. destruct (String.eqb k' k); [now apply IH |].
    cbn [forallb]. now rewrite Hv', IH.
  - apply bool_decide_eq_true. rewrite keys_remove.
    clear Hall. induction Hdup as [| x l Hx Hl IH]; cbn [List.filter];
      [constructor |].
    destruct (negb (String.eqb x k)); [| exact IH].
    constructor; [| exact IH]. intros Hin. apply Hx.
    apply list_elem_of_In, List.filter_In in Hin as [Hin _].
    now apply list_elem_of_In.
Qed.

Lemma textual_member k v ps :
  textual (JObj ps) = true -> JS.lookup k ps = Some v -> textual v = true.
Proof.
  cbn [textual]. intros [Hall _]%andb_true_iff.
  induction ps as [| [k' v'] ps IH]; [discriminate |].
  cbn [forallb] in Hall. apply andb_true_iff in Hall as [Hv' Hall].
  cbn [JS.lookup]. destruct (String.eqb k' k); [now intros [= <-] | now apply IH].
Qed.

(** *** Reading and writing the credentials file *)

Lemma readStore_ok fs store fs1 :
  readStore fs = (Ok store, fs1) ->
  read_only fs1 = read_only fs
  /\ (forall p, file_at fs1 p = file_at fs p)
  /\ (exists d, botid_dir fs1 = Some d)
  /\ readStore fs1 = (Ok store, fs1).
Proof.
  unfold readStore, ensureDir, bind, existsSync_dir, mkdirSync, existsSync,
    try_catch, readFileSync, lift, ret.
  destruct fs as [[[cred auth] |] [|]]; cbn; try discriminate.
  - destruct cred as [| | text]; cbn;
      try (intros [= <- <-]; repeat split; eauto; fail).
    destruct (JSON.parse text) as [v | e] eqn:Hparse; intros [= <- <-];
      cbn; rewrite ?Hparse; repeat split; eauto.
  - destruct cred as [| | text]; cbn;
      try (intros [= <- <-]; repeat split; eauto; fail).
    destruct (JSON.parse text) as [v | e] eqn:Hparse; intros [= <- <-];
      cbn; rewrite ?Hparse; repeat split; eauto.
  - intros [= <- <-]. cbn. repeat split; eauto. now intros [].
Qed.

Lemma readStore_content fs text v :
  file_at fs CREDENTIALS_FILE = Content text ->
  JSON.parse text = Ok v ->
  readStore fs = (Ok v, fs).
Proof.
  intros Hfile Hparse. unfold readStore, bind at 1.
  assert (Hdir : exists d, botid_dir fs = Some d).
  { unfold file_at in Hfile. destruct (botid_dir fs) as [d |];
      [now exists d | discriminate]. }
  destruct Hdir as [d Hd]. rewrite (StoreFacts.ensureDir_present fs d Hd).
  unfold bind, existsSync, try_catch, readFileSync, lift, ret.
  rewrite Hfile. cbn [negb]. cbv beta iota zeta. rewrite Hfile.
  cbv beta iota zeta. now rewrite Hparse.
Qed.

Lemma writeStore_written store fs d :
  botid_dir fs = Some d -> read_only fs = false ->
  file_at fs CREDENTIALS_FILE <> Unreadable ->
  exists fs',
    writeStore store fs = (Ok tt, fs')
    /\ file_at fs' CREDENTIALS_FILE = Content (JSON.stringify store)
    /\ file_at fs' AUTH_FILE = file_at fs AUTH_FILE.
Proof.
  intros Hd Hrw Hfile. unfold writeStore, bind at 1.
  rewrite (StoreFacts.ensureDir_present fs d Hd).
  unfold writeFileSync. rewrite Hrw, Hd.
  destruct fs as [[[cred auth] |] ro]; [| discriminate].
  cbn in *. injection Hd as <-.
  destruct cred; [| congruence |]; eexists; repeat split.
Qed.

(** Writing a textual store and reading it gives the store. *)
Lemma written_store_is_read store fs fs1 :
  readStore fs = (Ok store, fs1) ->
  writable CREDENTIALS_FILE fs ->
  forall store',
    textual store' = true ->
    exists fs',
      writeStore store' fs1 = (Ok tt, fs')
      /\ readStore fs' = (Ok store', fs')
      /\ file_at fs' AUTH_FILE = file_at fs AUTH_FILE.
Proof.
  intros Hread [Hrw Hfile] store' Htext.
  destruct (readStore_ok _ _ _ Hread) as (Hro & Hsame & (d & Hd) & _).
  destruct (writeStore_written store' fs1 d Hd) as (fs' & Hwrite & Hcred & Hauth).
  - congruence.
  - now rewrite Hsame.
  - exists fs'. split; [exact Hwrite |]. split.
    + apply (readStore_content fs' _ _ Hcred).
      now apply JsonFacts.parse_stringify.
    + now rewrite Hauth, Hsame.
Qed.

Lemma get_agents store agents :
  JS.get store "agents" = Ok (JObj agents) ->
  exists ps, store = JObj ps /\ JS.lookup "agents" ps = Some (JObj agents).
Proof.
  destruct store as [| | b | n | s | l | ps]; cbn [JS.get]; try discriminate.
  destruct (JS.lookup "agents" ps) as [x |] eqn:Hx; [| discriminate].
  intros [= ->]. now exists ps.
Qed.

Lemma credentials_textual creds : textual (credentials_object creds) = true.
Proof. reflexivity. Qed.

Lemma getCredentials_of fs fs1 store agents name :
  readStore fs = (Ok store, fs1) ->
  JS.get store "agents" = Ok (JObj agents) ->
  getCredentials name fs = (Ok (default JUndefined (JS.lookup name agents)), fs1).
Proof.
  intros Hread Hget. unfold getCredentials, bind at 1. rewrite Hread.
  unfold bind, lift. rewrite Hget. cbn [JS.get].
  now destruct (JS.lookup name agents).
Qed.

Lemma listAgents_of fs fs1 store agents :
  readStore fs = (Ok store, fs1) ->
  JS.get store "agents" = Ok (JObj agents) ->
  listAgents fs = (Ok (List.map fst agents), fs1).
Proof.
  intros Hread Hget. unfold listAgents, bind at 1. rewrite Hread.
  unfold bind, lift. now rewrite Hget.
Qed.

(** What [saveCredentials] leaves in the file. *)
Lemma saveCredentials_store creds fs store fs1 agents :
  readStore fs = (Ok store, fs1) ->
  textual store = true ->
  JS.get store "agents" = Ok (JObj agents) ->
  writable CREDENTIALS_FILE fs ->
  name creds <> "__proto__" ->
  exists fs' store',
    saveCredentials creds fs = (Ok tt, fs')
    /\ readStore fs' = (Ok store', fs')
    /\ JS.get store' "agents"
       = Ok (JObj (JS.set (name creds) (credentials_object creds) agents))
    /\ file_at fs' AUTH_FILE = file_at fs AUTH_FILE.
Proof.
  intros Hread Htext Hget Hw Hname.
  destruct (get_agents _ _ Hget) as (ps & -> & Hlookup).
  set (agents' := JObj (JS.set (name creds) (credentials_object creds) agents)).
  assert (Htext' : textual (JObj (JS.set "agents" agents' ps)) = true).
  { apply set_textual; [exact Htext |]. apply set_textual.
    - exact (textual_member _ _ _ Htext Hlookup).
    - apply credentials_textual. }
  destruct (written_store_is_read _ _ _ Hread Hw _ Htext')
    as (fs' & Hwrite & Hback & Hauth).
  exists fs', (JObj (JS.set "agents" agents' ps)).
  split; [| split; [exact Hback | split; [| exact Hauth]]].
  - unfold saveCredentials, bind at 1. rewrite Hread.
    unfold bind at 1, lift. rewrite Hget.
    unfold bind, JS.assign.
    destruct (String.eqb_spec (name creds) "__proto__") as [E | _];
      [congruence |].
    cbn [andb with_agents]. exact Hwrite.
  - cbn [JS.get]. now rewrite lookup_set_same.
Qed.

(** X24.  Credentials that have been saved are the credentials that are
    read: after [saveCredentials(creds)], [getCredentials(creds.name)] gives
    the six fields of [creds] back, and every other name gives what it gave
    before.  The file is taken to hold nothing, or a store written with
    strings only; the name is not [__proto__]. *)
Theorem saved_credentials_are_found
    (creds : StoredCredentials) (fs fs1 : FS) (store : JSValue)
    (agents : list (string * JSValue)) :
  readStore fs = (Ok store, fs1) ->
  textual store = true ->
  JS.get store "agents" = Ok (JObj agents) ->
  writable CREDENTIALS_FILE fs ->
  name creds <> "__proto__" ->
  exists fs',
    saveCredentials creds fs = (Ok tt, fs')
    /\ getCredentials (name creds) fs' = (Ok (credentials_object creds), fs')
    /\ (forall other,
          other <> name creds ->
          getCredentials other fs' = (fst (getCredentials other fs), fs'))
    /\ file_at fs' AUTH_FILE = file_at fs AUTH_FILE.
Proof.
  intros Hread Htext Hget Hw Hname.
  destruct (saveCredentials_store creds fs store fs1 agents Hread Htext Hget Hw Hname)
    as (fs' & store' & Hsave & Hback & Hget' & Hauth).
  exists fs'. split; [exact Hsave |]. split; [| split; [| exact Hauth]].
  - rewrite (getCredentials_of _ _ _ _ _ Hback Hget').
    now rewrite lookup_set_same.
  - intros other Hother.
    rewrite (getCredentials_of _ _ _ _ other Hback Hget').
    rewrite (getCredentials_of _ _ _ _ other Hread Hget).
    now rewrite lookup_set_other.
Qed.

(** X25.  After [saveCredentials(creds)], [listAgents] lists the names it
    listed before and [creds.name], each once; before, it listed the names
    of the stored agents, each once.  The order of the lists is left open. *)
Theorem saved_agent_is_listed
    (creds : StoredCredentials) (fs fs1 : FS) (store : JSValue)
    (agents : list (string * JSValue)) :
  readStore fs = (Ok store, fs1) ->
  textual store = true ->
  JS.get store "agents" = Ok (JObj agents) ->
  writable CREDENTIALS_FILE fs ->
  name creds <> "__proto__" ->
  exists fs' before names,
    saveCredentials creds fs = (Ok tt, fs')
    /\ listAgents fs = (Ok before, fs1)
    /\ listAgents fs' = (Ok names, fs')
    /\ NoDup before /\ NoDup names
    /\ (forall n, n ∈ before <-> JS.has_own n agents = true)
    /\ (forall n, n ∈ names <-> n = name creds \/ n ∈ before).
Proof.
  intros Hread Htext Hget Hw Hname.
  destruct (saveCredentials_store creds fs store fs1 agents Hread Htext Hget Hw Hname)
    as (fs' & store' & Hsave & Hback & Hget' & Hauth).
  destruct (get_agents _ _ Hget) as (ps & -> & Hlookup).
  pose proof (textual_member _ _ _ Htext Hlookup) as Hagents.
  cbn [textual] in Hagents. apply andb_true_iff in Hagents as [_ Hdup].
  apply bool_decide_eq_true in Hdup.
  exists fs', (List.map fst agents),
    (List.map fst (JS.set (name creds) (credentials_object creds) agents)).
  split; [exact Hsave |].
  split; [exact (listAgents_of _ _ _ _ Hread Hget) |].
  split; [exact (listAgents_of _ _ _ _ Hback Hget') |].
  split; [exact Hdup |].
  assert (Hown : forall n, n ∈ List.map fst agents <-> JS.has_own n agents = true).
  { intros n. split; [intros Hn; now apply has_own_keys in Hn
                     | intros Hn; now apply has_own_keys]. }
  rewrite keys_set. destruct (JS.has_own (name creds) agents) eqn:Hhas.
  - split; [exact Hdup |]. split; [exact Hown |].
    intros n. split; [now right |].
    intros [-> | Hn]; [now apply has_own_keys | exact Hn].
  - split.
    + apply NoDup_app. split; [exact Hdup |]. split; [| apply NoDup_singleton].
      intros x Hx Hin. apply list_elem_of_singleton in Hin as ->.
      apply has_own_keys in Hx. congruence.
    + split; [exact Hown |].
      intros n. rewrite elem_of_app, list_elem_of_singleton. tauto.
Qed.

Lemma remove_absent k ps : JS.has_own k ps = false -> JS.remove k ps = ps.
Proof.
  unfold JS.has_own. induction ps as [| [k' v'] ps IH]; [reflexivity |].
  cbn [JS.lookup JS.remove]. destruct (String.eqb k' k); [discriminate |].
  intros Hk. now rewrite IH.
Qed.

Lemma set_same k v ps : JS.lookup k ps = Some v -> JS.set k v ps = ps.
Proof.
  induction ps as [| [k' v'] ps IH]; [discriminate |].
  cbn [JS.lookup JS.set]. destruct (String.eqb_spec k' k) as [-> | Hne].
  - now intros [= ->].
  - intros Hk. now rewrite IH.
Qed.

Section WithPrototypes.
Variable inherited : JSValue -> string -> bool.

(** X26.  [removeCredentials(name)] on a store written with strings only.
    When the name is stored, the answer is [true], the name is gone
    afterwards and every other name gives what it gave before.  When it is
    not stored, the answer is [false] and nothing is written, unless the
    name is one that every object inherits ([toString], say): then the
    answer is [true] although the store is as before. *)
Theorem removeCredentials_outcome
    (name : string) (fs fs1 : FS) (store : JSValue)
    (agents : list (string * JSValue)) :
  readStore fs = (Ok store, fs1) ->
  textual store = true ->
  JS.get store "agents" = Ok (JObj agents) ->
  writable CREDENTIALS_FILE fs ->
  (JS.has_own name agents = true ->
   exists fs' names,
     removeCredentials inherited name fs = (Ok true, fs')
     /\ (forall other,
           other <> name ->
           getCredentials other fs' = (fst (getCredentials other fs), fs'))
     /\ listAgents fs' = (Ok names, fs') /\ (name ∉ names)
     /\ (inherited (JObj (JS.remove name agents)) name = false ->
         getCredentials name fs' = (Ok JUndefined, fs'))
     /\ file_at fs' AUTH_FILE = file_at fs AUTH_FILE)
  /\ (JS.has_own name agents = false ->
      inherited (JObj agents) name = false ->
      removeCredentials inherited name fs = (Ok false, fs1))
  /\ (JS.has_own name agents = false ->
      inherited (JObj agents) name = true ->
      exists fs',
        removeCredentials inherited name fs = (Ok true, fs')
        /\ readStore fs' = (Ok store, fs')).
Proof.
  intros Hread Htext Hget Hw.
  destruct (get_agents _ _ Hget) as (ps & -> & Hlookup).
  pose proof (textual_member _ _ _ Htext Hlookup) as Hagents.
  assert (Hrun : forall present,
             JS.has_own name agents || inherited (JObj agents) name = present ->
             removeCredentials inherited name fs
             = if negb present then (Ok false, fs1)
               else
                 match writeStore
                         (JObj (JS.set "agents" (JObj (JS.remove name agents)) ps))
                         fs1 with
                 | (Ok _, fs') => (Ok true, fs')
                 | (Throw e, fs') => (Throw e, fs')
                 end).
  { intros present Hpresent. unfold removeCredentials, bind at 1. rewrite Hread.
    unfold bind at 1, lift. rewrite Hget.
    unfold bind at 1. cbn [JS.has]. rewrite Hpresent.
    destruct present; cbn [negb]; [| reflexivity].
    unfold bind, JS.delete, with_agents, ret.
    now destruct (writeStore _ fs1) as [[[] | e] fs']. }
  assert (Htext' : textual (JObj (JS.set "agents" (JObj (JS.remove name agents)) ps))
                   = true).
  { apply set_textual; [exact Htext | now apply remove_textual]. }
  destruct (written_store_is_read _ _ _ Hread Hw _ Htext')
    as (fs' & Hwrite & Hback & Hauth).
  assert (Hget' : JS.get (JObj (JS.set "agents" (JObj (JS.remove name agents)) ps))
                    "agents" = Ok (JObj (JS.remove name agents))).
  { cbn [JS.get]. now rewrite lookup_set_same. }
  split; [| split].
  - intros Hown. exists fs', (List.map fst (JS.remove name agents)).
    rewrite (Hrun true) by now rewrite Hown.
    cbn [negb]. rewrite Hwrite. split; [reflexivity |].
    split; [| split; [| split; [| split]]].
    + intros other Hother.
      rewrite (getCredentials_of _ _ _ _ other Hback Hget').
      rewrite (getCredentials_of _ _ _ _ other Hread Hget).
      now rewrite lookup_remove_other.
    + exact (listAgents_of _ _ _ _ Hback Hget').
    + intros Hin. apply has_own_keys in Hin. unfold JS.has_own in Hin.
      now rewrite lookup_remove_same in Hin.
    + intros _. rewrite (getCredentials_of _ _ _ _ name Hback Hget').
      now rewrite lookup_remove_same.
    + exact Hauth.
  - intros Hown Hin. rewrite (Hrun false) by now rewrite Hown, Hin. reflexivity.
  - intros Hown Hin. exists fs'. rewrite (Hrun true) by now rewrite Hown, Hin.
    cbn [negb]. rewrite Hwrite. split; [reflexivity |].
    rewrite Hback. now rewrite (remove_absent _ _ Hown), (set_same _ _ _ Hlookup).
Qed.

End WithPrototypes.

Lemma example_store_read :
  readStore Outcomes.example_store_files
  = (Ok (JObj [("agents",
                JObj [("other-agent",
                       JObj [("botId", JStr "bot_other");
                             ("privateKey", JStr "0b0b0b0b")])])]),
     Outcomes.example_store_files).
Proof. vm_compute. reflexivity. Qed.

Lemma example_store_writable :
  writable CREDENTIALS_FILE Outcomes.example_store_files.
Proof. split; [reflexivity | discriminate]. Qed.

Lemma saved_credentials_are_found_witness :
  exists fs',
    saveCredentials Outcomes.example_credentials Outcomes.example_store_files
    = (Ok tt, fs')
    /\ getCredentials "my-agent" fs'
       = (Ok (credentials_object Outcomes.example_credentials), fs')
    /\ (forall other,
          other <> "my-agent" ->
          getCredentials other fs'
          = (fst (getCredentials other Outcomes.example_store_files), fs'))
    /\ file_at fs' AUTH_FILE = file_at Outcomes.example_store_files AUTH_FILE.
Proof.
  apply (saved_credentials_are_found Outcomes.example_credentials _ _ _ _
           example_store_read eq_refl eq_refl example_store_writable).
  discriminate.
Defined.

Lemma saved_agent_is_listed_witness :
  exists fs' before names,
    saveCredentials Outcomes.example_credentials Outcomes.example_store_files
    = (Ok tt, fs')
    /\ listAgents Outcomes.example_store_files
       = (Ok before, Outcomes.example_store_files)
    /\ listAgents fs' = (Ok names, fs')
    /\ NoDup before /\ NoDup names
    /\ (forall n,
          n ∈ before
          <-> JS.has_own n
                [("other-agent",
                  JObj [("botId", JStr "bot_other");
                        ("privateKey", JStr "0b0b0b0b")])] = true)
    /\ (forall n, n ∈ names <-> n = "my-agent" \/ n ∈ before).
Proof.
  apply (saved_agent_is_listed Outcomes.example_credentials _ _ _ _
           example_store_read eq_refl eq_refl example_store_writable).
  discriminate.
Defined.

Lemma removeCredentials_outcome_witness :
  (exists fs' names,
      removeCredentials Outcomes.object_prototype_names "other-agent"
        Outcomes.example_store_files = (Ok true, fs')
      /\ (forall other,
            other <> "other-agent" ->
            getCredentials other fs'
            = (fst (getCredentials other Outcomes.example_store_files), fs'))
      /\ listAgents fs' = (Ok names, fs') /\ ("other-agent" ∉ names)
      /\ (Outcomes.object_prototype_names (JObj []) "other-agent" = false ->
          getCredentials "other-agent" fs' = (Ok JUndefined, fs'))
      /\ file_at fs' AUTH_FILE = file_at Outcomes.example_store_files AUTH_FILE)
  /\ removeCredentials Outcomes.object_prototype_names "nobody"
       Outcomes.example_store_files
     = (Ok false, Outcomes.example_store_files)
  /\ exists fs',
       removeCredentials Outcomes.object_prototype_names "toString"
         Outcomes.example_store_files = (Ok true, fs')
       /\ fst (readStore fs') = fst (readStore Outcomes.example_store_files).
Proof.
  split; [| split].
  - apply (removeCredentials_outcome Outcomes.object_prototype_names "other-agent"
             _ _ _ _ example_store_read eq_refl eq_refl example_store_writable).
    reflexivity.
  - apply (removeCredentials_outcome Outcomes.object_prototype_names "nobody"
             _ _ _ _ example_store_read eq_refl eq_refl example_store_writable);
      reflexivity.
  - destruct (proj2 (proj2
                (removeCredentials_outcome Outcomes.object_prototype_names
                   "toString" _ _ _ _ example_store_read eq_refl eq_refl
                   example_store_writable)) eq_refl eq_refl)
      as (fs' & Hrun & Hback).
    exists fs'. split; [exact Hrun |]. now rewrite Hback, example_store_read.
Defined.

End CredentialFacts.

(** ** Registering an agent *)

Module InitFacts.
Import Verify Init JsonShape.

Lemma readStore_files fs r fs1 :
  Store.readStore fs = (r, fs1) ->
  forall p, Store.file_at fs1 p = Store.file_at fs p.
Proof.
  unfold Store.readStore, Store.ensureDir, Store.bind, Store.existsSync_dir,
    Store.mkdirSync, Store.existsSync, Store.try_catch, Store.readFileSync,
    Store.lift, Store.ret.
  destruct fs as [[[cred auth] |] [|]]; cbn;
    try (intros [= <- <-]; now intros []).
  - destruct cred as [| | text]; cbn; try (intros [= <- <-]; reflexivity).
    destruct (JSON.parse text); intros [= <- <-]; reflexivity.
  - destruct cred as [| | text]; cbn; try (intros [= <- <-]; reflexivity).
    destruct (JSON.parse text); intros [= <- <-]; reflexivity.
Qed.

Lemma getAuthSession_same fs d :
  Store.botid_dir fs = Some d ->
  exists v, Store.getAuthSession fs = (Ok v, fs).
Proof.
  intros Hd. unfold Store.getAuthSession, Store.bind at 1.
  rewrite (StoreFacts.ensureDir_present fs d Hd).
  unfold Store.bind, Store.existsSync, Store.try_catch, Store.readFileSync,
    Store.lift, Store.ret.
  destruct (Store.file_at fs Store.AUTH_FILE) as [| | text] eqn:Hfile;
    cbn [negb]; cbv beta iota zeta; rewrite ?Hfile; cbv beta iota zeta; eauto.
  destruct (JSON.parse text); eauto.
Qed.

Lemma resolve_token_same options env_token fs d :
  Store.botid_dir fs = Some d ->
  exists token, resolve_token options env_token fs = (Ok token, fs).
Proof.
  intros Hd. unfold resolve_token.
  destruct (accessToken options) as [t |]; [now exists (JStr t) |].
  destruct env_token as [t |]; [now exists (JStr t) |].
  unfold Store.bind. destruct (getAuthSession_same fs d Hd) as [session ->].
  destruct session; cbn; eauto. destruct (JS.lookup _ _); eauto.
Qed.

(** The token that [init] falls back to is the one [getAccessToken()]
    gives. *)
Lemma resolve_token_session options fs :
  accessToken options = None ->
  resolve_token options None fs = Auth.getAccessToken None fs.
Proof.
  intros Hnone. unfold resolve_token, Auth.getAccessToken, Store.bind.
  rewrite Hnone.
  destruct (Store.getAuthSession fs) as [[session | e] fs1]; [| reflexivity].
  destruct session as [| | [|] | [| neg | m x] | [| c s] | l | ps];
    try reflexivity.
  cbn [JS.truthy negb]. destruct (negb (Num.rounds_to_zero m _)); reflexivity.
Qed.

Lemma writeStore_files store fs r fs' :
  Store.writeStore store fs = (r, fs') ->
  Store.file_at fs' Store.AUTH_FILE = Store.file_at fs Store.AUTH_FILE
  /\ (Exn.raises r ->
      Store.file_at fs' Store.CREDENTIALS_FILE
      = Store.file_at fs Store.CREDENTIALS_FILE).
Proof.
  unfold Store.writeStore, Store.ensureDir, Store.bind, Store.existsSync_dir,
    Store.mkdirSync, Store.writeFileSync, Store.ret.
  destruct fs as [[[cred auth] |] [|]]; cbn;
    try (intros [= <- <-]; now split).
  destruct cred; intros [= <- <-]; split; try reflexivity; intros [].
Qed.

Lemma saveCredentials_files creds fs r fs' :
  Store.saveCredentials creds fs = (r, fs') ->
  Store.file_at fs' Store.AUTH_FILE = Store.file_at fs Store.AUTH_FILE
  /\ (Exn.raises r ->
      Store.file_at fs' Store.CREDENTIALS_FILE
      = Store.file_at fs Store.CREDENTIALS_FILE).
Proof.
  unfold Store.saveCredentials, Store.bind at 1.
  destruct (Store.readStore fs) as [[store | e] fs1] eqn:Hread.
  - pose proof (readStore_files _ _ _ Hread) as Hsame.
    unfold Store.bind at 1, Store.lift.
    destruct (JS.get store "agents") as [agents | e];
      [| intros [= <- <-]; now rewrite !Hsame].
    unfold Store.bind.
    destruct (JS.assign agents _ _) as [agents' | e];
      [| intros [= <- <-]; now rewrite !Hsame].
    intros Hwrite. apply writeStore_files in Hwrite. now rewrite <- !Hsame.
  - pose proof (readStore_files _ _ _ Hread) as Hsame.
    intros [= <- <-]. now rewrite !Hsame.
Qed.

Lemma getCredentials_files name fs r fs1 :
  Store.getCredentials name fs = (r, fs1) ->
  forall p, Store.file_at fs1 p = Store.file_at fs p.
Proof.
  unfold Store.getCredentials, Store.bind at 1.
  destruct (Store.readStore fs) as [[store | e] fs0] eqn:Hread;
    pose proof (readStore_files _ _ _ Hread) as Hsame.
  - unfold Store.bind, Store.lift.
    destruct (JS.get store "agents") as [agents | e]; now intros [= _ <-].
  - now intros [= _ <-].
Qed.

Lemma getAuthSession_files fs r fs1 :
  Store.getAuthSession fs = (r, fs1) ->
  forall p, Store.file_at fs1 p = Store.file_at fs p.
Proof.
  unfold Store.getAuthSession, Store.ensureDir, Store.bind, Store.existsSync_dir,
    Store.mkdirSync, Store.existsSync, Store.try_catch, Store.readFileSync,
    Store.lift, Store.ret.
  destruct fs as [[[cred auth] |] [|]]; cbn;
    try (intros [= <- <-]; now intros []).
  - destruct auth as [| | text]; cbn; try (intros [= <- <-]; reflexivity).
    destruct (JSON.parse text); intros [= <- <-]; reflexivity.
  - destruct auth as [| | text]; cbn; try (intros [= <- <-]; reflexivity).
    destruct (JSON.parse text); intros [= <- <-]; reflexivity.
Qed.

Lemma resolve_token_files options env_token fs r fs1 :
  resolve_token options env_token fs = (r, fs1) ->
  forall p, Store.file_at fs1 p = Store.file_at fs p.
Proof.
  unfold resolve_token.
  destruct (accessToken options) as [t |]; [now intros [= _ <-] |].
  destruct env_token as [t |]; [now intros [= _ <-] |].
  unfold Store.bind.
  destruct (Store.getAuthSession fs) as [[session | e] fs0] eqn:Hsession;
    pose proof (getAuthSession_files _ _ _ Hsession) as Hsame.
  - destruct session; cbn; now intros [= _ <-].
  - now intros [= _ <-].
Qed.

Section WithCrypto.
Context `{C : NodeCrypto}.

(** X27.  An agent is registered once.  After an [init] that registered
    the agent and stored its credentials, every later [init] for the same
    name returns the same client (bot id, private key, registry URL)
    without contacting the registry and without writing anything, whatever
    token, URL or registry answer it is given.  The credentials file is
    taken to hold nothing, or a store written with strings only. *)
Theorem stored_agent_is_loaded
    (options : BotIDInitOptions) (env_token : option string) (r : Entropy)
    (answer : Auth.Answer RegistrationResponse) (now_ms : Z)
    (fs fs1 fs' : Store.FS) (store : JSValue) (agents : list (string * JSValue))
    (client : LoadedClient) (request : Registration) :
  Store.readStore fs = (Ok store, fs1) ->
  textual store = true ->
  JS.get store "agents" = Ok (JObj agents) ->
  Store.writable Store.CREDENTIALS_FILE fs ->
  name options <> "__proto__" ->
  init options env_token r answer now_ms fs = (Ok client, fs', [request]) ->
  forall options' env_token' r' answer' now_ms',
    name options' = name options ->
    init options' env_token' r' answer' now_ms' fs' = (Ok client, fs', []).
Proof.
  intros Hread Htext Hget Hw Hname Hinit options' env' r' answer' now' Hsame.
  destruct (CredentialFacts.readStore_ok _ _ _ Hread)
    as (Hro & Hfiles & (d & Hd) & Hread1).
  assert (Hw1 : Store.writable Store.CREDENTIALS_FILE fs1).
  { destruct Hw as [Hrw Hfile]. split; [congruence | now rewrite Hfiles]. }
  unfold init in Hinit.
  rewrite (CredentialFacts.getCredentials_of _ _ _ _ (name options) Hread Hget)
    in Hinit.
  destruct (JS.truthy _); [discriminate |].
  destruct (resolve_token_same options env_token fs1 d Hd) as [token Htoken].
  rewrite Htoken in Hinit.
  destruct (negb (JS.truthy token)); [discriminate |].
  destruct answer as [| status [data | e]]; try discriminate;
    [| destruct (negb (Net.ok status)); discriminate].
  destruct (negb (Net.ok status)); [discriminate |].
  destruct (negb (success data) || negb (Str.truthy (botId data)));
    [discriminate |].
  cbv zeta in Hinit.
  match type of Hinit with
  | context [Store.saveCredentials ?c fs1] => set (creds := c) in *
  end.
  destruct (CredentialFacts.saveCredentials_store creds fs1 store fs1 agents
              Hread1 Htext Hget Hw1 Hname)
    as (fs2 & store' & Hsave & Hback & Hget' & _).
  rewrite Hsave in Hinit. injection Hinit as <- <- <-.
  unfold init. rewrite Hsame.
  rewrite (CredentialFacts.getCredentials_of _ _ _ _ (name options) Hback Hget').
  change (name options) with (Store.name creds).
  rewrite CredentialFacts.lookup_set_same.
  cbv beta iota zeta.
  cbn [from_option]. unfold Datatypes.id. reflexivity.
Qed.

(** X28.  Without stored credentials and without a token, [init] fails
    with [Authentication required] before it generates a key or contacts
    the registry.  The store holds its agents in a plain object, and the
    name asked for is none that objects inherit from [Object.prototype].
    A token counts as missing when the explicit one is empty; when there is
    none and [BOTID_TOKEN] is empty; when there is neither and
    [getAccessToken()] finds nothing. *)
Theorem init_requires_authentication
    (options : BotIDInitOptions) (env_token : option string) (r : Entropy)
    (answer : Auth.Answer RegistrationResponse) (now_ms : Z)
    (fs fs1 : Store.FS) (store existing : JSValue)
    (agents : list (string * JSValue)) :
  Store.readStore fs = (Ok store, fs1) ->
  JS.get store "agents" = Ok (JObj agents) ->
  Outcomes.object_prototype_names (JObj agents) (name options) = false ->
  Store.getCredentials (name options) fs = (Ok existing, fs1) ->
  JS.truthy existing = false ->
  match accessToken options, env_token with
  | Some token, _ => token = EmptyString
  | None, Some token => token = EmptyString
  | None, None =>
      exists token, fst (Auth.getAccessToken None fs1) = Ok token
                    /\ JS.truthy token = false
  end ->
  exists fs2,
    init options env_token r answer now_ms fs
    = (Throw (Exn.Error authentication_required), fs2, [])
    /\ forall p, Store.file_at fs2 p = Store.file_at fs p.
Proof.
  intros _ _ _ Hcred Hfalsy Htoken. unfold init. rewrite Hcred, Hfalsy.
  pose proof (getCredentials_files _ _ _ _ Hcred) as Hsame1.
  destruct (resolve_token options env_token fs1) as [[token | e] fs2] eqn:Hres.
  - pose proof (resolve_token_files _ _ _ _ _ Hres) as Hsame2.
    assert (Hno : JS.truthy token = false).
    { destruct (accessToken options) as [t |] eqn:Ht.
      - unfold resolve_token in Hres. rewrite Ht in Hres.
        injection Hres as <- _. now subst t.
      - destruct env_token as [t |].
        + unfold resolve_token in Hres. rewrite Ht in Hres.
          injection Hres as <- _. now subst t.
        + rewrite (resolve_token_session options fs1 Ht) in Hres.
          destruct Htoken as (token' & Hget & Hno). rewrite Hres in Hget.
          cbn [fst] in Hget. now injection Hget as ->. }
    rewrite Hno. cbn [negb]. exists fs2. split; [reflexivity |].
    intros p. now rewrite Hsame2, Hsame1.
  - exfalso.
    destruct (accessToken options) as [t |] eqn:Ht.
    + unfold resolve_token in Hres. now rewrite Ht in Hres.
    + destruct env_token as [t |].
      * unfold resolve_token in Hres. now rewrite Ht in Hres.
      * rewrite (resolve_token_session options fs1 Ht) in Hres.
        destruct Htoken as (token' & Hget & _). now rewrite Hres in Hget.
Qed.

(** X29.  What goes to the registry.  [init] sends at most one
    registration; it goes to [/api/register] of the normalised URL with the
    agent's name and the public key of the generated pair, and it carries
    the first of: the explicit token, [BOTID_TOKEN], the token of the stored
    session. *)
Theorem registration_carries_first_token
    (options : BotIDInitOptions) (env_token : option string) (r : Entropy)
    (answer : Auth.Answer RegistrationResponse) (now_ms : Z)
    (fs fs' : Store.FS) (result : Result LoadedClient)
    (request : Registration) (more : list Registration) :
  init options env_token r answer now_ms fs = (result, fs', request :: more) ->
  more = []
  /\ reg_url request = normalizeUrl (apiUrl options) ++ "/api/register"
  /\ reg_name request = name options
  /\ reg_publicKey request = publicKey (generateKeypair r)
  /\ JS.truthy (bearer request) = true
  /\ match accessToken options, env_token with
     | Some token, _ => bearer request = JStr token
     | None, Some token => bearer request = JStr token
     | None, None =>
         fst (Auth.getAccessToken None
                (snd (Store.getCredentials (name options) fs)))
         = Ok (bearer request)
     end.
Proof.
  unfold init.
  destruct (Store.getCredentials (name options) fs) as [[existing | e] fs1];
    [| discriminate].
  destruct (JS.truthy existing); [discriminate |].
  destruct (resolve_token options env_token fs1) as [[token | e] fs2] eqn:Hres;
    [| discriminate].
  destruct (JS.truthy token) eqn:Htruthy; [| discriminate]. cbn [negb snd].
  assert (Hgoal : forall res fsx,
             (res, fsx,
              [{| reg_url := normalizeUrl (apiUrl options) ++ "/api/register";
                  bearer := token; reg_name := name options;
                  reg_publicKey := publicKey (generateKeypair r) |}])
             = (result, fs', request :: more) ->
             more = []
             /\ reg_url request = normalizeUrl (apiUrl options) ++ "/api/register"
             /\ reg_name request = name options
             /\ reg_publicKey request = publicKey (generateKeypair r)
             /\ JS.truthy (bearer request) = true
             /\ match accessToken options, env_token with
                | Some token, _ => bearer request = JStr token
                | None, Some token => bearer request = JStr token
                | None, None =>
                    fst (Auth.getAccessToken None fs1) = Ok (bearer request)
                end).
  { intros res fsx [= _ _ <- <-]. cbn [reg_url reg_name reg_publicKey bearer].
    repeat (split; [reflexivity || exact Htruthy |]).
    unfold resolve_token in Hres.
    destruct (accessToken options) as [t |] eqn:Ht;
      [now injection Hres as <- _ |].
    destruct env_token as [t |]; [now injection Hres as <- _ |].
    pose proof (resolve_token_session options fs1 Ht) as Hsession.
    unfold resolve_token in Hsession. rewrite Ht in Hsession.
    rewrite <- Hsession, Hres. reflexivity. }
  cbv zeta.
  destruct answer as [| status [data | e]]; try (apply Hgoal);
    destruct (negb (Net.ok status)); try (apply Hgoal).
  destruct (negb (success data) || negb (Str.truthy (botId data)));
    [apply Hgoal |].
  destruct (Store.saveCredentials _ fs2) as [[[] | e] fs3]; apply Hgoal.
Qed.

(** X30.  Credentials are stored only for an accepted registration.
    [init] never changes the session file; and when the credentials file is
    not as before, the registry answered the registration with a success
    status, [success] and a bot id, and [init] returns the client with that
    bot id and the private key just generated. *)
Theorem credentials_written_only_when_registered
    (options : BotIDInitOptions) (env_token : option string) (r : Entropy)
    (answer : Auth.Answer RegistrationResponse) (now_ms : Z)
    (fs fs' : Store.FS) (result : Result LoadedClient)
    (requests : list Registration) :
  init options env_token r answer now_ms fs = (result, fs', requests) ->
  Store.file_at fs' Store.AUTH_FILE = Store.file_at fs Store.AUTH_FILE
  /\ (Store.file_at fs' Store.CREDENTIALS_FILE
      <> Store.file_at fs Store.CREDENTIALS_FILE ->
      exists status data,
        answer = Auth.Answered status (Ok data)
        /\ Net.ok status = true /\ success data = true
        /\ botId data <> EmptyString
        /\ result
           = Ok {| client_botId := JStr (botId data);
                   client_privateKey := JStr (privateKey (generateKeypair r));
                   client_apiUrl := normalizeUrl (apiUrl options) |}).
Proof.
  unfold init.
  destruct (Store.getCredentials (name options) fs) as [[existing | e] fs1] eqn:Hcred;
    pose proof (getCredentials_files _ _ _ _ Hcred) as Hsame1;
    [| intros [= _ <- _]; rewrite !Hsame1; now split].
  destruct (JS.truthy existing);
    [intros [= _ <- _]; rewrite !Hsame1; now split |].
  destruct (resolve_token options env_token fs1) as [[token | e] fs2] eqn:Hres;
    pose proof (resolve_token_files _ _ _ _ _ Hres) as Hsame2;
    [| intros [= _ <- _]; rewrite !Hsame2, !Hsame1; now split].
  assert (Hkeep : forall res reqs,
             (res, fs2, reqs) = (result, fs', requests) ->
             Store.file_at fs' Store.AUTH_FILE = Store.file_at fs Store.AUTH_FILE
             /\ (Store.file_at fs' Store.CREDENTIALS_FILE
                 <> Store.file_at fs Store.CREDENTIALS_FILE ->
                 exists status data,
                   answer = Auth.Answered status (Ok data)
                   /\ Net.ok status = true /\ success data = true
                   /\ botId data <> EmptyString
                   /\ result
                      = Ok {| client_botId := JStr (botId data);
                              client_privateKey :=
                                JStr (privateKey (generateKeypair r));
                              client_apiUrl := normalizeUrl (apiUrl options) |})).
  { intros res reqs [= _ <- _]. rewrite !Hsame2, !Hsame1. now split. }
  destruct (negb (JS.truthy token)); [apply Hkeep |]. cbv zeta.
  destruct answer as [| status [data | e]]; try (apply Hkeep);
    destruct (Net.ok status) eqn:Hok; cbn [negb]; try (apply Hkeep).
  destruct (success data) eqn:Hsuccess; cbn [negb orb]; [| apply Hkeep].
  destruct (Str.truthy (botId data)) eqn:Hbot; cbn [negb]; [| apply Hkeep].
  destruct (Store.saveCredentials _ fs2) as [[[] | e] fs3] eqn:Hsave;
    apply saveCredentials_files in Hsave as [Hauth Hfail];
    intros [= <- <- _]; rewrite Hauth, Hsame2, Hsame1; (split; [reflexivity |]).
  - intros _. exists status, data. repeat split; try assumption.
    + intros Hempty. now rewrite Hempty in Hbot.
    + cbn [new_BotIDClient]. f_equal. f_equal.
      apply VerifyMore.normalizeUrl_fixed, VerifyMore.ends_with_slash_normalizeUrl.
  - intros Hchanged. exfalso. apply Hchanged.
    rewrite (Hfail I). now rewrite Hsame2, Hsame1.
Qed.

End WithCrypto.

Lemma stored_agent_is_loaded_witness :
  exists client fs' request,
    Outcomes.example_first_init = (Ok client, fs', [request])
    /\ init (H := Examples.toy_crypto)
         {| name := "my-agent"; accessToken := None;
            apiUrl := Some "https://elsewhere.example/" |}
         None Byte.x00 Auth.Unreachable 0 fs'
       = (Ok client, fs', []).
Proof.
  eexists _, _, _. split; [vm_compute; reflexivity |].
  eapply (stored_agent_is_loaded (C := Examples.toy_crypto)
            Outcomes.example_init_options (Some "env_token") Byte.x2a
            Outcomes.example_registration Examples.example_now
            Outcomes.example_store_files _ _ _ _ _ _
            CredentialFacts.example_store_read eq_refl eq_refl
            CredentialFacts.example_store_writable).
  - discriminate.
  - vm_compute. reflexivity.
  - reflexivity.
Defined.

Lemma init_requires_authentication_witness :
  exists fs2,
    init (H := Examples.toy_crypto)
      {| name := "my-agent"; accessToken := None; apiUrl := None |}
      (Some EmptyString) Byte.x2a Outcomes.example_registration
      Examples.example_now Outcomes.example_store_files
    = (Throw (Exn.Error authentication_required), fs2, [])
    /\ forall p, Store.file_at fs2 p = Store.file_at Outcomes.example_store_files p.
Proof.
  apply (init_requires_authentication (C := Examples.toy_crypto)
           {| name := "my-agent"; accessToken := None; apiUrl := None |}
           (Some EmptyString) Byte.x2a Outcomes.example_registration
           Examples.example_now Outcomes.example_store_files
           Outcomes.example_store_files _ JUndefined _
           CredentialFacts.example_store_read eq_refl).
  - reflexivity.
  - vm_compute. reflexivity.
  - reflexivity.
  - reflexivity.
Defined.

Lemma registration_carries_first_token_witness :
  exists request,
    snd Outcomes.example_first_init = [request]
    /\ reg_url request = "https://botid.net/api/register"
    /\ reg_name request = "my-agent"
    /\ reg_publicKey request
       = publicKey (generateKeypair (H := Examples.toy_crypto) Byte.x2a)
    /\ bearer request = JStr "explicit_token".
Proof.
  eexists. split; [vm_compute; reflexivity |].
  match goal with
  | |- reg_url ?request = _ /\ _ =>
      destruct (registration_carries_first_token (C := Examples.toy_crypto)
                  Outcomes.example_init_options (Some "env_token") Byte.x2a
                  Outcomes.example_registration Examples.example_now
                  Outcomes.example_store_files
                  (snd (fst Outcomes.example_first_init))
                  (fst (fst Outcomes.example_first_init)) request [])
        as (_ & Hurl & Hname & Hkey & _ & Hbearer)
  end.
  - vm_compute. reflexivity.
  - split; [exact Hurl |]. split; [exact Hname |]. split; [exact Hkey |].
    exact Hbearer.
Defined.

Lemma credentials_written_only_when_registered_witness :
  let fs' := snd (fst Outcomes.example_first_init) in
  Store.file_at fs' Store.AUTH_FILE
  = Store.file_at Outcomes.example_store_files Store.AUTH_FILE
  /\ exists status data,
       Outcomes.example_registration = Auth.Answered status (Ok data)
       /\ Net.ok status = true /\ success data = true
       /\ botId data <> EmptyString
       /\ fst (fst Outcomes.example_first_init)
          = Ok {| client_botId := JStr (botId data);
                  client_privateKey :=
                    JStr (privateKey
                            (generateKeypair (H := Examples.toy_crypto) Byte.x2a));
                  client_apiUrl := normalizeUrl None |}.
Proof.
  intros fs'.
  destruct (credentials_written_only_when_registered (C := Examples.toy_crypto)
              Outcomes.example_init_options (Some "env_token") Byte.x2a
              Outcomes.example_registration Examples.example_now
              Outcomes.example_store_files fs'
              (fst (fst Outcomes.example_first_init))
              (snd Outcomes.example_first_init))
    as [Hauth Hchanged].
  - vm_compute. reflexivity.
  - split; [exact Hauth |]. apply Hchanged. vm_compute. discriminate.
Defined.

End InitFacts.
